(** * Library inventory manager (LAB ASSIGNMENT-4): Book and LibraryInventory

    A shallow embedding of the two classes of [LAB ASSIGNMENT-4 (1).py]:
    the [Book] dataclass and the [LibraryInventory] store with its JSON
    persistence.  Python strings are sequences of code points; here they are
    [string]s whose characters stand for the code points 0..255.  Exceptions
    are values of [exn]; a method that mutates [self] is a function from the
    object (and, for the store, the file system) to an outcome and the
    object afterwards.  Files are modelled up to [json.load]: a file holds
    a JSON value, text that is not JSON, or content on which reading fails
    before the parser reports bad JSON.  The terminal of the menu
    loop is a list of input lines and a list of what was printed.  The two
    plotting scripts of the repository are not modelled. *)

From Stdlib Require Import String Ascii List Lia.
From stdpp Require Import gmap strings list.

Import ListNotations.
Local Set Warnings "-register-all".
Local Open Scope string_scope.
Local Open Scope list_scope.

(** ** Python strings: [str.strip] *)

Module PyStr.

(** [str.isspace] of a single character, on the code points 0..255:
    TAB, LF, VT, FF, CR, the separators FS GS RS US, SPACE, NEL and NBSP. *)
Definition isspace (c : ascii) : bool :=
  let n := nat_of_ascii c in
  (((9 <=? n) && (n <=? 13)) || ((28 <=? n) && (n <=? 32))
   || (n =? 133) || (n =? 160))%nat.

Fixpoint lstrip (s : string) : string :=
  match s with
  | EmptyString => EmptyString
  | String c r => if isspace c then lstrip r else s
  end.

Fixpoint rstrip (s : string) : string :=
  match s with
  | EmptyString => EmptyString
  | String c r =>
      match rstrip r with
      | EmptyString => if isspace c then EmptyString else String c EmptyString
      | r' => String c r'
      end
  end.

(** [s.strip()]: the slice between the first and the last character that is
    not whitespace. *)
Definition strip (s : string) : string := rstrip (lstrip s).

End PyStr.

(** ** Exceptions and outcomes *)

(** The operating-system errors a file operation can raise.  In Python they
    are subclasses of [OSError]; [ENOENT] is [FileNotFoundError]. *)
Inductive os_error : Type :=
| ENOENT          (* FileNotFoundError *)
| EACCES          (* PermissionError *)
| EISDIR          (* IsADirectoryError *)
| EEXIST          (* FileExistsError *)
| EIO.            (* any other OSError *)

Inductive exn : Type :=
| ValueError (msg : string)
| JSONDecodeError            (* a subclass of ValueError, caught by its own clause *)
| UnicodeDecodeError         (* a subclass of ValueError, not of JSONDecodeError *)
| RecursionError
| AttributeError
| OSError (e : os_error).

(** The outcome of a call: it returns a value or raises. *)
Inductive outcome (A : Type) : Type :=
| Return (a : A)
| Raise (e : exn).
Arguments Return {A} a.
Arguments Raise {A} e.

Definition is_FileNotFoundError (e : exn) : bool :=
  match e with OSError ENOENT => true | _ => false end.

Definition is_JSONDecodeError (e : exn) : bool :=
  match e with JSONDecodeError => true | _ => false end.

(** ** JSON values, as [json.load] returns them *)

Inductive json : Type :=
| JNull
| JBool (b : bool)
| JNum (n : Z)
| JStr (s : string)
| JArr (l : list json)
| JObj (d : gmap string json).

(** ** class Book *)

Record Book : Type := mkBook {
  title : string;
  author : string;
  isbn : string;
  status : string
}.

Definition set_status (b : Book) (s : string) : Book :=
  {| title := title b; author := author b; isbn := isbn b; status := s |}.

Module Book.

(** [status not in ("available", "issued")] *)
Definition status_recognized (s : string) : bool :=
  String.eqb s "available" || String.eqb s "issued".

(** [__post_init__]: runs on the four fields the generated [__init__] stored. *)
Definition post_init (b : Book) : Book :=
  {| title := PyStr.strip (title b);
     author := PyStr.strip (author b);
     isbn := PyStr.strip (isbn b);
     status := if status_recognized (status b) then status b else "available" |}.

(** [Book(title, author, isbn, status="available")]: [None] is the omitted
    keyword argument. *)
Definition new (t a i : string) (st : option string) : Book :=
  post_init (mkBook t a i (default "available" st)).

(** [to_dict]: [asdict(self)]. *)
Definition to_dict (b : Book) : gmap string json :=
  <["title" := JStr (title b)]>
  (<["author" := JStr (author b)]>
  (<["isbn" := JStr (isbn b)]>
  (<["status" := JStr (status b)]> ∅))).

(** [d.get(key, dflt).strip()]: the value stored under [key], or [dflt]; a
    value that is not a [str] has no [strip] attribute. *)
Definition get_strip (d : gmap string json) (key dflt : string) : outcome string :=
  match d !! key with
  | None => Return (PyStr.strip dflt)
  | Some (JStr s) => Return (PyStr.strip s)
  | Some _ => Raise AttributeError
  end.

(** [from_dict(cls, d)]: the keyword arguments are evaluated in order, then
    the constructor runs. *)
Definition from_dict (d : gmap string json) : outcome Book :=
  match get_strip d "title" "" with
  | Raise e => Raise e
  | Return t =>
  match get_strip d "author" "" with
  | Raise e => Raise e
  | Return a =>
  match get_strip d "isbn" "" with
  | Raise e => Raise e
  | Return i =>
  match get_strip d "status" "available" with
  | Raise e => Raise e
  | Return s => Return (new t a i (Some s))
  end end end end.

(** [issue]: the outcome and the object afterwards. *)
Definition issue (b : Book) : outcome unit * Book :=
  if String.eqb (status b) "issued"
  then (Raise (ValueError "Book already issued."), b)
  else (Return tt, set_status b "issued").

Definition return_book (b : Book) : outcome unit * Book :=
  if String.eqb (status b) "available"
  then (Raise (ValueError "Book is not issued."), b)
  else (Return tt, set_status b "available").

Definition is_available (b : Book) : bool := String.eqb (status b) "available".

End Book.

(** ** pathlib: the pure path operations [load] uses *)

(** A path is its directory part and its final component; the final
    component is empty for the root and for the current directory. *)
Record Path : Type := mkPath {
  parent : string;
  name : string
}.

Global Instance Path_eq_dec : EqDecision Path.
Proof. solve_decision. Defined.

Global Instance Path_countable : Countable Path.
Proof.
  refine (inj_countable' (fun p => (parent p, name p))
                         (fun q => mkPath (fst q) (snd q)) _).
  intros [d n]. reflexivity.
Defined.

Module Pathlib.

Fixpoint sdrop (n : nat) (s : string) : string :=
  match n, s with
  | S n', String _ r => sdrop n' r
  | _, _ => s
  end.

Fixpoint stake (n : nat) (s : string) : string :=
  match n, s with
  | S n', String c r => String c (stake n' r)
  | _, _ => EmptyString
  end.

(** [s.rfind(c)], with [None] for Python's -1. *)
Fixpoint rfind (c : ascii) (s : string) : option nat :=
  match s with
  | EmptyString => None
  | String x r =>
      match rfind c r with
      | Some i => Some (S i)
      | None => if Ascii.eqb x c then Some 0 else None
      end
  end.

(** [c in s] *)
Fixpoint contains (c : ascii) (s : string) : bool :=
  match s with
  | EmptyString => false
  | String x r => Ascii.eqb x c || contains c r
  end.

Definition startswith_dot (s : string) : bool :=
  match s with
  | String x _ => Ascii.eqb x "."
  | EmptyString => false
  end.

(** [PurePath.suffix]: from the last dot of the name, unless that dot is the
    first or the last character. *)
Definition suffix (p : Path) : string :=
  match rfind "." (name p) with
  | Some i =>
      if ((0 <? i) && (i <? String.length (name p) - 1))%nat
      then sdrop i (name p) else ""
  | None => ""
  end.

(** [PurePath.with_suffix(suffix)] *)
Definition with_suffix (p : Path) (sfx : string) : outcome Path :=
  if contains "/" sfx then Raise (ValueError "Invalid suffix")
  else if (negb (String.eqb sfx "") && negb (startswith_dot sfx))
          || String.eqb sfx "."
  then Raise (ValueError "Invalid suffix")
  else if String.eqb (name p) "" then Raise (ValueError "path has an empty name")
  else
    let old_suffix := suffix p in
    Return (mkPath (parent p)
      (if String.eqb old_suffix "" then name p ++ sfx
       else stake (String.length (name p) - String.length old_suffix) (name p) ++ sfx)).

End Pathlib.

(** ** The world of a LibraryInventory: files, I/O faults, the log *)

(** Content on which [json.load(f)] raises something else than
    [JSONDecodeError]: bytes that are not UTF-8, which [f.read()] cannot
    decode; JSON nested beyond the recursion limit; an integer literal with
    more digits than [int] converts, with the message of the [ValueError]. *)
Inductive unloadable : Type :=
| Not_utf8
| Too_deep
| Int_too_long (msg : string).

Definition load_error (u : unloadable) : exn :=
  match u with
  | Not_utf8 => UnicodeDecodeError
  | Too_deep => RecursionError
  | Int_too_long msg => ValueError msg
  end.

(** What a file holds, as [json.load] sees it: text on which it raises
    [JSONDecodeError], the text of a JSON value, or content on which it
    raises another exception. *)
Inductive content : Type :=
| Malformed (raw : string)
| Doc (j : json)
| Unloadable (u : unloadable).

(** One constructor for each logging call of the class, with the values its
    message interpolates. *)
Inductive log_event : Type :=
| Log_loaded_inventory (p : Path)          (* info, __init__ *)
| Log_failed_to_load (e : exn)             (* exception, __init__ *)
| Log_duplicate_isbn (i : string)          (* error, add_book *)
| Log_added (b : Book)                     (* info, add_book *)
| Log_found_by_isbn (i : string)           (* info, search_by_isbn *)
| Log_no_book_found (i : string)           (* info, search_by_isbn *)
| Log_issue_nonexistent (i : string)       (* error, issue_book_by_isbn *)
| Log_issue_already_issued (i : string)    (* error, issue_book_by_isbn *)
| Log_issued (i : string)                  (* info, issue_book_by_isbn *)
| Log_return_nonexistent (i : string)      (* error, return_book_by_isbn *)
| Log_return_available (i : string)        (* error, return_book_by_isbn *)
| Log_returned (i : string)                (* info, return_book_by_isbn *)
| Log_saved (p : Path)                     (* info, save *)
| Log_failed_to_save                       (* exception, save *)
| Log_loaded_books (n : nat) (p : Path)    (* info, load *)
| Log_json_decoding_error                  (* exception, load *)
| Log_corrupted_moved (cp : Path)          (* error, load *)
| Log_failed_to_rename                     (* exception, load *)
| Log_not_found_starting_empty             (* warning, load *)
| Log_unexpected_error.                    (* exception, load *)

(** [faults] schedules the failures of the operating system: each file
    operation takes the next entry, [Some e] makes it raise [OSError e], and
    [None] (or an exhausted schedule) lets it proceed. *)
Record World : Type := mkWorld {
  cwd : string;
  files : gmap Path content;
  faults : list (option os_error);
  log : list log_event
}.

Record Inventory : Type := mkInventory {
  json_path : Path;
  books : list Book
}.

(** ** Methods: a state and exception monad over the object and the world *)

Definition M (A : Type) : Type :=
  Inventory -> World -> outcome A * Inventory * World.

Definition ret {A} (a : A) : M A := fun s w => (Return a, s, w).

Definition raise {A} (e : exn) : M A := fun s w => (Raise e, s, w).

Definition bind {A B} (m : M A) (k : A -> M B) : M B :=
  fun s w =>
    match m s w with
    | (Return a, s', w') => k a s' w'
    | (Raise e, s', w') => (Raise e, s', w')
    end.

(** [try: m  except Exception as e: h e] *)
Definition try_except {A} (m : M A) (h : exn -> M A) : M A :=
  fun s w =>
    match m s w with
    | (Raise e, s', w') => h e s' w'
    | r => r
    end.

Definition lift {A} (o : outcome A) : M A := fun s w => (o, s, w).

Declare Scope py_scope.
Delimit Scope py_scope with py.
Notation "x <- m ;; k" := (bind m (fun x => k))
  (at level 100, m at next level, right associativity) : py_scope.
Notation "m ;;; k" := (bind m (fun _ => k))
  (at level 100, right associativity) : py_scope.
Local Open Scope py_scope.

Definition get_books : M (list Book) := fun s w => (Return (books s), s, w).
Definition get_path : M Path := fun s w => (Return (json_path s), s, w).

(** [self.books = bs] *)
Definition set_books (bs : list Book) : M unit :=
  fun s w => (Return tt, mkInventory (json_path s) bs, w).

(** [logging.getLogger(__name__).<level>(...)] *)
Definition logging (ev : log_event) : M unit :=
  fun s w => (Return tt, s, mkWorld (cwd w) (files w) (faults w) (log w ++ [ev])).

Module Os.

(** The next entry of the fault schedule. *)
Definition next_fault (w : World) : option os_error * World :=
  match faults w with
  | [] => (None, w)
  | f :: rest => (f, mkWorld (cwd w) (files w) rest (log w))
  end.

Definition with_files (w : World) (fs : gmap Path content) : World :=
  mkWorld (cwd w) fs (faults w) (log w).

(** [path.exists()] *)
Definition path_exists (p : Path) : M bool :=
  fun s w => (Return (bool_decide (is_Some (files w !! p))), s, w).

(** [with open(p, "r", encoding="utf-8") as f: data = json.load(f)] *)
Definition read_json (p : Path) : M json :=
  fun s w =>
    match next_fault w with
    | (Some e, w1) => (Raise (OSError e), s, w1)
    | (None, w1) =>
        match files w1 !! p with
        | None => (Raise (OSError ENOENT), s, w1)
        | Some (Malformed _) => (Raise JSONDecodeError, s, w1)
        | Some (Doc j) => (Return j, s, w1)
        | Some (Unloadable u) => (Raise (load_error u), s, w1)
        end
    end.

(** [with open(p, "w", encoding="utf-8") as f: json.dump(j, f, ...)]:
    a failure of [open] leaves the file as it was; once opened the file is
    truncated, and a failure while writing leaves it without a document.
    Every string of this model is text of the code points 0..255, which
    UTF-8 encodes, so the [UnicodeEncodeError] of a string with a lone
    surrogate does not arise here. *)
Definition write_json (p : Path) (j : json) : M unit :=
  fun s w =>
    match next_fault w with
    | (Some e, w1) => (Raise (OSError e), s, w1)
    | (None, w1) =>
        match next_fault w1 with
        | (Some e, w2) =>
            (Raise (OSError e), s, with_files w2 (<[p := Malformed ""]> (files w2)))
        | (None, w2) => (Return tt, s, with_files w2 (<[p := Doc j]> (files w2)))
        end
    end.

(** [p.rename(q)], with the POSIX behaviour of replacing [q]. *)
Definition rename (p q : Path) : M unit :=
  fun s w =>
    match next_fault w with
    | (Some e, w1) => (Raise (OSError e), s, w1)
    | (None, w1) =>
        match files w1 !! p with
        | None => (Raise (OSError ENOENT), s, w1)
        | Some c => (Return tt, s, with_files w1 (<[q := c]> (delete p (files w1))))
        end
    end.

End Os.

(** ** class LibraryInventory *)

Module LibraryInventory.

(** [any(b.isbn == book.isbn for b in self.books)] *)
Definition isbn_taken (i : string) (bs : list Book) : bool :=
  existsb (fun b => String.eqb (isbn b) i) bs.

Definition add_book (book : Book) : M unit :=
  bs <- get_books;;
  if isbn_taken (isbn book) bs then
    logging (Log_duplicate_isbn (isbn book));;;
    raise (ValueError "Book with same ISBN already exists.")
  else
    set_books (bs ++ [book]);;;
    logging (Log_added book).

(** The position of the first book of the list with the given ISBN: the
    [for] loop of [search_by_isbn]. *)
Fixpoint first_with_isbn (i : string) (bs : list Book) : option nat :=
  match bs with
  | [] => None
  | b :: rest =>
      if String.eqb (isbn b) i then Some 0%nat
      else option_map S (first_with_isbn i rest)
  end.

(** [search_by_isbn]: the book found is an object of [self.books]; the
    reference to it is its position in the list. *)
Definition search_by_isbn (i : string) : M (option nat) :=
  let i := PyStr.strip i in
  bs <- get_books;;
  match first_with_isbn i bs with
  | Some k => logging (Log_found_by_isbn i);;; ret (Some k)
  | None => logging (Log_no_book_found i);;; ret None
  end.

(** Calling a method of the book at position [k]: the object is updated in
    place.  Positions come from [search_by_isbn], so the last case does not
    arise. *)
Definition on_book {A} (k : nat) (method : Book -> outcome A * Book) : M A :=
  fun s w =>
    match books s !! k with
    | Some b =>
        let '(r, b') := method b in
        (r, mkInventory (json_path s) (<[k := b']> (books s)), w)
    | None => (Raise AttributeError, s, w)
    end.

Definition book_is_available (k : nat) : M bool :=
  on_book k (fun b => (Return (Book.is_available b), b)).

(** [[b.to_dict() for b in self.books]] *)
Definition to_dicts (bs : list Book) : json :=
  JArr (map (fun b => JObj (Book.to_dict b)) bs).

Definition save : M unit :=
  try_except
    (p <- get_path;;
     bs <- get_books;;
     Os.write_json p (to_dicts bs);;;
     logging (Log_saved p))
    (fun e => logging Log_failed_to_save;;; raise e).

Definition issue_book_by_isbn (i : string) : M unit :=
  book <- search_by_isbn i;;
  match book with
  | None =>
      logging (Log_issue_nonexistent i);;;
      raise (ValueError "Book not found.")
  | Some k =>
      avail <- book_is_available k;;
      if negb avail then
        logging (Log_issue_already_issued i);;;
        raise (ValueError "Book already issued.")
      else
        on_book k Book.issue;;;
        save;;;
        logging (Log_issued i)
  end.

Definition return_book_by_isbn (i : string) : M unit :=
  book <- search_by_isbn i;;
  match book with
  | None =>
      logging (Log_return_nonexistent i);;;
      raise (ValueError "Book not found.")
  | Some k =>
      avail <- book_is_available k;;
      if avail then
        logging (Log_return_available i);;;
        raise (ValueError "Book is not issued.")
      else
        on_book k Book.return_book;;;
        save;;;
        logging (Log_returned i)
  end.

(** [Book.from_dict(item)] on an element of the loaded list: an element that
    is not an object has no [get]. *)
Definition from_item (item : json) : outcome Book :=
  match item with
  | JObj d => Book.from_dict d
  | _ => Raise AttributeError
  end.

(** [[Book.from_dict(item) for item in data]] *)
Fixpoint from_items (data : list json) : outcome (list Book) :=
  match data with
  | [] => Return []
  | item :: rest =>
      match from_item item with
      | Raise e => Raise e
      | Return b =>
          match from_items rest with
          | Raise e => Raise e
          | Return bs => Return (b :: bs)
          end
      end
  end.

(** The [try: self.save() except Exception: pass] of the recovery paths. *)
Definition save_ignoring_errors : M unit :=
  try_except save (fun _ => ret tt).

Definition load : M unit :=
  p <- get_path;;
  try_except
    (present <- Os.path_exists p;;
     if negb present then
       set_books [];;;
       save
     else
       data <- Os.read_json p;;
       match data with
       | JArr items =>
           bs <- lift (from_items items);;
           set_books bs;;;
           logging (Log_loaded_books (length bs) p)
       | _ => raise (ValueError "Invalid JSON structure for books (expected list).")
       end)
    (fun e =>
       if is_JSONDecodeError e then
         logging Log_json_decoding_error;;;
         corrupt_path <- lift (Pathlib.with_suffix p (Pathlib.suffix p ++ ".corrupt"));;
         try_except
           (Os.rename p corrupt_path;;;
            logging (Log_corrupted_moved corrupt_path))
           (fun _ => logging Log_failed_to_rename);;;
         set_books [];;;
         save_ignoring_errors
       else if is_FileNotFoundError e then
         logging Log_not_found_starting_empty;;;
         set_books [];;;
         save_ignoring_errors
       else
         logging Log_unexpected_error;;;
         raise e).

(** [Path.cwd() / "data" / "books.json"] *)
Definition default_json_path (w : World) : Path :=
  mkPath (cwd w ++ "/data") "books.json".

(** [__init__(json_path=None)]: the object and the world after construction.
    Creating the parent directory and configuring the logger are left out:
    the model has no directories and the log is a list of events. *)
Definition init (path : option Path) (w : World) : Inventory * World :=
  let p := default (default_json_path w) path in
  let '(_, s, w') :=
    try_except
      (load;;; logging (Log_loaded_inventory p))
      (fun e => logging (Log_failed_to_load e))
      (mkInventory p []) w in
  (s, w').

End LibraryInventory.

(** ** Reading a record from a map, field by field *)

(** The string [d.get(key, dflt)] yields: the stored string, or the default
    for a missing key. *)
Definition field (d : gmap string json) (key dflt : string) : string :=
  match d !! key with
  | Some (JStr s) => s
  | _ => dflt
  end.

(** The key is missing or holds a string. *)
Definition str_or_missing (d : gmap string json) (key : string) : bool :=
  match d !! key with
  | None | Some (JStr _) => true
  | Some _ => false
  end.

(** The constructor applied to the (possibly defaulted) field values of a
    map, as they are. *)
Definition construct_of_fields (d : gmap string json) : Book :=
  Book.new (field d "title" "") (field d "author" "") (field d "isbn" "")
           (Some (field d "status" "available")).

(** ** Paths that name a file *)

(** The final component is not empty and holds no separator. *)
Definition names_a_file (p : Path) : Prop :=
  name p <> "" /\ Pathlib.contains "/" (name p) = false.

(** The name of the file with [".corrupt"] appended, next to it. *)
Definition corrupt_sibling (p : Path) : Path :=
  mkPath (parent p) (name p ++ ".corrupt").

(** ** Callers of the store *)

(** The failure that the [n]-th coming file operation meets, if any. *)
Definition fault_at (n : nat) (w : World) : option os_error :=
  default None (faults w !! n).

(** The world after [n] file operations that changed the files to [fs] and
    logged [evs]. *)
Definition world_after (w : World) (n : nat) (fs : gmap Path content)
    (evs : list log_event) : World :=
  mkWorld (cwd w) fs (drop n (faults w)) (log w ++ evs).

(** A call of a public method of the store.  A book that is added is built
    by the constructor, as the menu loop does. *)
Inductive call : Type :=
| Call_add (t a i : string) (st : option string)
| Call_issue (i : string)
| Call_return (i : string)
| Call_save
| Call_load.

Definition run_call (c : call) : M unit :=
  match c with
  | Call_add t a i st => LibraryInventory.add_book (Book.new t a i st)
  | Call_issue i => LibraryInventory.issue_book_by_isbn i
  | Call_return i => LibraryInventory.return_book_by_isbn i
  | Call_save => LibraryInventory.save
  | Call_load => LibraryInventory.load
  end.

(** A caller that makes the calls one after the other and goes on after a
    call that raised. *)
Fixpoint run_calls (cs : list call) (s : Inventory) (w : World) : Inventory * World :=
  match cs with
  | [] => (s, w)
  | c :: rest =>
      let '(_, s', w') := run_call c s w in
      run_calls rest s' w'
  end.

(** After the guards, [issue_book_by_isbn] and [return_book_by_isbn] change
    the status of the book found and call [save]. *)
Definition transition_then_save (k : nat) (b : Book) (st : string)
    (found done : log_event) (s : Inventory) (w : World)
    : outcome unit * Inventory * World :=
  let s1 := mkInventory (json_path s) (<[k := set_status b st]> (books s)) in
  match LibraryInventory.save s1 (world_after w 0 (files w) [found]) with
  | (Return _, s2, w2) => (Return tt, s2, world_after w2 0 (files w2) [done])
  | (Raise e, s2, w2) => (Raise e, s2, w2)
  end.

(** The body of the [try] statement of [load], and its [except] clauses as
    a function of the exception caught. *)
Definition load_try (p : Path) : M unit :=
  present <- Os.path_exists p;;
  if negb present then
    set_books [];;;
    LibraryInventory.save
  else
    data <- Os.read_json p;;
    match data with
    | JArr items =>
        bs <- lift (LibraryInventory.from_items items);;
        set_books bs;;;
        logging (Log_loaded_books (length bs) p)
    | _ => raise (ValueError "Invalid JSON structure for books (expected list).")
    end.

Definition load_except (p : Path) (e : exn) : M unit :=
  if is_JSONDecodeError e then
    logging Log_json_decoding_error;;;
    corrupt_path <- lift (Pathlib.with_suffix p (Pathlib.suffix p ++ ".corrupt"));;
    try_except
      (Os.rename p corrupt_path;;;
       logging (Log_corrupted_moved corrupt_path))
      (fun _ => logging Log_failed_to_rename);;;
    set_books [];;;
    LibraryInventory.save_ignoring_errors
  else if is_FileNotFoundError e then
    logging Log_not_found_starting_empty;;;
    set_books [];;;
    LibraryInventory.save_ignoring_errors
  else
    logging Log_unexpected_error;;;
    raise e.

(** ** Uniqueness of ISBNs *)

Definition distinct_isbns (bs : list Book) : Prop := NoDup (map isbn bs).

Definition trimmed_isbns (bs : list Book) : Prop :=
  Forall (fun b => PyStr.strip (isbn b) = isbn b) bs.

(** What is stored at the path, if it is a list that [load] can turn into
    books, yields books with distinct ISBNs. *)
Definition loads_distinct (c : option content) : Prop :=
  match c with
  | Some (Doc (JArr items)) =>
      match LibraryInventory.from_items items with
      | Return bs => distinct_isbns bs
      | Raise _ => True
      end
  | _ => True
  end.

(** The invariant of a store at path [p]. *)
Definition store_inv (p : Path) (s : Inventory) (w : World) : Prop :=
  json_path s = p /\ distinct_isbns (books s) /\ trimmed_isbns (books s) /\
  loads_distinct (files w !! p).

(** A computation keeps the invariant, however it ends. *)
Definition keeps {A} (p : Path) (m : M A) : Prop :=
  forall s w, store_inv p s w -> store_inv p (m s w).1.2 (m s w).2.

(** ** More of Python's str: [lower] and [in] *)

Module PyStrSearch.

(** [c.lower()] on the code points 0..255: the letters A-Z and the Latin-1
    capitals U+00C0..U+00DE, the multiplication sign U+00D7 excepted, move up
    by 32.  On these code points [str.lower] works character by character;
    beyond them it does not (a capital sigma is lowered by its position in
    the word), so nothing below is stated through the lowering of a
    concatenation. *)
Definition lower_char (c : ascii) : ascii :=
  let n := nat_of_ascii c in
  if (((65 <=? n) && (n <=? 90)) || ((192 <=? n) && (n <=? 214))
      || ((216 <=? n) && (n <=? 222)))%nat
  then ascii_of_nat (n + 32) else c.

Fixpoint lower (s : string) : string :=
  match s with
  | EmptyString => EmptyString
  | String c r => String (lower_char c) (lower r)
  end.

(** [t.startswith(s)] *)
Fixpoint startswith (s t : string) : bool :=
  match s, t with
  | EmptyString, _ => true
  | String x s', String y t' => Ascii.eqb x y && startswith s' t'
  | String _ _, EmptyString => false
  end.

(** [s in t]: [s] occurs in [t] as a slice. *)
Fixpoint contains (s t : string) : bool :=
  startswith s t ||
  match t with
  | EmptyString => false
  | String _ t' => contains s t'
  end.

End PyStrSearch.

(** ** LibraryInventory.search_by_title *)

(** The list comprehension of [search_by_title], on the trimmed and lowered
    query. *)
Definition title_matches (s : string) (b : Book) : bool :=
  PyStrSearch.contains s (PyStrSearch.lower (title b)).

(** [search_by_title]: the books found are objects of [self.books], in the
    order of the list.  The info line the method logs has no event among
    [log_event] and is not recorded. *)
Definition search_by_title (title_substr : string) : M (list Book) :=
  let s := PyStrSearch.lower (PyStr.strip title_substr) in
  bs <- get_books;;
  ret (List.filter (title_matches s) bs).

(** ** Vocabulary for the further properties *)


(** A book on which the normalization of [__post_init__] changes nothing:
    title, author and ISBN are trimmed and the status is one of the two
    recognized values. *)
Definition normalized (b : Book) : Prop := Book.post_init b = b.

(** A property of the object holds after a computation, however it ends,
    when it held before. *)
Definition holds_after {A} (P : Inventory -> Prop) (m : M A) : Prop :=
  forall s w, P s -> P (m s w).1.2.

(** The store is at path [p] and its books are normalized. *)
Definition normalized_store (p : Path) (s : Inventory) : Prop :=
  json_path s = p /\ Forall normalized (books s).

(** Store [s'] has the path and the books of [s], except that the status of
    the first book whose ISBN is the trimmed [i] may differ. *)
Definition only_first_status_differs (i : string) (s s' : Inventory) : Prop :=
  json_path s' = json_path s /\
  length (books s') = length (books s) /\
  forall j b', books s' !! j = Some b' ->
    exists b, books s !! j = Some b /\
      title b' = title b /\ author b' = author b /\ isbn b' = isbn b /\
      (status b' = status b \/
       LibraryInventory.first_with_isbn (PyStr.strip i) (books s) = Some j).

(** Every exception a computation raises satisfies [Q]. *)
Definition raises_only {A} (Q : exn -> Prop) (m : M A) : Prop :=
  forall s w e, (m s w).1.1 = Raise e -> Q e.

(** An element of the persisted list that [Book.from_dict] accepts: an
    object whose four keys are missing or hold strings. *)
Definition loadable_item (item : json) : bool :=
  match item with
  | JObj d =>
      str_or_missing d "title" && str_or_missing d "author" &&
      str_or_missing d "isbn" && str_or_missing d "status"
  | _ => false
  end.

(** The books are those of the list stored at [p] in the world [w], read
    without a fault. *)
Definition loaded_from (w : World) (p : Path) (bs : list Book) : Prop :=
  exists items,
    files w !! p = Some (Doc (JArr items)) /\ fault_at 0 w = None /\
    LibraryInventory.from_items items = Return bs.

(** ** The menu loop: terminal, [prompt_nonempty], [cli_main] *)

(** [str(b)], the display form [__str__] builds from the four fields.  Its
    separator is a character outside the code points of the model's strings,
    so the form is kept as the book it shows. *)
Inductive repr : Type :=
| Str (b : Book).

(** What the program writes to the terminal: one constructor for each kind
    of [print] and for the prompt of [input], with the values the text
    interpolates. *)
Inductive printed : Type :=
| Prompt (text : string)          (* the prompt that input(text) writes *)
| Line (text : string)            (* print(text) *)
| Error_line (e : exn)            (* print(f"Error: {ve}") *)
| Bullet (r : repr)               (* print(" -", r) *)
| Repr_line (r : repr)            (* print(b) *)
| Results_line (n : nat)          (* print(f"{len(res)} result(s):") *)
| Unexpected_line (e : exn)       (* print(f"An unexpected error occurred: {e}") *)
| Unexpected_eof                  (* the same line for the EOFError of input *)
| Traceback.                      (* print(traceback.format_exc()) *)

(** The terminal: the lines still to be read, the end of the list being the
    end of the input, and what has been written. *)
Record Console : Type := mkConsole {
  stdin : list string;
  stdout : list printed
}.

(** What ends a computation of the menu loop early: an exception of the
    store, the [EOFError] of [input], or the [KeyboardInterrupt] that
    [prompt_nonempty] raises at the end of the input.  Signals from the
    keyboard are not modelled. *)
Inductive cli_exn : Type :=
| Store_error (e : exn)
| EOFError
| KeyboardInterrupt.

Inductive cli_outcome (A : Type) : Type :=
| Done (a : A)
| Fail (e : cli_exn).
Arguments Done {A} a.
Arguments Fail {A} e.

Definition Cli (A : Type) : Type :=
  Console -> Inventory -> World -> cli_outcome A * Console * Inventory * World.

(** How one turn of the [while True] loop ends. *)
Inductive turn : Type :=
| Continue
| Break                  (* break: cli_main returns *)
| Sys_exit (code : nat). (* sys.exit(code) *)

(** How the run of the loop ends, [Running] when the turns allotted are
    used up. *)
Inductive ending : Type :=
| Returned
| Exited (code : nat)
| Running.

(** [display_all]: the display forms of the books, in the order of the
    list.  The info line it logs has no event among [log_event]. *)
Definition display_all : M (list repr) :=
  bs <- get_books;;
  ret (map Str bs).

Module Cli.

Definition ret {A} (a : A) : Cli A := fun c s w => (Done a, c, s, w).

Definition bind {A B} (m : Cli A) (k : A -> Cli B) : Cli B :=
  fun c s w =>
    match m c s w with
    | (Done a, c', s', w') => k a c' s' w'
    | (Fail e, c', s', w') => (Fail e, c', s', w')
    end.

Declare Scope cli_scope.
Delimit Scope cli_scope with cli.
Notation "x <- m ;; k" := (bind m (fun x => k))
  (at level 100, m at next level, right associativity) : cli_scope.
Notation "m ;;; k" := (bind m (fun _ => k))
  (at level 100, right associativity) : cli_scope.
Local Open Scope cli_scope.

(** A call of a method of the store. *)
Definition call {A} (m : M A) : Cli A :=
  fun c s w =>
    match m s w with
    | (Return a, s', w') => (Done a, c, s', w')
    | (Raise e, s', w') => (Fail (Store_error e), c, s', w')
    end.

Definition print (p : printed) : Cli unit :=
  fun c s w => (Done tt, mkConsole (stdin c) (stdout c ++ [p]), s, w).

(** [input(text)]: the prompt is written, then a line is read. *)
Definition input (text : string) : Cli string :=
  fun c s w =>
    match stdin c with
    | [] => (Fail EOFError, mkConsole [] (stdout c ++ [Prompt text]), s, w)
    | l :: rest => (Done l, mkConsole rest (stdout c ++ [Prompt text]), s, w)
    end.

(** The loop of [prompt_nonempty] on the lines that remain: each turn reads
    one line, so the loop ends with the input at the latest. *)
Fixpoint prompt_nonempty_on (prompt_text : string) (lines : list string)
    (out : list printed) : cli_outcome string * Console :=
  match lines with
  | [] =>
      (Fail KeyboardInterrupt, mkConsole [] (out ++ [Prompt prompt_text; Line ""]))
  | l :: rest =>
      let s := PyStr.strip l in
      if String.eqb s "" then
        prompt_nonempty_on prompt_text rest
          (out ++ [Prompt prompt_text; Line "Input cannot be empty. Please try again."])
      else (Done s, mkConsole rest (out ++ [Prompt prompt_text]))
  end.

Definition prompt_nonempty (prompt_text : string) : Cli string :=
  fun c s w =>
    let '(r, c') := prompt_nonempty_on prompt_text (stdin c) (stdout c) in
    (r, c', s, w).

(** [s * n] *)
Fixpoint str_repeat (s : string) (n : nat) : string :=
  match n with
  | 0 => EmptyString
  | S n' => (s ++ str_repeat s n')%string
  end.

(** [s.center(width)]: the padding left over goes to the right, or to the
    left when it is odd and the width is odd too. *)
Definition center (s : string) (width : nat) : string :=
  let len := String.length s in
  if (width <=? len)%nat then s
  else
    let marg := width - len in
    let left := Nat.div2 marg + (if Nat.odd marg && Nat.odd width then 1 else 0) in
    (str_repeat " " left ++ s ++ str_repeat " " (marg - left))%string.

(** [print_header] runs before the store exists: it only writes. *)
Definition print_header (c : Console) : Console :=
  mkConsole (stdin c)
    (stdout c ++
     [Line (str_repeat "=" 60);
      Line (center "Library Inventory Manager (Single-file CLI)" 60);
      Line (str_repeat "=" 60)]).

Definition nl : string := String (ascii_of_nat 10) EmptyString.

Definition MENU : string :=
  (nl ++ "Choose an option:" ++ nl ++ "1. Add Book" ++ nl ++ "2. Issue Book" ++ nl
   ++ "3. Return Book" ++ nl ++ "4. View All Books" ++ nl ++ "5. Search by Title" ++ nl
   ++ "6. Search by ISBN" ++ nl ++ "7. Exit" ++ nl)%string.

(** [except ValueError] also catches its subclasses [JSONDecodeError] and
    [UnicodeDecodeError]. *)
Definition is_ValueError (e : exn) : bool :=
  match e with
  | ValueError _ | JSONDecodeError | UnicodeDecodeError => true
  | _ => false
  end.

(** [try: m  except ValueError as ve: print(f"Error: {ve}")] *)
Definition reporting_ValueError (m : Cli unit) : Cli unit :=
  fun c s w =>
    match m c s w with
    | (Fail (Store_error e), c', s', w') =>
        if is_ValueError e then print (Error_line e) c' s' w'
        else (Fail (Store_error e), c', s', w')
    | r => r
    end.

(** [for p in ps: print(p)] *)
Fixpoint print_all (ps : list printed) : Cli unit :=
  match ps with
  | [] => ret tt
  | p :: rest => print p;;; print_all rest
  end.

(** [print(b)] for the book that [search_by_isbn] returned, an object of the
    list. *)
Definition print_book_at (k : nat) : Cli unit :=
  fun c s w =>
    match books s !! k with
    | Some b => print (Repr_line (Str b)) c s w
    | None => (Done tt, c, s, w)
    end.

(** The [if]/[elif] chain of the loop, on the trimmed choice. *)
Definition menu_branch (choice : string) : Cli turn :=
  if String.eqb choice "1" then
    title <- prompt_nonempty "Title: ";;
    author <- prompt_nonempty "Author: ";;
    isbn <- prompt_nonempty "ISBN: ";;
    reporting_ValueError
      (call (LibraryInventory.add_book (Book.new title author isbn None));;;
       call LibraryInventory.save;;;
       print (Line "Book added successfully."));;;
    ret Continue
  else if String.eqb choice "2" then
    isbn <- prompt_nonempty "Enter ISBN to issue: ";;
    reporting_ValueError
      (call (LibraryInventory.issue_book_by_isbn isbn);;;
       print (Line "Book issued."));;;
    ret Continue
  else if String.eqb choice "3" then
    isbn <- prompt_nonempty "Enter ISBN to return: ";;
    reporting_ValueError
      (call (LibraryInventory.return_book_by_isbn isbn);;;
       print (Line "Book returned."));;;
    ret Continue
  else if String.eqb choice "4" then
    entries <- call display_all;;
    match entries with
    | [] => print (Line "No books in inventory.")
    | _ =>
        print (Line (nl ++ "All books:"));;;
        print_all (map Bullet entries)
    end;;;
    ret Continue
  else if String.eqb choice "5" then
    q <- prompt_nonempty "Enter title (or part of it) to search: ";;
    res <- call (search_by_title q);;
    match res with
    | [] => print (Line "No matching books.")
    | _ =>
        print (Results_line (length res));;;
        print_all (map (fun b => Bullet (Str b)) res)
    end;;;
    ret Continue
  else if String.eqb choice "6" then
    isbn <- prompt_nonempty "Enter ISBN to search: ";;
    b <- call (LibraryInventory.search_by_isbn isbn);;
    match b with
    | Some k => print_book_at k
    | None => print (Line "Book not found.")
    end;;;
    ret Continue
  else if String.eqb choice "7" then
    print (Line "Exiting. Goodbye!");;;
    ret Break
  else
    print (Line "Invalid choice. Enter a number from 1 to 7.");;;
    ret Continue.

(** The body of the [try] statement of the loop. *)
Definition menu_try : Cli turn :=
  print (Line MENU);;;
  choice <- input "Enter choice (1-7): ";;
  menu_branch (PyStr.strip choice).

(** One turn of [while True]: the [try] statement with its two [except]
    clauses.  The line that the second clause logs has no event among
    [log_event]. *)
Definition menu_turn (c : Console) (s : Inventory) (w : World)
    : turn * Console * Inventory * World :=
  match menu_try c s w with
  | (Done t, c', s', w') => (t, c', s', w')
  | (Fail KeyboardInterrupt, c', s', w') =>
      (Sys_exit 0,
       mkConsole (stdin c')
         (stdout c' ++ [Line (nl ++ "Keyboard interrupt detected. Exiting.")]),
       s', w')
  | (Fail EOFError, c', s', w') =>
      (Continue, mkConsole (stdin c') (stdout c' ++ [Unexpected_eof; Traceback]), s', w')
  | (Fail (Store_error e), c', s', w') =>
      (Continue, mkConsole (stdin c') (stdout c' ++ [Unexpected_line e; Traceback]),
       s', w')
  end.

(** The loop, for at most [turns] turns. *)
Fixpoint menu_loop (turns : nat) (c : Console) (s : Inventory) (w : World)
    : ending * Console * Inventory * World :=
  match turns with
  | 0 => (Running, c, s, w)
  | S n =>
      match menu_turn c s w with
      | (Continue, c', s', w') => menu_loop n c' s' w'
      | (Break, c', s', w') => (Returned, c', s', w')
      | (Sys_exit code, c', s', w') => (Exited code, c', s', w')
      end
  end.

(** [cli_main]: the header, the store at the default path, the loop. *)
Definition cli_main (turns : nat) (c : Console) (w : World)
    : ending * Console * Inventory * World :=
  let c1 := print_header c in
  let '(s, w') := LibraryInventory.init None w in
  menu_loop turns c1 s w'.

End Cli.

(** A line that [prompt_nonempty] rejects. *)
Definition blank (l : string) : Prop := PyStr.strip l = "".

(** The prompt and the complaint that each rejected line costs. *)
Definition rejected (prompt_text : string) (skipped : list string) : list printed :=
  concat (map (fun _ => [Prompt prompt_text;
                         Line "Input cannot be empty. Please try again."]) skipped).

(** The store, resp. the store and the world, as a computation of the menu
    loop leaves them. *)
Definition store_after {A} (x : cli_outcome A * Console * Inventory * World) : Inventory :=
  x.1.2.

Definition world_of {A} (x : cli_outcome A * Console * Inventory * World) : World :=
  x.2.

(** A computation that only reads and writes the terminal. *)
Definition terminal_only {A} (m : Cli A) : Prop :=
  forall c s w, store_after (m c s w) = s /\ world_of (m c s w) = w.

(** A computation that never ends with [KeyboardInterrupt]. *)
Definition never_interrupted {A} (m : Cli A) : Prop :=
  forall c s w, (m c s w).1.1.1 <> Fail KeyboardInterrupt.

(** A computation that, when it ends with [KeyboardInterrupt], has read all
    the input and touched neither the store nor the world. *)
Definition interrupted_clean {A} (m : Cli A) : Prop :=
  forall c s w c' s' w',
    m c s w = (Fail KeyboardInterrupt, c', s', w') ->
    s' = s /\ w' = w /\ stdin c' = [].

(** A computation that leaves the store as it is. *)
Definition store_kept {A} (m : Cli A) : Prop :=
  forall c s w, store_after (m c s w) = s.

(** What one turn of the menu may do to the store: nothing, append one book
    with non-empty fields and status "available", or change the status of
    one book. *)
Definition turn_effect (s s' : Inventory) : Prop :=
  s' = s \/
  (exists b,
     s' = mkInventory (json_path s) (books s ++ [b]) /\
     title b <> "" /\ author b <> "" /\ isbn b <> "" /\ status b = "available") \/
  (exists i, only_first_status_differs i s s').

(** A computation whose effect on the store is one that a turn may have. *)
Definition within_turn_effect {A} (m : Cli A) : Prop :=
  forall c s w, turn_effect s (store_after (m c s w)).

(** What a turn writes when the input has ended at the menu. *)
Definition eof_turn_output : list printed :=
  [Line Cli.MENU; Prompt "Enter choice (1-7): "; Unexpected_eof; Traceback].

(** The terminal after the menu has been shown and a choice read. *)
Definition after_choice (rest : list string) (out : list printed) : Console :=
  mkConsole rest (out ++ [Line Cli.MENU; Prompt "Enter choice (1-7): "]).

(** Every value a computation of the menu loop returns satisfies [Q]. *)
Definition returns_only {A} (Q : A -> Prop) (m : Cli A) : Prop :=
  forall c s w a, (m c s w).1.1.1 = Done a -> Q a.

(** A computation of the menu loop keeps a property of the store and the
    world, however it ends. *)
Definition cli_preserves {A} (I : Inventory -> World -> Prop) (m : Cli A) : Prop :=
  forall c s w, I s w -> I (store_after (m c s w)) (world_of (m c s w)).

(** * Properties *)

(** ** [strip] is idempotent *)

Section Strip.
Import PyStr.

Lemma rstrip_cons_nonspace c r :
  isspace c = false -> rstrip (String c r) = String c (rstrip r).
Proof. intros Hc. simpl. rewrite Hc. destruct (rstrip r); reflexivity. Qed.

Lemma rstrip_cons_nonempty c r c' r' :
  rstrip r = String c' r' -> rstrip (String c r) = String c (String c' r').
Proof. intros H. simpl. rewrite H. reflexivity. Qed.

Lemma rstrip_idem s : rstrip (rstrip s) = rstrip s.
Proof.
  induction s as [|c r IH]; [reflexivity|].
  simpl. destruct (rstrip r) as [|c' r'] eqn:Hr.
  - destruct (isspace c) eqn:Hc; [reflexivity|].
    simpl. rewrite Hc. reflexivity.
  - apply rstrip_cons_nonempty. exact IH.
Qed.

Lemma lstrip_head s :
  lstrip s = EmptyString \/
  exists c r, lstrip s = String c r /\ isspace c = false.
Proof.
  induction s as [|c r IH]; [left; reflexivity|].
  simpl. destruct (isspace c) eqn:Hc; [exact IH|].
  right. exists c, r. split; [reflexivity|exact Hc].
Qed.

Lemma strip_idem s : strip (strip s) = strip s.
Proof.
  unfold strip. destruct (lstrip_head s) as [H | (c & r & H & Hc)]; rewrite H.
  - reflexivity.
  - rewrite (rstrip_cons_nonspace c r Hc). simpl lstrip. rewrite Hc.
    rewrite (rstrip_cons_nonspace c _ Hc). rewrite rstrip_idem. reflexivity.
Qed.

End Strip.

(** ** Book *)

Lemma status_recognized_cases s :
  Book.status_recognized s = true -> s = "available" \/ s = "issued".
Proof.
  unfold Book.status_recognized. intros H.
  apply orb_true_iff in H as [H | H]; apply String.eqb_eq in H; auto.
Qed.

Lemma status_recognized_strip s :
  Book.status_recognized s = true -> PyStr.strip s = s.
Proof.
  intros H. destruct (status_recognized_cases s H) as [-> | ->]; reflexivity.
Qed.

Lemma new_status_recognized t a i st :
  Book.status_recognized (status (Book.new t a i st)) = true.
Proof.
  unfold Book.new, Book.post_init. simpl.
  destruct (Book.status_recognized (default "available" st)) eqn:H; [exact H|reflexivity].
Qed.

Lemma post_init_idem b : Book.post_init (Book.post_init b) = Book.post_init b.
Proof.
  unfold Book.post_init. simpl. rewrite !strip_idem. f_equal.
  destruct (Book.status_recognized (status b)) eqn:H.
  - rewrite H. reflexivity.
  - reflexivity.
Qed.

Lemma to_dict_title b : Book.to_dict b !! "title" = Some (JStr (title b)).
Proof. unfold Book.to_dict. by simplify_map_eq. Qed.

Lemma to_dict_author b : Book.to_dict b !! "author" = Some (JStr (author b)).
Proof. unfold Book.to_dict. by simplify_map_eq. Qed.

Lemma to_dict_isbn b : Book.to_dict b !! "isbn" = Some (JStr (isbn b)).
Proof. unfold Book.to_dict. by simplify_map_eq. Qed.

Lemma to_dict_status b : Book.to_dict b !! "status" = Some (JStr (status b)).
Proof. unfold Book.to_dict. by simplify_map_eq. Qed.

(** What [from_dict] makes of a serialized book. *)
Lemma from_dict_to_dict b :
  Book.from_dict (Book.to_dict b) =
  Return (Book.new (PyStr.strip (title b)) (PyStr.strip (author b))
                   (PyStr.strip (isbn b)) (Some (PyStr.strip (status b)))).
Proof.
  unfold Book.from_dict, Book.get_strip.
  rewrite to_dict_title, to_dict_author, to_dict_isbn, to_dict_status.
  reflexivity.
Qed.

Lemma new_strip_args t a i st :
  Book.new (PyStr.strip t) (PyStr.strip a) (PyStr.strip i) st = Book.new t a i st.
Proof. unfold Book.new, Book.post_init. simpl. rewrite !strip_idem. reflexivity. Qed.

Lemma get_strip_field d key dflt :
  Book.get_strip d key dflt =
  if str_or_missing d key then Return (PyStr.strip (field d key dflt))
  else Raise AttributeError.
Proof.
  unfold Book.get_strip, str_or_missing, field.
  destruct (d !! key) as [[]|]; reflexivity.
Qed.

(** C5. [issue] on an available book succeeds, leaves title, author and ISBN
    as they were and makes [is_available] false; on an issued book it raises
    "Book already issued." and leaves the book as it was.  [return_book] on
    an issued book succeeds and makes [is_available] true; on an available
    book it raises "Book is not issued." and leaves the book as it was. *)
Theorem issue_return_transitions (b : Book) :
  (status b = "available" ->
     exists b', Book.issue b = (Return tt, b') /\
       Book.is_available b' = false /\ status b' = "issued" /\
       title b' = title b /\ author b' = author b /\ isbn b' = isbn b) /\
  (status b = "issued" ->
     Book.issue b = (Raise (ValueError "Book already issued."), b)) /\
  (status b = "issued" ->
     exists b', Book.return_book b = (Return tt, b') /\
       Book.is_available b' = true /\
       title b' = title b /\ author b' = author b /\ isbn b' = isbn b) /\
  (status b = "available" ->
     Book.return_book b = (Raise (ValueError "Book is not issued."), b)).
Proof.
  unfold Book.issue, Book.return_book.
  repeat split; intros H; rewrite H; simpl;
    try reflexivity;
    eexists; repeat split; reflexivity.
Qed.

Lemma issue_return_transitions_witness :
  let a := mkBook "Dune" "Herbert" "111" "available" in
  let i := mkBook "Dune" "Herbert" "111" "issued" in
  (exists b', Book.issue a = (Return tt, b') /\
     Book.is_available b' = false /\ status b' = "issued" /\
     title b' = "Dune" /\ author b' = "Herbert" /\ isbn b' = "111") /\
  Book.issue i = (Raise (ValueError "Book already issued."), i) /\
  (exists b', Book.return_book i = (Return tt, b') /\
     Book.is_available b' = true /\
     title b' = "Dune" /\ author b' = "Herbert" /\ isbn b' = "111") /\
  Book.return_book a = (Raise (ValueError "Book is not issued."), a).
Proof.
  intros a i.
  destruct (issue_return_transitions a) as (Ha1 & _ & _ & Ha4).
  destruct (issue_return_transitions i) as (_ & Hi2 & Hi3 & _).
  exact (conj (Ha1 eq_refl) (conj (Hi2 eq_refl) (conj (Hi3 eq_refl) (Ha4 eq_refl)))).
Defined.

(** C7. A book built by the constructor survives [to_dict] followed by
    [from_dict] with its four fields equal, and running the normalization of
    [__post_init__] on it again changes nothing. *)
Theorem to_dict_from_dict_roundtrip (t a i : string) (st : option string) :
  Book.from_dict (Book.to_dict (Book.new t a i st)) = Return (Book.new t a i st) /\
  Book.post_init (Book.new t a i st) = Book.new t a i st.
Proof.
  split.
  - rewrite from_dict_to_dict. f_equal.
    rewrite new_strip_args.
    rewrite (status_recognized_strip _ (new_status_recognized t a i st)).
    pose proof (new_status_recognized t a i st) as Hs.
    unfold Book.new in *. unfold Book.post_init in *. simpl in *.
    rewrite !strip_idem. rewrite Hs. reflexivity.
  - unfold Book.new. apply post_init_idem.
Qed.

(** C8, counterexample. For the map that holds only a status with blanks
    around it, [from_dict] differs from the constructor applied to the field
    values: [from_dict] trims the status before constructing, the
    constructor does not trim it and falls back to "available". *)
Lemma from_dict_not_construct_of_fields :
  let d : gmap string json := {[ "status" := JStr " issued " ]} in
  Book.from_dict d = Return (mkBook "" "" "" "issued") /\
  construct_of_fields d = mkBook "" "" "" "available" /\
  Book.from_dict d <> Return (construct_of_fields d).
Proof.
  intros d.
  assert (H1 : Book.from_dict d = Return (mkBook "" "" "" "issued")) by reflexivity.
  assert (H2 : construct_of_fields d = mkBook "" "" "" "available") by reflexivity.
  split; [exact H1|]. split; [exact H2|].
  rewrite H1, H2. discriminate.
Qed.

(** C8, amended. The constructor trims title, author and ISBN, leaves the
    status untrimmed and replaces a status that is not exactly "available" or
    "issued" (or is omitted) by "available".  [from_dict], on a map whose
    four keys are missing or hold strings, is the constructor applied to the
    defaulted title, author and ISBN and to the trimmed defaulted status; on
    any other map it raises. *)
Theorem from_dict_construct_trimmed_status (d : gmap string json) :
  (forall t a i st,
     Book.new t a i st =
     mkBook (PyStr.strip t) (PyStr.strip a) (PyStr.strip i)
       (match st with
        | Some s => if Book.status_recognized s then s else "available"
        | None => "available"
        end)) /\
  Book.from_dict d =
    if str_or_missing d "title" && str_or_missing d "author" &&
       str_or_missing d "isbn" && str_or_missing d "status"
    then Return (Book.new (field d "title" "") (field d "author" "")
                          (field d "isbn" "")
                          (Some (PyStr.strip (field d "status" "available"))))
    else Raise AttributeError.
Proof.
  split.
  - intros t a i [s|]; reflexivity.
  - unfold Book.from_dict. rewrite !get_strip_field.
    destruct (str_or_missing d "title"); [|reflexivity].
    destruct (str_or_missing d "author"); [|reflexivity].
    destruct (str_or_missing d "isbn"); [|reflexivity].
    destruct (str_or_missing d "status"); [|reflexivity].
    simpl. rewrite new_strip_args. reflexivity.
Qed.

(** ** pathlib: appending to the suffix appends to the name *)

Section PathlibFacts.
Import Pathlib.

Lemma append_cons x (a b : string) : (String x a ++ b = String x (a ++ b))%string.
Proof. reflexivity. Qed.

Lemma append_assoc (a b c : string) : ((a ++ b) ++ c = a ++ (b ++ c))%string.
Proof.
  induction a as [|x a IH]; [reflexivity|].
  rewrite !append_cons, IH. reflexivity.
Qed.

Lemma stake_sdrop n s : (stake n s ++ sdrop n s)%string = s.
Proof.
  revert s. induction n as [|n IH]; intros [|c r]; try reflexivity.
  simpl stake. simpl sdrop. rewrite append_cons, IH. reflexivity.
Qed.

Lemma length_sdrop n s : String.length (sdrop n s) = String.length s - n.
Proof.
  revert s. induction n as [|n IH]; intros [|c r]; simpl; try reflexivity.
  apply IH.
Qed.

Lemma rfind_lt c s i : rfind c s = Some i -> i < String.length s.
Proof.
  revert i. induction s as [|x r IH]; intros i; simpl; [discriminate|].
  destruct (rfind c r) as [j|].
  - intros [= <-]. specialize (IH j eq_refl). lia.
  - destruct (Ascii.eqb x c); [intros [= <-]; lia | discriminate].
Qed.

Lemma rfind_sdrop c s i :
  rfind c s = Some i -> exists r, sdrop i s = String c r.
Proof.
  revert i. induction s as [|x r IH]; intros i; simpl; [discriminate|].
  destruct (rfind c r) as [j|].
  - intros [= <-]. simpl. apply IH. reflexivity.
  - destruct (Ascii.eqb x c) eqn:Hx; [|discriminate].
    intros [= <-]. apply Ascii.eqb_eq in Hx. subst x. exists r. reflexivity.
Qed.

Lemma contains_sdrop c n s : contains c s = false -> contains c (sdrop n s) = false.
Proof.
  revert s. induction n as [|n IH]; intros [|x r]; simpl; try (intros H; exact H).
  intros H. apply orb_false_iff in H as [_ H]. apply IH. exact H.
Qed.

Lemma contains_append c a b :
  contains c (a ++ b)%string = contains c a || contains c b.
Proof.
  induction a as [|x a IH]; [reflexivity|].
  rewrite append_cons. simpl. rewrite IH. rewrite orb_assoc. reflexivity.
Qed.

(** The suffix of a name is empty or a final segment of the name that
    starts with a dot. *)
Lemma suffix_cases p :
  suffix p = "" \/
  exists i r, i < String.length (name p) /\
              suffix p = sdrop i (name p) /\ suffix p = String "." r.
Proof.
  unfold suffix. destruct (rfind "." (name p)) as [i|] eqn:Hi; [|left; reflexivity].
  destruct ((0 <? i) && (i <? String.length (name p) - 1))%nat; [|left; reflexivity].
  right. destruct (rfind_sdrop _ _ _ Hi) as [r Hr].
  exists i, r. split; [exact (rfind_lt _ _ _ Hi)|]. split; [reflexivity|exact Hr].
Qed.

Lemma with_suffix_corrupt p :
  names_a_file p ->
  with_suffix p (suffix p ++ ".corrupt") = Return (corrupt_sibling p).
Proof.
  intros [Hne Hsep]. unfold with_suffix, corrupt_sibling.
  assert (Hname : String.eqb (name p) "" = false) by (apply String.eqb_neq; exact Hne).
  destruct (suffix_cases p) as [He | (i & r & Hi & Hd & Hr)].
  - rewrite He. simpl. rewrite Hname. reflexivity.
  - assert (Hc : contains "/" (suffix p ++ ".corrupt") = false).
    { rewrite contains_append, Hd, (contains_sdrop _ _ _ Hsep). reflexivity. }
    rewrite Hc. rewrite Hr at 1 2 3. simpl String.eqb at 1. simpl startswith_dot.
    replace (String.eqb (String "." r ++ ".corrupt") ".") with false
      by (destruct r; reflexivity).
    simpl orb. rewrite Hname. rewrite Hr at 1. simpl String.eqb.
    f_equal. f_equal. rewrite Hd, length_sdrop.
    replace (String.length (name p) - (String.length (name p) - i)) with i by lia.
    rewrite <- append_assoc, stake_sdrop. reflexivity.
Qed.

Lemma length_append (a b : string) :
  String.length (a ++ b) = String.length a + String.length b.
Proof.
  induction a as [|x a IH]; [reflexivity|].
  rewrite append_cons. simpl. rewrite IH. reflexivity.
Qed.

Lemma corrupt_sibling_ne p : corrupt_sibling p <> p.
Proof.
  unfold corrupt_sibling. destruct p as [d n]. simpl. intros [= H].
  apply (f_equal String.length) in H. rewrite length_append in H. simpl in H. lia.
Qed.

End PathlibFacts.

(** ** File operations in closed form *)

Lemma next_fault_eq w :
  Os.next_fault w = (fault_at 0 w, world_after w 1 (files w) []).
Proof.
  unfold Os.next_fault, fault_at, world_after. destruct w as [c fs [|f fl] lg]; simpl.
  - rewrite app_nil_r. reflexivity.
  - rewrite app_nil_r, drop_0. reflexivity.
Qed.

Lemma fault_at_world_after w n fs evs k :
  fault_at k (world_after w n fs evs) = fault_at (n + k) w.
Proof. unfold fault_at, world_after. simpl. rewrite lookup_drop. reflexivity. Qed.

Lemma world_after_after w n fs evs m fs' evs' :
  world_after (world_after w n fs evs) m fs' evs' =
  world_after w (n + m) fs' (evs ++ evs').
Proof.
  unfold world_after. simpl. rewrite drop_drop, app_assoc. reflexivity.
Qed.

Lemma world_after_id w : world_after w 0 (files w) [] = w.
Proof. destruct w. unfold world_after. simpl. rewrite app_nil_r, drop_0. reflexivity. Qed.

Lemma logging_eq ev s w :
  logging ev s w = (Return tt, s, world_after w 0 (files w) [ev]).
Proof. unfold logging, world_after. rewrite drop_0. reflexivity. Qed.

Lemma write_json_eq p j s w :
  Os.write_json p j s w =
  match fault_at 0 w with
  | Some e => (Raise (OSError e), s, world_after w 1 (files w) [])
  | None =>
      match fault_at 1 w with
      | Some e => (Raise (OSError e), s,
                   world_after w 2 (<[p := Malformed ""]> (files w)) [])
      | None => (Return tt, s, world_after w 2 (<[p := Doc j]> (files w)) [])
      end
  end.
Proof.
  unfold Os.write_json. rewrite next_fault_eq.
  destruct (fault_at 0 w); [reflexivity|].
  rewrite next_fault_eq, fault_at_world_after. simpl.
  destruct (fault_at 1 w); unfold Os.with_files; rewrite world_after_after; simpl;
    unfold world_after; simpl; rewrite !app_nil_r; reflexivity.
Qed.

(** [save] either writes the document of the books, or logs the failure and
    raises again; the object is untouched. *)
Lemma save_eq s w :
  LibraryInventory.save s w =
  match fault_at 0 w with
  | Some e => (Raise (OSError e), s, world_after w 1 (files w) [Log_failed_to_save])
  | None =>
      match fault_at 1 w with
      | Some e =>
          (Raise (OSError e), s,
           world_after w 2 (<[json_path s := Malformed ""]> (files w)) [Log_failed_to_save])
      | None =>
          (Return tt, s,
           world_after w 2
             (<[json_path s := Doc (LibraryInventory.to_dicts (books s))]> (files w))
             [Log_saved (json_path s)])
      end
  end.
Proof.
  unfold LibraryInventory.save, try_except, bind, get_path, get_books, raise.
  rewrite write_json_eq.
  destruct (fault_at 0 w); [rewrite logging_eq, world_after_after; reflexivity|].
  destruct (fault_at 1 w); rewrite logging_eq, world_after_after; reflexivity.
Qed.

(** ** The methods of the store in closed form *)

Section StoreEquations.
Import LibraryInventory.

Lemma isbn_taken_In i bs : isbn_taken i bs = true <-> In i (map isbn bs).
Proof.
  unfold isbn_taken. rewrite existsb_exists, in_map_iff. split.
  - intros (b & Hb & He). apply String.eqb_eq in He. exists b. auto.
  - intros (b & He & Hb). exists b. split; [exact Hb|]. apply String.eqb_eq. exact He.
Qed.

Lemma isbn_taken_not_In i bs : isbn_taken i bs = false <-> ~ In i (map isbn bs).
Proof.
  rewrite <- isbn_taken_In. destruct (isbn_taken i bs); split; congruence.
Qed.

Lemma add_book_eq b s w :
  add_book b s w =
  if isbn_taken (isbn b) (books s)
  then (Raise (ValueError "Book with same ISBN already exists."), s,
        world_after w 0 (files w) [Log_duplicate_isbn (isbn b)])
  else (Return tt, mkInventory (json_path s) (books s ++ [b]),
        world_after w 0 (files w) [Log_added b]).
Proof.
  unfold add_book, bind, get_books, raise, set_books.
  destruct (isbn_taken (isbn b) (books s)); rewrite logging_eq; reflexivity.
Qed.

Lemma first_with_isbn_lookup i bs k :
  first_with_isbn i bs = Some k ->
  exists b, bs !! k = Some b /\ isbn b = i.
Proof.
  revert k. induction bs as [|b rest IH]; intros k; simpl; [discriminate|].
  destruct (String.eqb (isbn b) i) eqn:He.
  - intros [= <-]. exists b. split; [reflexivity|]. apply String.eqb_eq. exact He.
  - destruct (first_with_isbn i rest) as [j|]; simpl; [|discriminate].
    intros [= <-]. apply IH. reflexivity.
Qed.

Lemma first_with_isbn_None i bs :
  first_with_isbn i bs = None <-> ~ In i (map isbn bs).
Proof.
  induction bs as [|b rest IH]; simpl; [tauto|].
  destruct (String.eqb (isbn b) i) eqn:He.
  - apply String.eqb_eq in He. split; [discriminate|]. tauto.
  - apply String.eqb_neq in He.
    destruct (first_with_isbn i rest); simpl.
    + split; [discriminate|]. intros H.
      assert (Hn : ~ In i (map isbn rest)) by tauto.
      apply IH in Hn. discriminate.
    + split; [|reflexivity]. intros _ [H|H]; [congruence|]. apply IH in H; auto.
Qed.

Lemma search_by_isbn_eq i s w :
  search_by_isbn i s w =
  match first_with_isbn (PyStr.strip i) (books s) with
  | Some k => (Return (Some k), s,
               world_after w 0 (files w) [Log_found_by_isbn (PyStr.strip i)])
  | None => (Return None, s,
             world_after w 0 (files w) [Log_no_book_found (PyStr.strip i)])
  end.
Proof.
  unfold search_by_isbn, bind, get_books, ret.
  destruct (first_with_isbn (PyStr.strip i) (books s)); rewrite logging_eq; reflexivity.
Qed.

Lemma book_is_available_eq k b s w :
  books s !! k = Some b ->
  book_is_available k s w = (Return (Book.is_available b), s, w).
Proof.
  intros H. unfold book_is_available, on_book. rewrite H.
  rewrite (list_insert_id _ _ _ H). destruct s. reflexivity.
Qed.

Lemma issue_available b :
  Book.is_available b = true -> Book.issue b = (Return tt, set_status b "issued").
Proof.
  unfold Book.is_available, Book.issue. intros H. apply String.eqb_eq in H.
  rewrite H. reflexivity.
Qed.

Lemma return_not_available b :
  Book.is_available b = false -> Book.return_book b = (Return tt, set_status b "available").
Proof. unfold Book.is_available, Book.return_book. intros ->. reflexivity. Qed.

Lemma issue_book_by_isbn_eq i s w :
  issue_book_by_isbn i s w =
  match first_with_isbn (PyStr.strip i) (books s) with
  | None =>
      (Raise (ValueError "Book not found."), s,
       world_after w 0 (files w)
         [Log_no_book_found (PyStr.strip i); Log_issue_nonexistent i])
  | Some k =>
      match books s !! k with
      | None => (Raise AttributeError, s,
                 world_after w 0 (files w) [Log_found_by_isbn (PyStr.strip i)])
      | Some b =>
          if Book.is_available b
          then transition_then_save k b "issued"
                 (Log_found_by_isbn (PyStr.strip i)) (Log_issued i) s w
          else (Raise (ValueError "Book already issued."), s,
                world_after w 0 (files w)
                  [Log_found_by_isbn (PyStr.strip i); Log_issue_already_issued i])
      end
  end.
Proof.
  unfold issue_book_by_isbn, bind at 1. rewrite search_by_isbn_eq.
  destruct (first_with_isbn (PyStr.strip i) (books s)) as [k|] eqn:Hk.
  - destruct (first_with_isbn_lookup _ _ _ Hk) as (b & Hb & _). rewrite Hb.
    unfold bind at 1. rewrite (book_is_available_eq k b) by exact Hb.
    destruct (Book.is_available b) eqn:Ha; cbn [negb]; cbv beta iota.
    + unfold transition_then_save, bind, on_book. simpl books. rewrite Hb.
      rewrite (issue_available b Ha). simpl.
      destruct (save _ _) as [[[[]|e] s2] w2]; [rewrite logging_eq|]; reflexivity.
    + unfold bind, raise. rewrite logging_eq, world_after_after. reflexivity.
  - unfold bind, raise. rewrite logging_eq, world_after_after. reflexivity.
Qed.

Lemma return_book_by_isbn_eq i s w :
  return_book_by_isbn i s w =
  match first_with_isbn (PyStr.strip i) (books s) with
  | None =>
      (Raise (ValueError "Book not found."), s,
       world_after w 0 (files w)
         [Log_no_book_found (PyStr.strip i); Log_return_nonexistent i])
  | Some k =>
      match books s !! k with
      | None => (Raise AttributeError, s,
                 world_after w 0 (files w) [Log_found_by_isbn (PyStr.strip i)])
      | Some b =>
          if Book.is_available b
          then (Raise (ValueError "Book is not issued."), s,
                world_after w 0 (files w)
                  [Log_found_by_isbn (PyStr.strip i); Log_return_available i])
          else transition_then_save k b "available"
                 (Log_found_by_isbn (PyStr.strip i)) (Log_returned i) s w
      end
  end.
Proof.
  unfold return_book_by_isbn, bind at 1. rewrite search_by_isbn_eq.
  destruct (first_with_isbn (PyStr.strip i) (books s)) as [k|] eqn:Hk.
  - destruct (first_with_isbn_lookup _ _ _ Hk) as (b & Hb & _). rewrite Hb.
    unfold bind at 1. rewrite (book_is_available_eq k b) by exact Hb.
    destruct (Book.is_available b) eqn:Ha; cbv beta iota.
    + unfold bind, raise. rewrite logging_eq, world_after_after. reflexivity.
    + unfold transition_then_save, bind, on_book. simpl books. rewrite Hb.
      rewrite (return_not_available b Ha). simpl.
      destruct (save _ _) as [[[[]|e] s2] w2]; [rewrite logging_eq|]; reflexivity.
  - unfold bind, raise. rewrite logging_eq, world_after_after. reflexivity.
Qed.

(** The three ways [transition_then_save] ends, by the faults that the two
    file operations of [save] meet. *)
Lemma transition_then_save_eq k b st found done s w :
  transition_then_save k b st found done s w =
  let s1 := mkInventory (json_path s) (<[k := set_status b st]> (books s)) in
  match fault_at 0 w with
  | Some e => (Raise (OSError e), s1,
               world_after w 1 (files w) [found; Log_failed_to_save])
  | None =>
      match fault_at 1 w with
      | Some e =>
          (Raise (OSError e), s1,
           world_after w 2 (<[json_path s := Malformed ""]> (files w))
             [found; Log_failed_to_save])
      | None =>
          (Return tt, s1,
           world_after w 2
             (<[json_path s := Doc (to_dicts (books s1))]> (files w))
             [found; Log_saved (json_path s); done])
      end
  end.
Proof.
  unfold transition_then_save. rewrite save_eq.
  rewrite !fault_at_world_after. simpl plus.
  destruct (fault_at 0 w); [rewrite world_after_after; reflexivity|].
  destruct (fault_at 1 w); rewrite !world_after_after; reflexivity.
Qed.

End StoreEquations.

(** ** The store: validation, persistence *)

(** C10. [add_book] checks nothing but the ISBN: it raises exactly when a
    book of the store has the ISBN of the new one.  A book whose title,
    author and ISBN are blank is built with three empty strings, is appended
    to a store that has no book with the empty ISBN, and is rejected as a
    duplicate by a store that has one. *)
Theorem add_book_only_rejects_duplicates (s : Inventory) (w : World) :
  (forall b,
     (exists e s' w', LibraryInventory.add_book b s w = (Raise e, s', w')) <->
     In (isbn b) (map isbn (books s))) /\
  (forall t a i st,
     PyStr.strip t = "" -> PyStr.strip a = "" -> PyStr.strip i = "" ->
     let b := Book.new t a i st in
     title b = "" /\ author b = "" /\ isbn b = "" /\
     (~ In "" (map isbn (books s)) ->
        LibraryInventory.add_book b s w =
        (Return tt, mkInventory (json_path s) (books s ++ [b]),
         world_after w 0 (files w) [Log_added b])) /\
     (In "" (map isbn (books s)) ->
        LibraryInventory.add_book b s w =
        (Raise (ValueError "Book with same ISBN already exists."), s,
         world_after w 0 (files w) [Log_duplicate_isbn ""]))).
Proof.
  split.
  - intros b. rewrite add_book_eq, <- isbn_taken_In.
    destruct (LibraryInventory.isbn_taken (isbn b) (books s)); split.
    + reflexivity.
    + intros _. eauto.
    + intros (e & s' & w' & H). discriminate H.
    + discriminate.
  - intros t a i st Ht Ha Hi b.
    assert (Hb : isbn b = "") by exact Hi.
    split; [exact Ht|]. split; [exact Ha|]. split; [exact Hi|].
    rewrite add_book_eq, Hb. split; intros H.
    + apply isbn_taken_not_In in H. rewrite H. reflexivity.
    + apply isbn_taken_In in H. rewrite H. reflexivity.
Qed.

Lemma add_book_only_rejects_duplicates_witness :
  let p := mkPath "data" "books.json" in
  let w := mkWorld "" ∅ [] [] in
  let b := Book.new "  " "" " " None in
  LibraryInventory.add_book b (mkInventory p []) w =
    (Return tt, mkInventory p [mkBook "" "" "" "available"],
     world_after w 0 ∅ [Log_added b]) /\
  LibraryInventory.add_book b (mkInventory p [b]) w =
    (Raise (ValueError "Book with same ISBN already exists."), mkInventory p [b],
     world_after w 0 ∅ [Log_duplicate_isbn ""]).
Proof.
  intros p w b. split.
  - destruct (add_book_only_rejects_duplicates (mkInventory p []) w) as [_ H].
    destruct (H "  " "" " " None eq_refl eq_refl eq_refl) as (_ & _ & _ & Hadd & _).
    apply Hadd. simpl. tauto.
  - destruct (add_book_only_rejects_duplicates (mkInventory p [b]) w) as [_ H].
    destruct (H "  " "" " " None eq_refl eq_refl eq_refl) as (_ & _ & _ & _ & Hdup).
    apply Hdup. simpl. left. reflexivity.
Defined.

(** C6. A failed validation leaves the store as it was.  [add_book] with an
    ISBN that a book of the store has, whatever the title and the author,
    raises "Book with same ISBN already exists." and changes neither the
    list nor the files.  [issue_book_by_isbn] and [return_book_by_isbn]
    raise "Book not found." for an ISBN no book has, "Book already issued."
    resp. "Book is not issued." when the guard on the found book fails, and
    whenever one of them raises a [ValueError] the object and the files are
    unchanged. *)
Theorem failed_validation_leaves_store (s : Inventory) (w : World) :
  (forall b,
     In (isbn b) (map isbn (books s)) ->
     LibraryInventory.add_book b s w =
     (Raise (ValueError "Book with same ISBN already exists."), s,
      world_after w 0 (files w) [Log_duplicate_isbn (isbn b)])) /\
  (forall i,
     ~ In (PyStr.strip i) (map isbn (books s)) ->
     LibraryInventory.issue_book_by_isbn i s w =
       (Raise (ValueError "Book not found."), s,
        world_after w 0 (files w)
          [Log_no_book_found (PyStr.strip i); Log_issue_nonexistent i]) /\
     LibraryInventory.return_book_by_isbn i s w =
       (Raise (ValueError "Book not found."), s,
        world_after w 0 (files w)
          [Log_no_book_found (PyStr.strip i); Log_return_nonexistent i])) /\
  (forall i k b,
     LibraryInventory.first_with_isbn (PyStr.strip i) (books s) = Some k ->
     books s !! k = Some b ->
     (Book.is_available b = false ->
      LibraryInventory.issue_book_by_isbn i s w =
        (Raise (ValueError "Book already issued."), s,
         world_after w 0 (files w)
           [Log_found_by_isbn (PyStr.strip i); Log_issue_already_issued i])) /\
     (Book.is_available b = true ->
      LibraryInventory.return_book_by_isbn i s w =
        (Raise (ValueError "Book is not issued."), s,
         world_after w 0 (files w)
           [Log_found_by_isbn (PyStr.strip i); Log_return_available i]))) /\
  (forall i msg s' w',
     LibraryInventory.issue_book_by_isbn i s w = (Raise (ValueError msg), s', w') \/
     LibraryInventory.return_book_by_isbn i s w = (Raise (ValueError msg), s', w') ->
     s' = s /\ files w' = files w).
Proof.
  split; [|split; [|split]].
  - intros b H. rewrite add_book_eq. apply isbn_taken_In in H. rewrite H. reflexivity.
  - intros i H. apply first_with_isbn_None in H.
    rewrite issue_book_by_isbn_eq, return_book_by_isbn_eq, H. split; reflexivity.
  - intros i k b Hk Hb. split; intros Ha.
    + rewrite issue_book_by_isbn_eq, Hk, Hb, Ha. reflexivity.
    + rewrite return_book_by_isbn_eq, Hk, Hb, Ha. reflexivity.
  - intros i msg s' w'.
    rewrite issue_book_by_isbn_eq, return_book_by_isbn_eq.
    destruct (LibraryInventory.first_with_isbn (PyStr.strip i) (books s)) as [k|].
    + destruct (books s !! k) as [b|]; [|intros [H|H]; discriminate H].
      rewrite !transition_then_save_eq.
      destruct (Book.is_available b), (fault_at 0 w), (fault_at 1 w);
        intros [H|H]; inversion H; subst; split; reflexivity.
    + intros [H|H]; inversion H; subst; split; reflexivity.
Qed.

Lemma failed_validation_leaves_store_witness :
  let p := mkPath "data" "books.json" in
  let dune := mkBook "Dune" "Herbert" "111" "available" in
  let emma := mkBook "Emma" "Austen" "222" "issued" in
  let s := mkInventory p [dune; emma] in
  let w := mkWorld "" ∅ [] [] in
  fst (LibraryInventory.add_book (mkBook "Other" "Writer" "111" "available") s w)
    = (Raise (ValueError "Book with same ISBN already exists."), s) /\
  fst (LibraryInventory.issue_book_by_isbn "999" s w)
    = (Raise (ValueError "Book not found."), s) /\
  fst (LibraryInventory.issue_book_by_isbn " 222 " s w)
    = (Raise (ValueError "Book already issued."), s) /\
  fst (LibraryInventory.return_book_by_isbn "111" s w)
    = (Raise (ValueError "Book is not issued."), s).
Proof.
  intros p dune emma s w.
  destruct (failed_validation_leaves_store s w) as (Hadd & Hmiss & Hguard & _).
  split; [|split; [|split]].
  - rewrite (Hadd (mkBook "Other" "Writer" "111" "available")); [reflexivity|].
    simpl. left. reflexivity.
  - destruct (Hmiss "999") as [Hi _]; [|rewrite Hi; reflexivity].
    simpl. intros [H|[H|[]]]; discriminate H.
  - destruct (Hguard " 222 " 1 emma eq_refl eq_refl) as [Hi _].
    rewrite (Hi eq_refl). reflexivity.
  - destruct (Hguard "111" 0 dune eq_refl eq_refl) as [_ Hr].
    rewrite (Hr eq_refl). reflexivity.
Defined.

(** What [save] did when it returned or raised: the object is untouched; if
    it returned, the target holds the document of the books. *)
Lemma save_returned s w s2 w2 :
  LibraryInventory.save s w = (Return tt, s2, w2) ->
  s2 = s /\
  files w2 = <[json_path s := Doc (LibraryInventory.to_dicts (books s))]> (files w).
Proof.
  rewrite save_eq.
  destruct (fault_at 0 w); [discriminate|]. destruct (fault_at 1 w); [discriminate|].
  intros [= <- <-]. split; reflexivity.
Qed.

Lemma save_raised s w e s2 w2 :
  LibraryInventory.save s w = (Raise e, s2, w2) -> s2 = s.
Proof.
  rewrite save_eq.
  destruct (fault_at 0 w); [|destruct (fault_at 1 w)]; intros [= _ <- _]; reflexivity.
Qed.

(** C9. When the guards pass, [issue_book_by_isbn] sets the status of the
    book found to "issued", leaving its title, author and ISBN and all other
    books alone, and then saves.  The call ends as that save ends.  If the
    save returns, the call returns, and the target then holds the list of one
    object per book, in the order of the store, with the four keys "title",
    "author", "isbn" and "status" and the values of the books, the new
    status included.  If the save raises, the call raises the same exception
    and the store keeps the new status; for a failure of [open] the files are
    as before, for a failure while writing the target is left without a
    document.  [return_book_by_isbn] does the same with the status
    "available".  [add_book] of a book with a new ISBN appends it and
    performs no file operation: files and fault schedule are as before. *)
Theorem transitions_persist_add_does_not (s : Inventory) (w : World) :
  let document := fun bs : list Book =>
    JArr (map (fun b' => JObj (<["title" := JStr (title b')]>
                              (<["author" := JStr (author b')]>
                              (<["isbn" := JStr (isbn b')]>
                              (<["status" := JStr (status b')]> ∅))))) bs) in
  (forall i k b,
     LibraryInventory.first_with_isbn (PyStr.strip i) (books s) = Some k ->
     books s !! k = Some b ->
     status b = "available" ->
     let bs1 := <[k := mkBook (title b) (author b) (isbn b) "issued"]> (books s) in
     let s1 := mkInventory (json_path s) bs1 in
     let found := Log_found_by_isbn (PyStr.strip i) in
     let w1 := world_after w 0 (files w) [found] in
     (forall s2 w2,
        LibraryInventory.save s1 w1 = (Return tt, s2, w2) ->
        LibraryInventory.issue_book_by_isbn i s w =
          (Return tt, s1, world_after w2 0 (files w2) [Log_issued i]) /\
        files w2 = <[json_path s := Doc (document bs1)]> (files w)) /\
     (forall e s2 w2,
        LibraryInventory.save s1 w1 = (Raise e, s2, w2) ->
        LibraryInventory.issue_book_by_isbn i s w = (Raise e, s1, w2)) /\
     (forall e, fault_at 0 w = Some e ->
      LibraryInventory.issue_book_by_isbn i s w =
      (Raise (OSError e), s1, world_after w 1 (files w) [found; Log_failed_to_save])) /\
     (forall e, fault_at 0 w = None -> fault_at 1 w = Some e ->
      LibraryInventory.issue_book_by_isbn i s w =
      (Raise (OSError e), s1,
       world_after w 2 (<[json_path s := Malformed ""]> (files w))
         [found; Log_failed_to_save]))) /\
  (forall i k b,
     LibraryInventory.first_with_isbn (PyStr.strip i) (books s) = Some k ->
     books s !! k = Some b ->
     status b <> "available" ->
     let bs1 := <[k := mkBook (title b) (author b) (isbn b) "available"]> (books s) in
     let s1 := mkInventory (json_path s) bs1 in
     let found := Log_found_by_isbn (PyStr.strip i) in
     let w1 := world_after w 0 (files w) [found] in
     (forall s2 w2,
        LibraryInventory.save s1 w1 = (Return tt, s2, w2) ->
        LibraryInventory.return_book_by_isbn i s w =
          (Return tt, s1, world_after w2 0 (files w2) [Log_returned i]) /\
        files w2 = <[json_path s := Doc (document bs1)]> (files w)) /\
     (forall e s2 w2,
        LibraryInventory.save s1 w1 = (Raise e, s2, w2) ->
        LibraryInventory.return_book_by_isbn i s w = (Raise e, s1, w2)) /\
     (forall e, fault_at 0 w = Some e ->
      LibraryInventory.return_book_by_isbn i s w =
      (Raise (OSError e), s1, world_after w 1 (files w) [found; Log_failed_to_save])) /\
     (forall e, fault_at 0 w = None -> fault_at 1 w = Some e ->
      LibraryInventory.return_book_by_isbn i s w =
      (Raise (OSError e), s1,
       world_after w 2 (<[json_path s := Malformed ""]> (files w))
         [found; Log_failed_to_save]))) /\
  (forall b,
     ~ In (isbn b) (map isbn (books s)) ->
     LibraryInventory.add_book b s w =
     (Return tt, mkInventory (json_path s) (books s ++ [b]),
      world_after w 0 (files w) [Log_added b])).
Proof.
  intros document. split; [|split].
  - intros i k b Hk Hb Hs bs1 s1 found w1.
    assert (Ha : Book.is_available b = true)
      by (unfold Book.is_available; rewrite Hs; reflexivity).
    rewrite issue_book_by_isbn_eq, Hk, Hb, Ha.
    split; [|split; [|split]].
    + intros s2 w2 Hsave. destruct (save_returned _ _ _ _ Hsave) as [-> Hfs].
      unfold transition_then_save.
      change (set_status b "issued") with (mkBook (title b) (author b) (isbn b) "issued").
      fold bs1. fold s1. fold found. fold w1. rewrite Hsave.
      split; [reflexivity|exact Hfs].
    + intros e s2 w2 Hsave. rewrite (save_raised _ _ _ _ _ Hsave) in Hsave.
      unfold transition_then_save.
      change (set_status b "issued") with (mkBook (title b) (author b) (isbn b) "issued").
      fold bs1. fold s1. fold found. fold w1. rewrite Hsave. reflexivity.
    + intros e He. rewrite transition_then_save_eq, He. reflexivity.
    + intros e H0 H1. rewrite transition_then_save_eq, H0, H1. reflexivity.
  - intros i k b Hk Hb Hs bs1 s1 found w1.
    assert (Ha : Book.is_available b = false)
      by (unfold Book.is_available; apply String.eqb_neq; exact Hs).
    rewrite return_book_by_isbn_eq, Hk, Hb, Ha.
    split; [|split; [|split]].
    + intros s2 w2 Hsave. destruct (save_returned _ _ _ _ Hsave) as [-> Hfs].
      unfold transition_then_save.
      change (set_status b "available")
        with (mkBook (title b) (author b) (isbn b) "available").
      fold bs1. fold s1. fold found. fold w1. rewrite Hsave.
      split; [reflexivity|exact Hfs].
    + intros e s2 w2 Hsave. rewrite (save_raised _ _ _ _ _ Hsave) in Hsave.
      unfold transition_then_save.
      change (set_status b "available")
        with (mkBook (title b) (author b) (isbn b) "available").
      fold bs1. fold s1. fold found. fold w1. rewrite Hsave. reflexivity.
    + intros e He. rewrite transition_then_save_eq, He. reflexivity.
    + intros e H0 H1. rewrite transition_then_save_eq, H0, H1. reflexivity.
  - intros b H. rewrite add_book_eq. apply isbn_taken_not_In in H. rewrite H. reflexivity.
Qed.

Lemma transitions_persist_add_does_not_witness :
  let p := mkPath "data" "books.json" in
  let record := fun t a i st : string =>
    JObj (<["title" := JStr t]> (<["author" := JStr a]>
         (<["isbn" := JStr i]> (<["status" := JStr st]> ∅)))) in
  let dune := mkBook "Dune" "Herbert" "111" "available" in
  let emma := mkBook "Emma" "Austen" "222" "issued" in
  let s := mkInventory p [dune; emma] in
  let quiet := mkWorld "" ∅ [] [] in
  let denied := mkWorld "" ∅ [Some EACCES] [] in
  let torn := mkWorld "" ∅ [None; Some EIO] [] in
  LibraryInventory.issue_book_by_isbn "111" s quiet =
    (Return tt, mkInventory p [mkBook "Dune" "Herbert" "111" "issued"; emma],
     mkWorld ""
       {[ p := Doc (JArr [record "Dune" "Herbert" "111" "issued";
                          record "Emma" "Austen" "222" "issued"]) ]} []
       [Log_found_by_isbn "111"; Log_saved p; Log_issued "111"]) /\
  LibraryInventory.issue_book_by_isbn "111" s denied =
    (Raise (OSError EACCES),
     mkInventory p [mkBook "Dune" "Herbert" "111" "issued"; emma],
     mkWorld "" ∅ [] [Log_found_by_isbn "111"; Log_failed_to_save]) /\
  LibraryInventory.issue_book_by_isbn "111" s torn =
    (Raise (OSError EIO),
     mkInventory p [mkBook "Dune" "Herbert" "111" "issued"; emma],
     mkWorld "" {[ p := Malformed "" ]} [] [Log_found_by_isbn "111"; Log_failed_to_save]) /\
  LibraryInventory.return_book_by_isbn "222" s quiet =
    (Return tt, mkInventory p [dune; mkBook "Emma" "Austen" "222" "available"],
     mkWorld ""
       {[ p := Doc (JArr [record "Dune" "Herbert" "111" "available";
                          record "Emma" "Austen" "222" "available"]) ]} []
       [Log_found_by_isbn "222"; Log_saved p; Log_returned "222"]) /\
  LibraryInventory.add_book (mkBook "Ulysses" "Joyce" "333" "available") s quiet =
    (Return tt, mkInventory p [dune; emma; mkBook "Ulysses" "Joyce" "333" "available"],
     mkWorld "" ∅ [] [Log_added (mkBook "Ulysses" "Joyce" "333" "available")]).
Proof.
  intros p record dune emma s quiet denied torn.
  destruct (transitions_persist_add_does_not s quiet) as (Hi & Hr & Hadd).
  destruct (transitions_persist_add_does_not s denied) as (Hd & _ & _).
  destruct (transitions_persist_add_does_not s torn) as (Ht & _ & _).
  destruct (Hi "111" 0 dune eq_refl eq_refl eq_refl) as (Hok & _ & _ & _).
  destruct (Hd "111" 0 dune eq_refl eq_refl eq_refl) as (_ & Hraise & _ & _).
  destruct (Ht "111" 0 dune eq_refl eq_refl eq_refl) as (_ & _ & _ & Htorn).
  destruct (Hr "222" 1 emma eq_refl eq_refl) as (Hrok & _ & _ & _); [discriminate|].
  split; [|split; [|split; [|split]]].
  - rewrite (proj1 (Hok (mkInventory p [mkBook "Dune" "Herbert" "111" "issued"; emma])
               (mkWorld ""
                  {[ p := Doc (JArr [record "Dune" "Herbert" "111" "issued";
                                     record "Emma" "Austen" "222" "issued"]) ]} []
                  [Log_found_by_isbn "111"; Log_saved p]) eq_refl)).
    reflexivity.
  - rewrite (Hraise (OSError EACCES)
               (mkInventory p [mkBook "Dune" "Herbert" "111" "issued"; emma])
               (mkWorld "" ∅ [] [Log_found_by_isbn "111"; Log_failed_to_save]) eq_refl).
    reflexivity.
  - exact (Htorn EIO eq_refl eq_refl).
  - rewrite (proj1 (Hrok (mkInventory p [dune; mkBook "Emma" "Austen" "222" "available"])
               (mkWorld ""
                  {[ p := Doc (JArr [record "Dune" "Herbert" "111" "available";
                                     record "Emma" "Austen" "222" "available"]) ]} []
                  [Log_found_by_isbn "222"; Log_saved p]) eq_refl)).
    reflexivity.
  - apply Hadd. simpl. intros [H|[H|[]]]; discriminate H.
Defined.

(** ** [load] in closed form *)

Section LoadEquations.
Import LibraryInventory.

Lemma load_eq s w :
  load s w = try_except (load_try (json_path s)) (load_except (json_path s)) s w.
Proof. reflexivity. Qed.

Lemma read_json_eq p s w :
  Os.read_json p s w =
  match fault_at 0 w with
  | Some e => (Raise (OSError e), s, world_after w 1 (files w) [])
  | None =>
      match files w !! p with
      | None => (Raise (OSError ENOENT), s, world_after w 1 (files w) [])
      | Some (Malformed _) => (Raise JSONDecodeError, s, world_after w 1 (files w) [])
      | Some (Doc j) => (Return j, s, world_after w 1 (files w) [])
      | Some (Unloadable u) => (Raise (load_error u), s, world_after w 1 (files w) [])
      end
  end.
Proof.
  unfold Os.read_json. rewrite next_fault_eq.
  destruct (fault_at 0 w); [reflexivity|]. simpl files.
  destruct (files w !! p) as [[raw|j|u]|]; reflexivity.
Qed.

Lemma rename_eq p q s w :
  Os.rename p q s w =
  match fault_at 0 w with
  | Some e => (Raise (OSError e), s, world_after w 1 (files w) [])
  | None =>
      match files w !! p with
      | None => (Raise (OSError ENOENT), s, world_after w 1 (files w) [])
      | Some c => (Return tt, s, world_after w 1 (<[q := c]> (delete p (files w))) [])
      end
  end.
Proof.
  unfold Os.rename. rewrite next_fault_eq.
  destruct (fault_at 0 w); [reflexivity|]. simpl files.
  destruct (files w !! p) as [c|]; [|reflexivity].
  unfold Os.with_files, world_after. simpl. reflexivity.
Qed.

Lemma save_ignoring_errors_eq s w :
  save_ignoring_errors s w = (Return tt, s, (save s w).2).
Proof.
  unfold save_ignoring_errors, try_except, ret. rewrite save_eq.
  destruct (fault_at 0 w); [reflexivity|]. destruct (fault_at 1 w); reflexivity.
Qed.

Lemma load_try_missing s w :
  files w !! json_path s = None ->
  load_try (json_path s) s w = save (mkInventory (json_path s) []) w.
Proof.
  intros H. unfold load_try, bind at 1, Os.path_exists. rewrite H.
  rewrite bool_decide_eq_false_2 by (intros [x Hx]; discriminate Hx).
  reflexivity.
Qed.

Lemma load_try_present s w c :
  files w !! json_path s = Some c ->
  load_try (json_path s) s w =
  match fault_at 0 w with
  | Some e => (Raise (OSError e), s, world_after w 1 (files w) [])
  | None =>
      match c with
      | Malformed _ => (Raise JSONDecodeError, s, world_after w 1 (files w) [])
      | Doc (JArr items) =>
          match from_items items with
          | Return bs =>
              (Return tt, mkInventory (json_path s) bs,
               world_after w 1 (files w) [Log_loaded_books (length bs) (json_path s)])
          | Raise e => (Raise e, s, world_after w 1 (files w) [])
          end
      | Doc _ =>
          (Raise (ValueError "Invalid JSON structure for books (expected list)."), s,
           world_after w 1 (files w) [])
      | Unloadable u => (Raise (load_error u), s, world_after w 1 (files w) [])
      end
  end.
Proof.
  intros H. unfold load_try, bind at 1, Os.path_exists. rewrite H.
  rewrite bool_decide_eq_true_2 by eauto. cbn [negb]. cbv beta iota.
  unfold bind at 1. rewrite read_json_eq, H.
  destruct (fault_at 0 w); [reflexivity|].
  destruct c as [raw|[]|u]; try reflexivity.
  unfold bind, lift, set_books. destruct (from_items l); [|reflexivity].
  rewrite logging_eq, world_after_after. reflexivity.
Qed.

(** Neither [JSONDecodeError] nor [FileNotFoundError]: logged and raised
    again. *)
Lemma load_except_other p e s w :
  is_JSONDecodeError e = false -> is_FileNotFoundError e = false ->
  load_except p e s w = (Raise e, s, world_after w 0 (files w) [Log_unexpected_error]).
Proof.
  intros H1 H2. unfold load_except. rewrite H1, H2.
  unfold bind, raise. rewrite logging_eq. reflexivity.
Qed.

Lemma load_except_not_found p s w :
  load_except p (OSError ENOENT) s w =
  (Return tt, mkInventory (json_path s) [],
   (save (mkInventory (json_path s) [])
         (world_after w 0 (files w) [Log_not_found_starting_empty])).2).
Proof.
  unfold load_except. cbn [is_JSONDecodeError is_FileNotFoundError]. cbv beta iota.
  unfold bind, set_books. rewrite logging_eq, save_ignoring_errors_eq. reflexivity.
Qed.

(** [JSONDecodeError] on a path that names a file: the file is moved to its
    [.corrupt] sibling if the rename succeeds, and the store restarts empty
    in either case. *)
Lemma load_except_decode p c s w :
  names_a_file p -> files w !! p = Some c ->
  load_except p JSONDecodeError s w =
  (Return tt, mkInventory (json_path s) [],
   (save (mkInventory (json_path s) [])
      (match fault_at 0 w with
       | None =>
           world_after w 1 (<[corrupt_sibling p := c]> (delete p (files w)))
             [Log_json_decoding_error; Log_corrupted_moved (corrupt_sibling p)]
       | Some _ =>
           world_after w 1 (files w) [Log_json_decoding_error; Log_failed_to_rename]
       end)).2).
Proof.
  intros Hp Hc. unfold load_except. cbn [is_JSONDecodeError]. cbv beta iota.
  unfold bind at 1. rewrite logging_eq.
  unfold bind at 1, lift. rewrite (with_suffix_corrupt p Hp).
  unfold bind at 1, try_except, bind at 1. rewrite rename_eq.
  rewrite fault_at_world_after. simpl plus. simpl files. rewrite Hc.
  destruct (fault_at 0 w).
  - rewrite logging_eq, !world_after_after. simpl plus.
    unfold bind, set_books. rewrite save_ignoring_errors_eq. reflexivity.
  - rewrite logging_eq, !world_after_after. simpl plus.
    unfold bind, set_books. rewrite save_ignoring_errors_eq. reflexivity.
Qed.

End LoadEquations.

(** ** [load]: missing, malformed and ill-shaped files *)

(** What [save] leaves behind: some file operations are consumed, events are
    appended to the log, and no file but the target is touched. *)
Lemma save_world s w :
  exists n fs evs,
    (LibraryInventory.save s w).2 = world_after w n fs evs /\
    (forall q, q <> json_path s -> fs !! q = files w !! q).
Proof.
  rewrite save_eq.
  destruct (fault_at 0 w); [|destruct (fault_at 1 w)];
    eexists _, _, _; (split; [reflexivity|]); intros q Hq;
    try reflexivity; apply lookup_insert_ne; congruence.
Qed.

(** C2, counterexample. The file holds a JSON object: [load] raises to its
    caller, the file stays where it is and is not rewritten, and the only
    file operation made is the read. *)
Lemma load_object_document_raises :
  let p := mkPath "data" "books.json" in
  let s := mkInventory p [mkBook "Dune" "Herbert" "111" "available"] in
  let w := mkWorld "" {[ p := Doc (JObj ∅) ]} [None; None; None; None] [] in
  LibraryInventory.load s w =
  (Raise (ValueError "Invalid JSON structure for books (expected list)."), s,
   mkWorld "" {[ p := Doc (JObj ∅) ]} [None; None; None] [Log_unexpected_error]).
Proof.
  intros p s w. rewrite load_eq. unfold try_except.
  rewrite (load_try_present s w (Doc (JObj ∅))) by apply lookup_singleton_eq.
  reflexivity.
Qed.

(** C2, amended. When the file holds a JSON value that is not a list and can
    be read, [load] logs an unexpected error and raises the [ValueError]
    "Invalid JSON structure for books (expected list)." to its caller: the
    books of the object and the files are unchanged, nothing is renamed and
    nothing is saved.  The constructor catches the exception and goes on with
    the empty list. *)
Theorem load_non_list_raises (s : Inventory) (w : World) (j : json) :
  files w !! json_path s = Some (Doc j) ->
  (forall items, j <> JArr items) ->
  fault_at 0 w = None ->
  let e := ValueError "Invalid JSON structure for books (expected list)." in
  LibraryInventory.load s w =
    (Raise e, s, world_after w 1 (files w) [Log_unexpected_error]) /\
  LibraryInventory.init (Some (json_path s)) w =
    (mkInventory (json_path s) [],
     world_after w 1 (files w) [Log_unexpected_error; Log_failed_to_load e]).
Proof.
  intros Hf Hj H0 e.
  assert (Hload : forall bs,
    LibraryInventory.load (mkInventory (json_path s) bs) w =
    (Raise e, mkInventory (json_path s) bs,
     world_after w 1 (files w) [Log_unexpected_error])).
  { intros bs. rewrite load_eq. unfold try_except.
    rewrite (load_try_present (mkInventory (json_path s) bs) w (Doc j)) by exact Hf.
    rewrite H0.
    destruct j as [| | | |items|]; try (exfalso; exact (Hj items eq_refl));
      rewrite load_except_other by reflexivity;
      rewrite world_after_after; reflexivity. }
  split.
  - destruct s as [p bs]. apply Hload.
  - unfold LibraryInventory.init. simpl default.
    unfold try_except, bind. rewrite Hload.
    rewrite logging_eq, world_after_after. reflexivity.
Qed.

Lemma load_non_list_raises_witness :
  let p := mkPath "data" "books.json" in
  let s := mkInventory p [mkBook "Dune" "Herbert" "111" "available"] in
  let w := mkWorld "" {[ p := Doc (JStr "books") ]} [] [] in
  LibraryInventory.load s w =
    (Raise (ValueError "Invalid JSON structure for books (expected list)."), s,
     world_after w 1 (files w) [Log_unexpected_error]).
Proof.
  intros p s w.
  refine (proj1 (load_non_list_raises s w (JStr "books") _ _ _)).
  - apply lookup_singleton_eq.
  - intros items H. discriminate H.
  - reflexivity.
Defined.

(** C3, the code at the failing input. The target is missing and the
    directory refuses the new file: the bootstrap [save] of the missing-file
    branch is not wrapped as the two recovery paths are, its
    [PermissionError] reaches the last [except] clause and [load] raises it.
    Only a [FileNotFoundError] of that save is swallowed; without a fault the
    empty document is written. *)
Lemma load_missing_target_save_denied :
  let p := mkPath "data" "books.json" in
  let s := mkInventory p [] in
  LibraryInventory.load s (mkWorld "" ∅ [Some EACCES] []) =
    (Raise (OSError EACCES), s,
     mkWorld "" ∅ [] [Log_failed_to_save; Log_unexpected_error]) /\
  LibraryInventory.load s (mkWorld "" ∅ [Some ENOENT] []) =
    (Return tt, s,
     mkWorld "" {[ p := Doc (JArr []) ]} []
       [Log_failed_to_save; Log_not_found_starting_empty; Log_saved p]) /\
  LibraryInventory.load s (mkWorld "" ∅ [] []) =
    (Return tt, s, mkWorld "" {[ p := Doc (JArr []) ]} [] [Log_saved p]).
Proof.
  intros p s. repeat split; vm_compute; reflexivity.
Qed.

(** C4, counterexample. The target holds bytes that are not UTF-8, so it
    does not parse as JSON; reading it raises [UnicodeDecodeError], which is
    not a [JSONDecodeError].  [load] logs an unexpected error and raises to
    its caller: the books are the ones the object had, the file stays where
    it is, and no [.corrupt] file appears. *)
Lemma load_undecodable_raises :
  let p := mkPath "data" "books.json" in
  let s := mkInventory p [mkBook "Dune" "Herbert" "111" "available"] in
  let w := mkWorld "" {[ p := Unloadable Not_utf8 ]} [] [] in
  LibraryInventory.load s w =
    (Raise UnicodeDecodeError, s,
     mkWorld "" {[ p := Unloadable Not_utf8 ]} [] [Log_unexpected_error]) /\
  files (LibraryInventory.load s w).2 !! corrupt_sibling p = None.
Proof.
  intros p s w.
  assert (H : LibraryInventory.load s w =
    (Raise UnicodeDecodeError, s,
     mkWorld "" {[ p := Unloadable Not_utf8 ]} [] [Log_unexpected_error])).
  { rewrite load_eq. unfold try_except.
    rewrite (load_try_present s w (Unloadable Not_utf8)) by apply lookup_singleton_eq.
    reflexivity. }
  split; [exact H|]. rewrite H. reflexivity.
Qed.

(** C4, amended. The target names a file whose content is read and on which
    the parser raises [JSONDecodeError]: [load] returns without raising and
    the store is empty.  If the rename succeeds, the bad content is kept in
    the file whose name is the target's name with ".corrupt" appended; if
    the rename fails, that failure is logged and [load] returns with the
    empty store all the same. *)
Theorem load_malformed_recovers (s : Inventory) (w : World) (raw : string) :
  names_a_file (json_path s) ->
  files w !! json_path s = Some (Malformed raw) ->
  fault_at 0 w = None ->
  exists w',
    LibraryInventory.load s w = (Return tt, mkInventory (json_path s) [], w') /\
    In Log_json_decoding_error (log w') /\
    (fault_at 1 w = None ->
       name (corrupt_sibling (json_path s)) = (name (json_path s) ++ ".corrupt")%string /\
       files w' !! corrupt_sibling (json_path s) = Some (Malformed raw) /\
       In (Log_corrupted_moved (corrupt_sibling (json_path s))) (log w')) /\
    (forall e, fault_at 1 w = Some e ->
       In Log_failed_to_rename (log w') /\
       files w' !! corrupt_sibling (json_path s) =
       files w !! corrupt_sibling (json_path s)).
Proof.
  intros Hp Hf H0.
  rewrite load_eq. unfold try_except.
  rewrite (load_try_present s w (Malformed raw)) by exact Hf. rewrite H0.
  rewrite (load_except_decode (json_path s) (Malformed raw)) by assumption.
  rewrite fault_at_world_after. simpl plus. simpl files.
  set (s0 := mkInventory (json_path s) []).
  assert (Hne : corrupt_sibling (json_path s) <> json_path s0)
    by apply corrupt_sibling_ne.
  destruct (fault_at 1 w) as [e|];
    rewrite world_after_after;
    match goal with |- context [LibraryInventory.save s0 ?w2] =>
      destruct (save_world s0 w2) as (n & fs & evs & Hw & Hfs) end;
    rewrite Hw; eexists; (split; [reflexivity|]);
    simpl log; simpl files; rewrite (Hfs _ Hne); simpl files.
  - split; [rewrite !in_app_iff; simpl; tauto|].
    split; [discriminate|].
    intros e' [= <-]. split; [rewrite !in_app_iff; simpl; tauto|reflexivity].
  - split; [rewrite !in_app_iff; simpl; tauto|].
    split; [|discriminate].
    intros _. split; [reflexivity|].
    split; [apply lookup_insert_eq|rewrite !in_app_iff; simpl; tauto].
Qed.

Lemma load_malformed_recovers_witness :
  let p := mkPath "data" "books.json" in
  let s := mkInventory p [mkBook "Dune" "Herbert" "111" "available"] in
  let w := mkWorld "" {[ p := Malformed "[{" ]} [] [] in
  exists w',
    LibraryInventory.load s w = (Return tt, mkInventory p [], w') /\
    files w' !! mkPath "data" "books.json.corrupt" = Some (Malformed "[{").
Proof.
  intros p s w.
  destruct (load_malformed_recovers s w "[{") as (w' & Hl & _ & Hmv & _).
  - split; [discriminate|reflexivity].
  - apply lookup_singleton_eq.
  - reflexivity.
  - exists w'. split; [exact Hl|]. apply (Hmv eq_refl).
Defined.

(** ** Uniqueness of ISBNs *)

Section Uniqueness.
Import LibraryInventory.

Lemma from_dict_trimmed d b :
  Book.from_dict d = Return b -> PyStr.strip (isbn b) = isbn b.
Proof.
  unfold Book.from_dict.
  destruct (Book.get_strip d "title" "") as [t|]; [|discriminate].
  destruct (Book.get_strip d "author" "") as [a|]; [|discriminate].
  destruct (Book.get_strip d "isbn" "") as [i|]; [|discriminate].
  destruct (Book.get_strip d "status" "available") as [st|]; [|discriminate].
  intros [= <-]. simpl. apply strip_idem.
Qed.

Lemma from_items_trimmed items bs :
  from_items items = Return bs -> trimmed_isbns bs.
Proof.
  revert bs. induction items as [|item rest IH]; intros bs; simpl.
  - intros [= <-]. constructor.
  - destruct (from_item item) as [b|] eqn:Hb; [|discriminate].
    destruct (from_items rest) as [bs'|]; [|discriminate].
    intros [= <-]. constructor; [|apply IH; reflexivity].
    destruct item; try discriminate Hb. exact (from_dict_trimmed _ _ Hb).
Qed.

(** The book that [from_dict] rebuilds from [to_dict b]. *)
Lemma from_items_to_dicts bs :
  exists bs',
    from_items (map (fun b => JObj (Book.to_dict b)) bs) = Return bs' /\
    map isbn bs' = map (fun b => PyStr.strip (isbn b)) bs.
Proof.
  induction bs as [|b rest (bs' & Hr & Hi)]; simpl.
  - exists []. split; reflexivity.
  - rewrite from_dict_to_dict, Hr. eexists. split; [reflexivity|].
    simpl. rewrite strip_idem, Hi. reflexivity.
Qed.

Lemma map_strip_trimmed bs :
  trimmed_isbns bs -> map (fun b => PyStr.strip (isbn b)) bs = map isbn bs.
Proof.
  induction 1 as [|b rest Hb _ IH]; simpl; [reflexivity|].
  rewrite Hb, IH. reflexivity.
Qed.

Lemma loads_distinct_to_dicts bs :
  distinct_isbns bs -> trimmed_isbns bs ->
  loads_distinct (Some (Doc (to_dicts bs))).
Proof.
  intros Hd Ht. unfold loads_distinct, to_dicts.
  destruct (from_items_to_dicts bs) as (bs' & -> & Hi).
  unfold distinct_isbns. rewrite Hi, map_strip_trimmed by exact Ht. exact Hd.
Qed.

Lemma map_isbn_set_status bs k b st :
  bs !! k = Some b -> map isbn (<[k := set_status b st]> bs) = map isbn bs.
Proof.
  revert k. induction bs as [|x rest IH]; intros [|k]; simpl; try discriminate.
  - intros [= ->]. reflexivity.
  - intros H. rewrite (IH k H). reflexivity.
Qed.

Lemma store_inv_files p s w w' :
  files w' = files w -> store_inv p s w -> store_inv p s w'.
Proof. unfold store_inv. intros ->. tauto. Qed.

Lemma store_inv_empty p bs w :
  store_inv p (mkInventory p bs) w -> store_inv p (mkInventory p []) w.
Proof.
  unfold store_inv. simpl. intros (_ & _ & _ & H).
  repeat split; [constructor|constructor|exact H].
Qed.

(** *** Composition *)

Lemma keeps_ret {A} p (a : A) : keeps p (ret a).
Proof. intros s w H. exact H. Qed.

Lemma keeps_raise {A} p e : keeps p (@raise A e).
Proof. intros s w H. exact H. Qed.

Lemma keeps_lift {A} p (o : outcome A) : keeps p (lift o).
Proof. intros s w H. exact H. Qed.

Lemma keeps_logging p ev : keeps p (logging ev).
Proof. intros s w H. rewrite logging_eq. exact (store_inv_files p s w _ eq_refl H). Qed.

Lemma keeps_bind {A B} p (m : M A) (k : A -> M B) :
  keeps p m -> (forall a, keeps p (k a)) -> keeps p (bind m k).
Proof.
  intros Hm Hk s w H. specialize (Hm s w H). unfold bind.
  destruct (m s w) as [[[a|e] s1] w1]; simpl in Hm.
  - apply Hk. exact Hm.
  - exact Hm.
Qed.

Lemma keeps_try_except {A} p (m : M A) (h : exn -> M A) :
  keeps p m -> (forall e, keeps p (h e)) -> keeps p (try_except m h).
Proof.
  intros Hm Hh s w H. specialize (Hm s w H). unfold try_except.
  destruct (m s w) as [[[a|e] s1] w1]; simpl in Hm.
  - exact Hm.
  - apply Hh. exact Hm.
Qed.

Lemma keeps_set_books_nil p : keeps p (set_books []).
Proof.
  intros s w H. unfold set_books. simpl.
  destruct H as (Hp & _ & _ & Hf). rewrite Hp.
  repeat split; [constructor|constructor|exact Hf].
Qed.

Lemma keeps_save p : keeps p save.
Proof.
  intros s w (Hp & Hd & Ht & Hf). rewrite save_eq.
  destruct (fault_at 0 w); [|destruct (fault_at 1 w)];
    unfold store_inv, world_after; simpl;
    (split; [exact Hp|]); (split; [exact Hd|]); (split; [exact Ht|]);
    rewrite ?Hp, ?lookup_insert_eq; try exact Hf; try exact I.
  apply loads_distinct_to_dicts; assumption.
Qed.

Lemma keeps_save_ignoring_errors p : keeps p save_ignoring_errors.
Proof.
  apply keeps_try_except; [apply keeps_save|]. intros e. apply keeps_ret.
Qed.

(** Moving the target away leaves nothing to load at the target, unless the
    destination is the target itself. *)
Lemma keeps_rename p q : keeps p (Os.rename p q).
Proof.
  intros s w H. rewrite rename_eq.
  destruct (fault_at 0 w);
    [exact (store_inv_files p s w _ eq_refl H)|].
  destruct (files w !! p) as [c|] eqn:Hc;
    [|exact (store_inv_files p s w _ eq_refl H)].
  destruct H as (Hp & Hd & Ht & Hf).
  unfold store_inv, world_after. simpl. repeat split; try assumption.
  destruct (decide (q = p)) as [->|Hne].
  - rewrite lookup_insert_eq. rewrite Hc in Hf. exact Hf.
  - rewrite lookup_insert_ne by exact Hne. rewrite lookup_delete_eq. exact I.
Qed.

(** *** The methods *)

Lemma keeps_load_try p : keeps p (load_try p).
Proof.
  intros s w H. pose proof H as (Hp & Hd & Ht & Hf). subst p.
  destruct (files w !! json_path s) as [c|] eqn:Hc.
  - rewrite (load_try_present s w c Hc).
    destruct (fault_at 0 w); [exact (store_inv_files _ s w _ eq_refl H)|].
    destruct c as [raw|j|u];
      [exact (store_inv_files _ s w _ eq_refl H)| |
       exact (store_inv_files _ s w _ eq_refl H)].
    destruct j as [| | | |items|]; try exact (store_inv_files _ s w _ eq_refl H).
    destruct (from_items items) as [bs|e] eqn:Hbs;
      [|exact (store_inv_files _ s w _ eq_refl H)].
    unfold store_inv, world_after. simpl. rewrite Hc.
    split; [reflexivity|]. split; [|split].
    + simpl in Hf. rewrite Hbs in Hf. exact Hf.
    + exact (from_items_trimmed _ _ Hbs).
    + exact Hf.
  - rewrite (load_try_missing s w Hc). apply keeps_save.
    destruct s as [q bs]. exact (store_inv_empty q bs w H).
Qed.

Lemma keeps_load_except p e : keeps p (load_except p e).
Proof.
  unfold load_except.
  destruct (is_JSONDecodeError e); [|destruct (is_FileNotFoundError e)].
  - apply keeps_bind; [apply keeps_logging|intros _].
    apply keeps_bind; [apply keeps_lift|intros cp].
    apply keeps_bind; [|intros _].
    + apply keeps_try_except; [|intros _; apply keeps_logging].
      apply keeps_bind; [apply keeps_rename|intros _; apply keeps_logging].
    + apply keeps_bind; [apply keeps_set_books_nil|intros _].
      apply keeps_save_ignoring_errors.
  - apply keeps_bind; [apply keeps_logging|intros _].
    apply keeps_bind; [apply keeps_set_books_nil|intros _].
    apply keeps_save_ignoring_errors.
  - apply keeps_bind; [apply keeps_logging|intros _]. apply keeps_raise.
Qed.

Lemma keeps_load p : keeps p load.
Proof.
  intros s w H. rewrite load_eq. rewrite (proj1 H).
  apply keeps_try_except; [apply keeps_load_try|apply keeps_load_except|exact H].
Qed.

Lemma NoDup_snoc {A} (l : list A) (x : A) :
  NoDup l -> ~ In x l -> NoDup (l ++ [x]).
Proof.
  induction 1 as [|y l Hy Hl IH]; simpl; intros Hx.
  - constructor; [apply not_elem_of_nil|constructor].
  - constructor.
    + rewrite list_elem_of_In, in_app_iff. simpl.
      rewrite list_elem_of_In in Hy. intros [H|[H|[]]]; [tauto|].
      apply Hx. left. symmetry. exact H.
    + apply IH. tauto.
Qed.

Lemma keeps_add_book p t a i st : keeps p (add_book (Book.new t a i st)).
Proof.
  intros s w H. rewrite add_book_eq.
  destruct (isbn_taken (isbn (Book.new t a i st)) (books s)) eqn:Htaken;
    [exact (store_inv_files _ s w _ eq_refl H)|].
  destruct H as (Hp & Hd & Ht & Hf).
  unfold store_inv, world_after. simpl. split; [exact Hp|]. split; [|split].
  - unfold distinct_isbns. rewrite map_app. simpl.
    apply NoDup_snoc; [exact Hd|]. apply isbn_taken_not_In. exact Htaken.
  - apply Forall_app. split; [exact Ht|]. constructor; [|constructor].
    simpl. apply strip_idem.
  - exact Hf.
Qed.

Lemma keeps_transition_then_save p k b st found done s w :
  books s !! k = Some b -> store_inv p s w ->
  store_inv p (transition_then_save k b st found done s w).1.2
              (transition_then_save k b st found done s w).2.
Proof.
  intros Hb (Hp & Hd & Ht & Hf). unfold transition_then_save.
  set (s1 := mkInventory (json_path s) (<[k := set_status b st]> (books s))).
  set (w1 := world_after w 0 (files w) [found]).
  assert (H1 : store_inv p s1 w1).
  { unfold store_inv, s1, w1, world_after. simpl. split; [exact Hp|]. split; [|split].
    - unfold distinct_isbns. rewrite (map_isbn_set_status _ _ _ _ Hb). exact Hd.
    - apply Forall_insert; [exact Ht|]. simpl.
      exact (Forall_lookup_1 _ _ _ _ Ht Hb).
    - exact Hf. }
  pose proof (keeps_save p s1 w1 H1) as H2.
  destruct (save s1 w1) as [[[[]|e] s2] w2]; simpl in *.
  - exact (store_inv_files _ s2 w2 _ eq_refl H2).
  - exact H2.
Qed.

Lemma keeps_issue_book_by_isbn p i : keeps p (issue_book_by_isbn i).
Proof.
  intros s w H. rewrite issue_book_by_isbn_eq.
  destruct (first_with_isbn (PyStr.strip i) (books s)) as [k|];
    [|exact (store_inv_files _ s w _ eq_refl H)].
  destruct (books s !! k) as [b|] eqn:Hb;
    [|exact (store_inv_files _ s w _ eq_refl H)].
  destruct (Book.is_available b);
    [|exact (store_inv_files _ s w _ eq_refl H)].
  apply keeps_transition_then_save; assumption.
Qed.

Lemma keeps_return_book_by_isbn p i : keeps p (return_book_by_isbn i).
Proof.
  intros s w H. rewrite return_book_by_isbn_eq.
  destruct (first_with_isbn (PyStr.strip i) (books s)) as [k|];
    [|exact (store_inv_files _ s w _ eq_refl H)].
  destruct (books s !! k) as [b|] eqn:Hb;
    [|exact (store_inv_files _ s w _ eq_refl H)].
  destruct (Book.is_available b);
    [exact (store_inv_files _ s w _ eq_refl H)|].
  apply keeps_transition_then_save; assumption.
Qed.

Lemma keeps_run_call p c : keeps p (run_call c).
Proof.
  destruct c; simpl.
  - apply keeps_add_book.
  - apply keeps_issue_book_by_isbn.
  - apply keeps_return_book_by_isbn.
  - apply keeps_save.
  - apply keeps_load.
Qed.

Lemma run_calls_inv p cs s w :
  store_inv p s w ->
  store_inv p (run_calls cs s w).1 (run_calls cs s w).2.
Proof.
  revert s w. induction cs as [|c rest IH]; intros s w H; simpl; [exact H|].
  pose proof (keeps_run_call p c s w H) as Hc.
  destruct (run_call c s w) as [[r s1] w1]. simpl in Hc. apply IH. exact Hc.
Qed.

Lemma init_inv path w :
  let p := default (default_json_path w) path in
  loads_distinct (files w !! p) ->
  store_inv p (init path w).1 (init path w).2.
Proof.
  intros p Hf. unfold init. fold p.
  assert (H0 : store_inv p (mkInventory p []) w).
  { repeat split; [constructor|constructor|exact Hf]. }
  assert (Hk : keeps p (try_except (load;;; logging (Log_loaded_inventory p))
                                   (fun e => logging (Log_failed_to_load e)))).
  { apply keeps_try_except; [|intros e; apply keeps_logging].
    apply keeps_bind; [apply keeps_load|intros _; apply keeps_logging]. }
  specialize (Hk _ _ H0).
  destruct (try_except _ _ _ w) as [[r s1] w1]. exact Hk.
Qed.

End Uniqueness.

(** C1, counterexample. The persisted document lists two records with the
    ISBN "111": the constructor loads it without raising and the store then
    holds two books with the same ISBN. *)
Lemma load_accepts_duplicate_isbns :
  let p := mkPath "data" "books.json" in
  let dune := mkBook "Dune" "Herbert" "111" "available" in
  let emma := mkBook "Emma" "Austen" "111" "issued" in
  let w := mkWorld "" {[ p := Doc (LibraryInventory.to_dicts [dune; emma]) ]} [] [] in
  LibraryInventory.load (mkInventory p []) w =
    (Return tt, mkInventory p [dune; emma],
     mkWorld "" {[ p := Doc (LibraryInventory.to_dicts [dune; emma]) ]} []
       [Log_loaded_books 2 p]) /\
  books (LibraryInventory.init (Some p) w).1 = [dune; emma] /\
  ~ distinct_isbns (books (LibraryInventory.init (Some p) w).1).
Proof.
  intros p dune emma w.
  assert (Hl : LibraryInventory.load (mkInventory p []) w =
    (Return tt, mkInventory p [dune; emma],
     mkWorld "" {[ p := Doc (LibraryInventory.to_dicts [dune; emma]) ]} []
       [Log_loaded_books 2 p])).
  { rewrite load_eq. unfold try_except.
    rewrite (load_try_present _ w (Doc (LibraryInventory.to_dicts [dune; emma])))
      by apply lookup_singleton_eq.
    reflexivity. }
  assert (Hi : books (LibraryInventory.init (Some p) w).1 = [dune; emma]).
  { unfold LibraryInventory.init. simpl default. unfold try_except, bind.
    rewrite Hl. reflexivity. }
  split; [exact Hl|]. split; [exact Hi|].
  rewrite Hi. unfold distinct_isbns. simpl. intros H.
  apply NoDup_cons in H as [H _]. apply H. left.
Qed.

(** C1, amended. [load] replaces the list by the records of the document as
    they are, without checking their ISBNs.  So the ISBNs of the store are
    pairwise distinct after construction and after every later call of
    [add_book], [issue_book_by_isbn], [return_book_by_isbn], [save] or
    [load], whether the call returns or raises, provided that the document
    found at the path at construction, if it is a list that loads, has
    pairwise distinct trimmed ISBNs. *)
Theorem distinct_isbns_preserved (path : option Path) (w : World) (cs : list call) :
  (forall s items bs,
     files w !! json_path s = Some (Doc (JArr items)) ->
     fault_at 0 w = None ->
     LibraryInventory.from_items items = Return bs ->
     LibraryInventory.load s w =
     (Return tt, mkInventory (json_path s) bs,
      world_after w 1 (files w) [Log_loaded_books (length bs) (json_path s)])) /\
  (loads_distinct (files w !! default (LibraryInventory.default_json_path w) path) ->
   distinct_isbns
     (books (run_calls cs (LibraryInventory.init path w).1
                          (LibraryInventory.init path w).2).1)).
Proof.
  split.
  - intros s items bs Hf H0 Hbs. rewrite load_eq. unfold try_except.
    rewrite (load_try_present s w _ Hf), H0, Hbs. reflexivity.
  - intros Hf.
    pose proof (init_inv path w Hf) as H0.
    pose proof (run_calls_inv _ cs _ _ H0) as (_ & Hd & _).
    exact Hd.
Qed.

Lemma distinct_isbns_preserved_witness :
  let p := mkPath "data" "books.json" in
  let w := mkWorld "" ∅ [None; None; Some EACCES] [] in
  let cs := [Call_add "Dune" "Herbert" "111" None;
             Call_add "Emma" "Austen" " 111 " None;
             Call_add "Emma" "Austen" "222" (Some "issued");
             Call_issue "111"; Call_return "222"; Call_save; Call_load] in
  distinct_isbns
    (books (run_calls cs (LibraryInventory.init (Some p) w).1
                         (LibraryInventory.init (Some p) w).2).1).
Proof.
  intros p w cs.
  apply (proj2 (distinct_isbns_preserved (Some p) w cs)).
  simpl. exact I.
Defined.

(** * Further properties *)

(** ** [lower], [in] and [strip] *)

Section SearchFacts.
Import PyStr PyStrSearch.

Lemma startswith_spec s t :
  startswith s t = true <-> exists post, t = (s ++ post)%string.
Proof.
  revert t. induction s as [|x s IH]; intros t; simpl.
  - split; [intros _; exists t; reflexivity|reflexivity].
  - destruct t as [|y t].
    + split; [discriminate|]. intros [post H]. rewrite append_cons in H. discriminate H.
    + rewrite andb_true_iff, Ascii.eqb_eq, IH. split.
      * intros [-> [post ->]]. exists post. reflexivity.
      * intros [post H]. rewrite append_cons in H. injection H as -> ->. eauto.
Qed.

Lemma contains_spec s t :
  contains s t = true <-> exists pre post, t = (pre ++ s ++ post)%string.
Proof.
  induction t as [|y t IH].
  - simpl. rewrite orb_false_r, startswith_spec. split.
    + intros [post H]. exists EmptyString, post. exact H.
    + intros (pre & post & H). destruct pre as [|x pre]; [eauto|].
      rewrite append_cons in H. discriminate H.
  - change (contains s (String y t)) with (startswith s (String y t) || contains s t).
    rewrite orb_true_iff, startswith_spec, IH. split.
    + intros [[post H] | (pre & post & H)].
      * exists EmptyString, post. exact H.
      * exists (String y pre), post. rewrite append_cons, H. reflexivity.
    + intros (pre & post & H). destruct pre as [|x pre].
      * left. exists post. exact H.
      * right. rewrite append_cons in H. injection H as _ ->. eauto.
Qed.

Lemma lower_char_idem c : lower_char (lower_char c) = lower_char c.
Proof. destruct c as [[] [] [] [] [] [] [] []]; reflexivity. Qed.

Lemma isspace_lower_char c : isspace (lower_char c) = isspace c.
Proof. destruct c as [[] [] [] [] [] [] [] []]; reflexivity. Qed.

Lemma lower_idem s : lower (lower s) = lower s.
Proof.
  induction s as [|c r IH]; simpl; [reflexivity|].
  rewrite lower_char_idem, IH. reflexivity.
Qed.

Lemma lower_lstrip s : lower (lstrip s) = lstrip (lower s).
Proof.
  induction s as [|c r IH]; simpl; [reflexivity|].
  rewrite isspace_lower_char. destruct (isspace c); [exact IH|reflexivity].
Qed.

Lemma lower_rstrip s : lower (rstrip s) = rstrip (lower s).
Proof.
  induction s as [|c r IH]; simpl; [reflexivity|].
  rewrite isspace_lower_char, <- IH.
  destruct (rstrip r); simpl; [destruct (isspace c); reflexivity|reflexivity].
Qed.

Lemma lower_strip s : lower (strip s) = strip (lower s).
Proof. unfold strip. rewrite lower_rstrip, lower_lstrip. reflexivity. Qed.

Lemma lstrip_slice s : exists pre, s = (pre ++ lstrip s)%string.
Proof.
  induction s as [|c r [pre IH]]; simpl.
  - exists EmptyString. reflexivity.
  - destruct (isspace c).
    + exists (String c pre). rewrite append_cons, <- IH. reflexivity.
    + exists EmptyString. reflexivity.
Qed.

Lemma rstrip_slice s : exists post, s = (rstrip s ++ post)%string.
Proof.
  induction s as [|c r [post IH]]; simpl.
  - exists EmptyString. reflexivity.
  - destruct (rstrip r) as [|c' r'] eqn:Hr.
    + destruct (isspace c).
      * exists (String c r). reflexivity.
      * exists post. rewrite append_cons, <- IH. reflexivity.
    + exists post. rewrite append_cons, <- IH. reflexivity.
Qed.

Lemma strip_slice s : exists pre post, s = (pre ++ strip s ++ post)%string.
Proof.
  unfold strip. destruct (lstrip_slice s) as [pre Hpre].
  destruct (rstrip_slice (lstrip s)) as [post Hpost].
  exists pre, post. rewrite <- Hpost. exact Hpre.
Qed.

End SearchFacts.

(** ** search_by_title *)

Lemma filter_sublist {A} (f : A -> bool) (l : list A) : sublist (List.filter f l) l.
Proof.
  induction l as [|x l IH]; simpl; [constructor|].
  destruct (f x); [apply sublist_skip|apply sublist_cons]; exact IH.
Qed.

(** X1. [search_by_title] returns, in the order of the store, exactly the
    books whose lowered title has the lowered, trimmed query as a slice, and
    changes neither the store nor the files. *)
Theorem search_by_title_results (q : string) (s : Inventory) (w : World) :
  exists res,
    search_by_title q s w = (Return res, s, w) /\
    sublist res (books s) /\
    forall b,
      In b res <->
      In b (books s) /\
      exists pre post,
        PyStrSearch.lower (title b) =
        (pre ++ PyStrSearch.lower (PyStr.strip q) ++ post)%string.
Proof.
  eexists. split; [reflexivity|]. split; [apply filter_sublist|].
  intros b. rewrite filter_In. unfold title_matches. rewrite contains_spec.
  reflexivity.
Qed.

Lemma search_by_title_eq q s w :
  search_by_title q s w =
  (Return (List.filter (title_matches (PyStrSearch.lower (PyStr.strip q))) (books s)),
   s, w).
Proof. reflexivity. Qed.

(** X2. A book of the store is found by every query that, once trimmed and
    lowered, is its trimmed and lowered title: by the title itself in
    particular, in any letter case that lowers to the same string and with
    any blanks around it. *)
Theorem search_by_title_finds_own_title (q : string) (s : Inventory) (w : World)
    (b : Book) :
  In b (books s) ->
  PyStrSearch.lower (PyStr.strip q) = PyStrSearch.lower (PyStr.strip (title b)) ->
  exists res, search_by_title q s w = (Return res, s, w) /\ In b res.
Proof.
  intros Hb Hq. rewrite search_by_title_eq. eexists. split; [reflexivity|].
  apply filter_In. split; [exact Hb|].
  unfold title_matches. apply contains_spec.
  rewrite Hq, lower_strip. apply strip_slice.
Qed.

Lemma search_by_title_finds_own_title_witness :
  let dune := mkBook "Dune" "Herbert" "111" "available" in
  let emma := mkBook "Emma" "Austen" "222" "issued" in
  let s := mkInventory (mkPath "data" "books.json") [emma; dune] in
  let w := mkWorld "" ∅ [] [] in
  exists res, search_by_title " DUNE " s w = (Return res, s, w) /\ In dune res.
Proof.
  intros dune emma s w.
  apply (search_by_title_finds_own_title " DUNE " s w dune).
  - simpl. right. left. reflexivity.
  - reflexivity.
Defined.

(** X3. A query that is empty or blank returns every book of the store. *)
Theorem search_by_title_blank_query (q : string) (s : Inventory) (w : World) :
  PyStr.strip q = "" ->
  search_by_title q s w = (Return (books s), s, w).
Proof.
  intros Hq. rewrite search_by_title_eq, Hq. simpl PyStrSearch.lower.
  f_equal. f_equal. f_equal.
  induction (books s) as [|b bs IH]; simpl; [reflexivity|].
  unfold title_matches at 1. simpl.
  destruct (PyStrSearch.lower (title b)); simpl; rewrite IH; reflexivity.
Qed.

Lemma search_by_title_blank_query_witness :
  let dune := mkBook "Dune" "Herbert" "111" "available" in
  let emma := mkBook "Emma" "Austen" "222" "issued" in
  let s := mkInventory (mkPath "data" "books.json") [emma; dune] in
  let w := mkWorld "" ∅ [] [] in
  search_by_title "   " s w = (Return [emma; dune], s, w).
Proof.
  intros dune emma s w. apply (search_by_title_blank_query "   " s w). reflexivity.
Defined.

(** X4. The letter case of the query does not matter: two queries with the
    same lowered form return the same books. *)
Theorem search_by_title_case_insensitive (q1 q2 : string) (s : Inventory) (w : World) :
  PyStrSearch.lower q1 = PyStrSearch.lower q2 ->
  search_by_title q1 s w = search_by_title q2 s w.
Proof.
  intros H. rewrite !search_by_title_eq, !lower_strip, H. reflexivity.
Qed.

Lemma search_by_title_case_insensitive_witness :
  let s := mkInventory (mkPath "data" "books.json")
             [mkBook "Dune" "Herbert" "111" "available"] in
  let w := mkWorld "" ∅ [] [] in
  search_by_title "DUNE" s w = search_by_title "dune" s w.
Proof.
  intros s w. apply (search_by_title_case_insensitive "DUNE" "dune" s w). reflexivity.
Defined.

(** ** search_by_isbn and add_book *)

Section Lookup.
Import LibraryInventory.

Lemma first_with_isbn_earlier i bs k :
  first_with_isbn i bs = Some k ->
  forall j b, j < k -> bs !! j = Some b -> isbn b <> i.
Proof.
  revert k. induction bs as [|x rest IH]; intros k; simpl; [discriminate|].
  destruct (String.eqb (isbn x) i) eqn:Hx.
  - intros [= <-] j b Hj. lia.
  - destruct (first_with_isbn i rest) as [k'|]; simpl; [|discriminate].
    intros [= <-] [|j] b Hj; simpl.
    + intros [= <-]. apply String.eqb_neq. exact Hx.
    + apply (IH k' eq_refl). lia.
Qed.

Lemma first_with_isbn_snoc i bs b :
  ~ In i (map isbn bs) -> isbn b = i ->
  first_with_isbn i (bs ++ [b]) = Some (length bs).
Proof.
  intros Hn Hb. induction bs as [|x rest IH]; simpl.
  - rewrite Hb, String.eqb_refl. reflexivity.
  - simpl in Hn. destruct (String.eqb (isbn x) i) eqn:Hx.
    + apply String.eqb_eq in Hx. tauto.
    + rewrite IH by tauto. reflexivity.
Qed.

Lemma first_with_isbn_set_status i bs k b st :
  bs !! k = Some b ->
  first_with_isbn i (<[k := set_status b st]> bs) = first_with_isbn i bs.
Proof.
  revert k. induction bs as [|x rest IH]; intros [|k]; simpl; try discriminate.
  - intros [= ->]. reflexivity.
  - intros H. rewrite (IH k H). reflexivity.
Qed.

End Lookup.

(** X5. [search_by_isbn] ignores blanks around the query, changes neither
    the store nor the files, and returns the first book of the list whose
    ISBN is the trimmed query: no earlier book has that ISBN, and [None]
    means that no book has it. *)
Theorem search_by_isbn_first_match (i : string) (s : Inventory) (w : World) :
  LibraryInventory.search_by_isbn i s w =
    LibraryInventory.search_by_isbn (PyStr.strip i) s w /\
  exists r w',
    LibraryInventory.search_by_isbn i s w = (Return r, s, w') /\
    files w' = files w /\
    match r with
    | Some k =>
        (exists b, books s !! k = Some b /\ isbn b = PyStr.strip i) /\
        (forall j b, j < k -> books s !! j = Some b -> isbn b <> PyStr.strip i)
    | None => forall b, In b (books s) -> isbn b <> PyStr.strip i
    end.
Proof.
  split.
  - rewrite !search_by_isbn_eq, strip_idem. reflexivity.
  - rewrite search_by_isbn_eq.
    destruct (LibraryInventory.first_with_isbn (PyStr.strip i) (books s)) as [k|] eqn:Hk;
      eexists _, _; (split; [reflexivity|]); (split; [reflexivity|]).
    + split; [exact (first_with_isbn_lookup _ _ _ Hk)|].
      exact (first_with_isbn_earlier _ _ _ Hk).
    + intros b Hb Hi. apply first_with_isbn_None in Hk. apply Hk.
      apply in_map_iff. exists b. auto.
Qed.

(** X6. A book that [add_book] has accepted is found by [search_by_isbn]
    under the ISBN it was built with, blanks around it or not, at the end of
    the list. *)
Theorem add_book_then_search (t a i : string) (st : option string)
    (s : Inventory) (w : World) (q : string) :
  ~ In (PyStr.strip i) (map isbn (books s)) ->
  PyStr.strip q = PyStr.strip i ->
  let b := Book.new t a i st in
  exists s1 w1 w2,
    LibraryInventory.add_book b s w = (Return tt, s1, w1) /\
    LibraryInventory.search_by_isbn q s1 w1 = (Return (Some (length (books s))), s1, w2) /\
    books s1 !! length (books s) = Some b.
Proof.
  intros Hn Hq b.
  assert (Hb : isbn b = PyStr.strip i) by reflexivity.
  rewrite add_book_eq, Hb.
  apply isbn_taken_not_In in Hn. rewrite Hn.
  eexists _, _, _. split; [reflexivity|].
  rewrite search_by_isbn_eq. simpl books. rewrite Hq.
  rewrite (first_with_isbn_snoc (PyStr.strip i) (books s) b)
    by (try apply isbn_taken_not_In; assumption).
  split; [reflexivity|].
  rewrite lookup_app_r by lia. rewrite Nat.sub_diag. reflexivity.
Qed.

Lemma add_book_then_search_witness :
  let s := mkInventory (mkPath "data" "books.json")
             [mkBook "Emma" "Austen" "222" "issued"] in
  let w := mkWorld "" ∅ [] [] in
  exists s1 w1 w2,
    LibraryInventory.add_book (Book.new "Dune" "Herbert" " 111" None) s w =
      (Return tt, s1, w1) /\
    LibraryInventory.search_by_isbn "111 " s1 w1 = (Return (Some 1), s1, w2) /\
    books s1 !! 1 = Some (mkBook "Dune" "Herbert" "111" "available").
Proof.
  intros s w.
  apply (add_book_then_search "Dune" "Herbert" " 111" None s w "111 ").
  - simpl. intros [H|[]]. discriminate H.
  - reflexivity.
Defined.

(** ** issue_book_by_isbn and return_book_by_isbn composed *)

Lemma set_status_back b st0 st :
  status b = st0 -> set_status (set_status b st) st0 = b.
Proof. destruct b as [t a i s]. simpl. intros ->. reflexivity. Qed.

(** X7. Whenever [issue_book_by_isbn] returns and [return_book_by_isbn]
    with the same ISBN, called next, returns as well, the store is exactly
    as it was before the two calls, and the target holds the list of one
    object per book of that store, with the four keys and the values of the
    books. *)
Theorem issue_then_return_restores (i : string) (s s1 s2 : Inventory)
    (w w1 w2 : World) :
  LibraryInventory.issue_book_by_isbn i s w = (Return tt, s1, w1) ->
  LibraryInventory.return_book_by_isbn i s1 w1 = (Return tt, s2, w2) ->
  s2 = s /\
  files w2 =
    <[json_path s :=
        Doc (JArr (map (fun b => JObj (<["title" := JStr (title b)]>
                                      (<["author" := JStr (author b)]>
                                      (<["isbn" := JStr (isbn b)]>
                                      (<["status" := JStr (status b)]> ∅)))))
                       (books s)))]> (files w).
Proof.
  intros Hi Hr. rewrite issue_book_by_isbn_eq in Hi.
  destruct (LibraryInventory.first_with_isbn (PyStr.strip i) (books s)) as [k|] eqn:Hk;
    [|discriminate Hi].
  destruct (books s !! k) as [b|] eqn:Hb; [|discriminate Hi].
  destruct (Book.is_available b) eqn:Ha; [|discriminate Hi].
  assert (Hst : status b = "available") by (apply String.eqb_eq; exact Ha).
  rewrite transition_then_save_eq in Hi.
  destruct (fault_at 0 w) eqn:H0; [discriminate Hi|].
  destruct (fault_at 1 w) eqn:H1; [discriminate Hi|].
  cbv zeta in Hi. injection Hi as <- <-.
  rewrite return_book_by_isbn_eq in Hr. simpl books in Hr.
  rewrite (first_with_isbn_set_status _ _ _ _ _ Hb), Hk in Hr.
  rewrite list_lookup_insert_eq in Hr by (eapply lookup_lt_Some; exact Hb).
  change (Book.is_available (set_status b "issued")) with false in Hr. cbv iota in Hr.
  rewrite transition_then_save_eq, !fault_at_world_after in Hr. simpl plus in Hr.
  destruct (fault_at 2 w); [discriminate Hr|].
  destruct (fault_at 3 w); [discriminate Hr|].
  cbv zeta in Hr. injection Hr as <- <-. simpl.
  rewrite list_insert_insert_eq, (set_status_back b _ _ Hst).
  rewrite (list_insert_id _ _ _ Hb), insert_insert_eq.
  destruct s as [p bs]. split; reflexivity.
Qed.

Lemma issue_then_return_restores_witness :
  let p := mkPath "data" "books.json" in
  let record := fun t a i st : string =>
    JObj (<["title" := JStr t]> (<["author" := JStr a]>
         (<["isbn" := JStr i]> (<["status" := JStr st]> ∅)))) in
  let dune := mkBook "Dune" "Herbert" "111" "available" in
  let emma := mkBook "Emma" "Austen" "222" "issued" in
  let s := mkInventory p [emma; dune] in
  let w := mkWorld "" ∅ [] [] in
  let s1 := mkInventory p [emma; mkBook "Dune" "Herbert" "111" "issued"] in
  let w1 :=
    mkWorld ""
      {[ p := Doc (JArr [record "Emma" "Austen" "222" "issued";
                         record "Dune" "Herbert" "111" "issued"]) ]} []
      [Log_found_by_isbn "111"; Log_saved p; Log_issued "111"] in
  let w2 :=
    mkWorld ""
      {[ p := Doc (JArr [record "Emma" "Austen" "222" "issued";
                         record "Dune" "Herbert" "111" "available"]) ]} []
      [Log_found_by_isbn "111"; Log_saved p; Log_issued "111";
       Log_found_by_isbn "111"; Log_saved p; Log_returned "111"] in
  LibraryInventory.issue_book_by_isbn "111" s w = (Return tt, s1, w1) /\
  LibraryInventory.return_book_by_isbn "111" s1 w1 = (Return tt, s, w2) /\
  files w2 =
    <[p := Doc (JArr [record "Emma" "Austen" "222" "issued";
                      record "Dune" "Herbert" "111" "available"])]> ∅.
Proof.
  intros p record dune emma s w s1 w1 w2.
  split; [reflexivity|]. split; [reflexivity|].
  exact (proj2 (issue_then_return_restores "111" s s1 s w w1 w2 eq_refl eq_refl)).
Defined.

(** X8. Once [issue_book_by_isbn] has passed its guards, the book stays
    issued whether the save succeeded or raised: a second call with the same
    ISBN raises "Book already issued." and changes neither the store nor the
    files. *)
Theorem issue_twice_rejected (i : string) (s : Inventory) (w : World)
    (k : nat) (b : Book) :
  LibraryInventory.first_with_isbn (PyStr.strip i) (books s) = Some k ->
  books s !! k = Some b ->
  Book.is_available b = true ->
  exists r s1 w1 w2,
    LibraryInventory.issue_book_by_isbn i s w = (r, s1, w1) /\
    books s1 = <[k := set_status b "issued"]> (books s) /\
    LibraryInventory.issue_book_by_isbn i s1 w1 =
      (Raise (ValueError "Book already issued."), s1, w2) /\
    files w2 = files w1.
Proof.
  intros Hk Hb Ha.
  assert (Hagain : forall w1,
    LibraryInventory.issue_book_by_isbn i
      (mkInventory (json_path s) (<[k := set_status b "issued"]> (books s))) w1 =
    (Raise (ValueError "Book already issued."),
     mkInventory (json_path s) (<[k := set_status b "issued"]> (books s)),
     world_after w1 0 (files w1)
       [Log_found_by_isbn (PyStr.strip i); Log_issue_already_issued i])).
  { intros w1. rewrite issue_book_by_isbn_eq. simpl books.
    rewrite (first_with_isbn_set_status _ _ _ _ _ Hb), Hk.
    rewrite list_lookup_insert_eq by (eapply lookup_lt_Some; exact Hb).
    reflexivity. }
  rewrite issue_book_by_isbn_eq, Hk, Hb, Ha, transition_then_save_eq.
  destruct (fault_at 0 w); [|destruct (fault_at 1 w)];
    eexists _, _, _, _; (split; [reflexivity|]); (split; [reflexivity|]);
    rewrite Hagain; split; reflexivity.
Qed.

Lemma issue_twice_rejected_witness :
  let dune := mkBook "Dune" "Herbert" "111" "available" in
  let s := mkInventory (mkPath "data" "books.json") [dune] in
  let w := mkWorld "" ∅ [Some EACCES] [] in
  exists r s1 w1 w2,
    LibraryInventory.issue_book_by_isbn "111" s w = (r, s1, w1) /\
    books s1 = [set_status dune "issued"] /\
    LibraryInventory.issue_book_by_isbn "111" s1 w1 =
      (Raise (ValueError "Book already issued."), s1, w2) /\
    files w2 = files w1.
Proof.
  intros dune s w.
  exact (issue_twice_rejected "111" s w 0 dune eq_refl eq_refl eq_refl).
Defined.

Lemma only_first_status_differs_refl i s : only_first_status_differs i s s.
Proof.
  split; [reflexivity|]. split; [reflexivity|].
  intros j b' H. exists b'. tauto.
Qed.

Lemma only_first_status_differs_transition i k b st found done s w :
  LibraryInventory.first_with_isbn (PyStr.strip i) (books s) = Some k ->
  books s !! k = Some b ->
  only_first_status_differs i s (transition_then_save k b st found done s w).1.2.
Proof.
  intros Hk Hb. rewrite transition_then_save_eq.
  assert (Hs : forall r w',
    (@pair (outcome unit * Inventory) World
       (r, mkInventory (json_path s) (<[k := set_status b st]> (books s))) w').1.2 =
    mkInventory (json_path s) (<[k := set_status b st]> (books s))) by reflexivity.
  destruct (fault_at 0 w); [|destruct (fault_at 1 w)]; cbv zeta; rewrite Hs;
    unfold only_first_status_differs; simpl;
    (split; [reflexivity|]); (split; [apply length_insert|]);
    intros j b' Hj;
    (destruct (decide (k = j)) as [<-|Hne];
     [rewrite list_lookup_insert_eq in Hj by (eapply lookup_lt_Some; exact Hb);
      injection Hj as <-; exists b; simpl; tauto
     |rewrite list_lookup_insert_ne in Hj by exact Hne; exists b'; tauto]).
Qed.

(** X9. Whatever their outcome, [issue_book_by_isbn] and
    [return_book_by_isbn] neither add nor remove a book and change no title,
    author or ISBN; at most the status of the first book with the ISBN
    changes. *)
Theorem transitions_touch_one_status (i : string) (s : Inventory) (w : World) :
  only_first_status_differs i s (LibraryInventory.issue_book_by_isbn i s w).1.2 /\
  only_first_status_differs i s (LibraryInventory.return_book_by_isbn i s w).1.2.
Proof.
  split.
  - rewrite issue_book_by_isbn_eq.
    destruct (LibraryInventory.first_with_isbn (PyStr.strip i) (books s)) as [k|] eqn:Hk;
      [|apply only_first_status_differs_refl].
    destruct (books s !! k) as [b|] eqn:Hb; [|apply only_first_status_differs_refl].
    destruct (Book.is_available b); [|apply only_first_status_differs_refl].
    apply only_first_status_differs_transition; assumption.
  - rewrite return_book_by_isbn_eq.
    destruct (LibraryInventory.first_with_isbn (PyStr.strip i) (books s)) as [k|] eqn:Hk;
      [|apply only_first_status_differs_refl].
    destruct (books s !! k) as [b|] eqn:Hb; [|apply only_first_status_differs_refl].
    destruct (Book.is_available b); [apply only_first_status_differs_refl|].
    apply only_first_status_differs_transition; assumption.
Qed.

(** ** Normalized books *)

Lemma normalized_fields b :
  normalized b <->
  PyStr.strip (title b) = title b /\ PyStr.strip (author b) = author b /\
  PyStr.strip (isbn b) = isbn b /\
  (status b = "available" \/ status b = "issued").
Proof.
  unfold normalized, Book.post_init. destruct b as [t a i st]. simpl. split.
  - intros [= Ht Ha Hi Hst]. repeat split; try assumption.
    destruct (Book.status_recognized st) eqn:Hr.
    + exact (status_recognized_cases st Hr).
    + left. symmetry. exact Hst.
  - intros (-> & -> & -> & Hst).
    destruct Hst as [-> | ->]; reflexivity.
Qed.

Lemma new_normalized t a i st : normalized (Book.new t a i st).
Proof. unfold normalized, Book.new. apply post_init_idem. Qed.

Lemma from_dict_normalized d b : Book.from_dict d = Return b -> normalized b.
Proof.
  unfold Book.from_dict.
  destruct (Book.get_strip d "title" "") as [t|]; [|discriminate].
  destruct (Book.get_strip d "author" "") as [a|]; [|discriminate].
  destruct (Book.get_strip d "isbn" "") as [i|]; [|discriminate].
  destruct (Book.get_strip d "status" "available") as [st|]; [|discriminate].
  intros [= <-]. apply new_normalized.
Qed.

Lemma set_status_normalized b st :
  normalized b -> st = "available" \/ st = "issued" -> normalized (set_status b st).
Proof.
  rewrite !normalized_fields. destruct b as [t a i s0]. simpl. tauto.
Qed.

(** X10. The constructor and [from_dict] only build normalized books:
    title, author and ISBN are trimmed and the status is "available" or
    "issued".  [issue] and [return_book] keep a book normalized, whether
    they succeed or raise. *)
Theorem books_stay_normalized (b : Book) :
  (forall t a i st, normalized (Book.new t a i st)) /\
  (forall d b', Book.from_dict d = Return b' -> normalized b') /\
  (normalized b ->
     PyStr.strip (title b) = title b /\ PyStr.strip (author b) = author b /\
     PyStr.strip (isbn b) = isbn b /\
     (status b = "available" \/ status b = "issued")) /\
  (normalized b ->
     normalized (Book.issue b).2 /\ normalized (Book.return_book b).2).
Proof.
  split; [exact new_normalized|]. split; [exact from_dict_normalized|].
  split; [apply normalized_fields|].
  intros Hb. unfold Book.issue, Book.return_book.
  destruct (String.eqb (status b) "issued"), (String.eqb (status b) "available");
    simpl; split; try exact Hb; apply set_status_normalized; auto.
Qed.

Lemma books_stay_normalized_witness :
  let b := Book.new "  Dune " "Herbert" " 111" (Some "lost") in
  b = mkBook "Dune" "Herbert" "111" "available" /\
  normalized (Book.issue b).2 /\ normalized (Book.return_book b).2.
Proof.
  intros b. split; [reflexivity|].
  destruct (books_stay_normalized b) as (Hnew & _ & _ & Hkeep).
  apply Hkeep. apply Hnew.
Defined.

Lemma from_dict_to_dict_normalized b :
  normalized b -> Book.from_dict (Book.to_dict b) = Return b.
Proof.
  intros H. rewrite from_dict_to_dict.
  apply normalized_fields in H as (Ht & Ha & Hi & Hs). f_equal.
  destruct b as [t a i st]. simpl in *.
  unfold Book.new, Book.post_init. simpl.
  rewrite Ht, Ha, Hi, Ht, Ha, Hi.
  destruct Hs as [-> | ->]; reflexivity.
Qed.

(** X11. [from_dict] gives back the very book that [to_dict] serialized
    exactly when the book is normalized. *)
Theorem from_dict_to_dict_iff_normalized (b : Book) :
  Book.from_dict (Book.to_dict b) = Return b <-> normalized b.
Proof.
  split.
  - rewrite from_dict_to_dict. intros [= H]. rewrite <- H. apply new_normalized.
  - apply from_dict_to_dict_normalized.
Qed.

(** X12. [from_dict] reads the keys "title", "author", "isbn" and "status"
    and nothing else: an entry under any other key does not change its
    result. *)
Theorem from_dict_ignores_other_keys (d : gmap string json) (k : string) (v : json) :
  k <> "title" -> k <> "author" -> k <> "isbn" -> k <> "status" ->
  Book.from_dict (<[k := v]> d) = Book.from_dict d.
Proof.
  intros H1 H2 H3 H4. unfold Book.from_dict, Book.get_strip.
  rewrite !lookup_insert_ne by assumption. reflexivity.
Qed.

Lemma from_dict_ignores_other_keys_witness :
  let d : gmap string json := {[ "isbn" := JStr "111" ]} in
  Book.from_dict (<["year" := JNum 1965]> d) = Book.from_dict d.
Proof.
  intros d. apply (from_dict_ignores_other_keys d "year" (JNum 1965)); discriminate.
Defined.

Lemma from_dict_to_dict_iff_normalized_witness :
  let dune := mkBook "Dune" "Herbert" "111" "issued" in
  Book.from_dict (Book.to_dict dune) = Return dune.
Proof.
  intros dune. apply (proj2 (from_dict_to_dict_iff_normalized dune)). reflexivity.
Defined.

(** ** The books of a store are normalized *)

Section NormalizedStore.
Import LibraryInventory.

Lemma from_items_normalized items bs :
  from_items items = Return bs -> Forall normalized bs.
Proof.
  revert bs. induction items as [|item rest IH]; intros bs; simpl.
  - intros [= <-]. constructor.
  - destruct (from_item item) as [b|] eqn:Hb; [|discriminate].
    destruct (from_items rest) as [bs'|]; [|discriminate].
    intros [= <-]. constructor; [|apply IH; reflexivity].
    destruct item; try discriminate Hb. exact (from_dict_normalized _ _ Hb).
Qed.

Lemma from_items_to_dicts_normalized bs :
  Forall normalized bs ->
  from_items (map (fun b => JObj (Book.to_dict b)) bs) = Return bs.
Proof.
  induction 1 as [|b rest Hb _ IH]; simpl; [reflexivity|].
  rewrite (from_dict_to_dict_normalized b Hb), IH. reflexivity.
Qed.

Lemma holds_after_unchanged {A} (P : Inventory -> Prop) (m : M A) :
  (forall s w, (m s w).1.2 = s) -> holds_after P m.
Proof. intros H s w HP. rewrite H. exact HP. Qed.

Lemma holds_after_bind {A B} P (m : M A) (k : A -> M B) :
  holds_after P m -> (forall a, holds_after P (k a)) -> holds_after P (bind m k).
Proof.
  intros Hm Hk s w HP. specialize (Hm s w HP). unfold bind.
  destruct (m s w) as [[[a|e] s1] w1]; simpl in Hm.
  - apply Hk. exact Hm.
  - exact Hm.
Qed.

Lemma holds_after_try_except {A} P (m : M A) (h : exn -> M A) :
  holds_after P m -> (forall e, holds_after P (h e)) -> holds_after P (try_except m h).
Proof.
  intros Hm Hh s w HP. specialize (Hm s w HP). unfold try_except.
  destruct (m s w) as [[[a|e] s1] w1]; simpl in Hm.
  - exact Hm.
  - apply Hh. exact Hm.
Qed.

Lemma holds_after_logging P ev : holds_after P (logging ev).
Proof. apply holds_after_unchanged. reflexivity. Qed.

Lemma save_object s w : (save s w).1.2 = s.
Proof.
  rewrite save_eq. destruct (fault_at 0 w); [|destruct (fault_at 1 w)]; reflexivity.
Qed.

Lemma holds_after_save P : holds_after P save.
Proof. apply holds_after_unchanged. exact save_object. Qed.

Lemma holds_after_save_ignoring_errors P : holds_after P save_ignoring_errors.
Proof.
  apply holds_after_unchanged. intros s w. rewrite save_ignoring_errors_eq. reflexivity.
Qed.

Lemma holds_after_rename P p q : holds_after P (Os.rename p q).
Proof.
  apply holds_after_unchanged. intros s w. rewrite rename_eq.
  destruct (fault_at 0 w); [reflexivity|]. destruct (files w !! p); reflexivity.
Qed.

Lemma holds_after_set_books_nil (P : Inventory -> Prop) :
  (forall s, P s -> P (mkInventory (json_path s) [])) -> holds_after P (set_books []).
Proof. intros H s w HP. exact (H s HP). Qed.

(** The [except] clauses of [load] empty the list or leave it alone. *)
Lemma holds_after_load_except (P : Inventory -> Prop) p e :
  (forall s, P s -> P (mkInventory (json_path s) [])) ->
  holds_after P (load_except p e).
Proof.
  intros Hnil. unfold load_except.
  destruct (is_JSONDecodeError e); [|destruct (is_FileNotFoundError e)].
  - apply holds_after_bind; [apply holds_after_logging|intros _].
    apply holds_after_bind; [apply holds_after_unchanged; reflexivity|intros cp].
    apply holds_after_bind; [|intros _].
    + apply holds_after_try_except; [|intros _; apply holds_after_logging].
      apply holds_after_bind; [apply holds_after_rename|intros _; apply holds_after_logging].
    + apply holds_after_bind; [apply holds_after_set_books_nil; exact Hnil|intros _].
      apply holds_after_save_ignoring_errors.
  - apply holds_after_bind; [apply holds_after_logging|intros _].
    apply holds_after_bind; [apply holds_after_set_books_nil; exact Hnil|intros _].
    apply holds_after_save_ignoring_errors.
  - apply holds_after_bind; [apply holds_after_logging|intros _].
    apply holds_after_unchanged. reflexivity.
Qed.

Lemma normalized_store_nil p s :
  normalized_store p s -> normalized_store p (mkInventory (json_path s) []).
Proof. intros [Hp _]. split; [exact Hp|constructor]. Qed.

Lemma normalized_load_try p : holds_after (normalized_store p) (load_try p).
Proof.
  intros s w [Hp Hn]. subst p.
  destruct (files w !! json_path s) as [c|] eqn:Hc.
  - rewrite (load_try_present s w c Hc).
    destruct (fault_at 0 w); [split; [reflexivity|exact Hn]|].
    destruct c as [raw|j|u];
      [split; [reflexivity|exact Hn]| |split; [reflexivity|exact Hn]].
    destruct j as [| | | |items|]; try (split; [reflexivity|exact Hn]).
    destruct (from_items items) as [bs|e] eqn:Hbs; [|split; [reflexivity|exact Hn]].
    split; [reflexivity|]. exact (from_items_normalized _ _ Hbs).
  - rewrite (load_try_missing s w Hc), save_object. split; [reflexivity|constructor].
Qed.

Lemma normalized_load_except p e : holds_after (normalized_store p) (load_except p e).
Proof. apply holds_after_load_except. apply normalized_store_nil. Qed.

Lemma normalized_load p : holds_after (normalized_store p) load.
Proof.
  intros s w H. rewrite load_eq. rewrite (proj1 H).
  apply holds_after_try_except;
    [apply normalized_load_try|apply normalized_load_except|exact H].
Qed.

Lemma normalized_transition_then_save p k b st found done s w :
  books s !! k = Some b -> st = "available" \/ st = "issued" ->
  normalized_store p s ->
  normalized_store p (transition_then_save k b st found done s w).1.2.
Proof.
  intros Hb Hst [Hp Hn]. rewrite transition_then_save_eq.
  assert (H1 : normalized_store p
            (mkInventory (json_path s) (<[k := set_status b st]> (books s)))).
  { split; [exact Hp|]. apply Forall_insert; [exact Hn|].
    apply set_status_normalized; [exact (Forall_lookup_1 _ _ _ _ Hn Hb)|exact Hst]. }
  destruct (fault_at 0 w); [|destruct (fault_at 1 w)]; exact H1.
Qed.

Lemma normalized_run_call p c : holds_after (normalized_store p) (run_call c).
Proof.
  destruct c as [t a i st|i|i| |]; simpl.
  - intros s w [Hp Hn]. rewrite add_book_eq.
    destruct (isbn_taken _ _); [split; assumption|].
    split; [exact Hp|]. apply Forall_app. split; [exact Hn|].
    constructor; [apply new_normalized|constructor].
  - intros s w H. rewrite issue_book_by_isbn_eq.
    destruct (first_with_isbn _ _) as [k|]; [|exact H].
    destruct (books s !! k) as [b|] eqn:Hb; [|exact H].
    destruct (Book.is_available b); [|exact H].
    apply normalized_transition_then_save; auto.
  - intros s w H. rewrite return_book_by_isbn_eq.
    destruct (first_with_isbn _ _) as [k|]; [|exact H].
    destruct (books s !! k) as [b|] eqn:Hb; [|exact H].
    destruct (Book.is_available b); [exact H|].
    apply normalized_transition_then_save; auto.
  - apply holds_after_save.
  - apply normalized_load.
Qed.

Lemma normalized_run_calls p cs s w :
  normalized_store p s -> normalized_store p (run_calls cs s w).1.
Proof.
  revert s w. induction cs as [|c rest IH]; intros s w H; simpl; [exact H|].
  pose proof (normalized_run_call p c s w H) as Hc.
  destruct (run_call c s w) as [[r s1] w1]. simpl in Hc. apply IH. exact Hc.
Qed.

Lemma normalized_init path w :
  normalized_store (default (default_json_path w) path) (init path w).1.
Proof.
  unfold init. set (p := default (default_json_path w) path).
  assert (Hk : holds_after (normalized_store p)
            (try_except (load;;; logging (Log_loaded_inventory p))
                        (fun e => logging (Log_failed_to_load e)))).
  { apply holds_after_try_except; [|intros e; apply holds_after_logging].
    apply holds_after_bind; [apply normalized_load|intros _; apply holds_after_logging]. }
  specialize (Hk (mkInventory p []) w (conj eq_refl (Forall_nil_2 _))).
  destruct (try_except _ _ _ w) as [[r s1] w1]. exact Hk.
Qed.

End NormalizedStore.

(** X13. After construction and after any sequence of calls of [add_book]
    (with a book built by the constructor), [issue_book_by_isbn],
    [return_book_by_isbn], [save] and [load], successful or not, the store
    is still at the path it was built with and each of its books is
    normalized: every status is "available" or "issued". *)
Theorem store_books_normalized (path : option Path) (w : World) (cs : list call) :
  let s' := (run_calls cs (LibraryInventory.init path w).1
                          (LibraryInventory.init path w).2).1 in
  json_path s' = default (LibraryInventory.default_json_path w) path /\
  Forall normalized (books s') /\
  forall b, In b (books s') -> status b = "available" \/ status b = "issued".
Proof.
  intros s'.
  destruct (normalized_run_calls _ cs _ (LibraryInventory.init path w).2
              (normalized_init path w)) as [Hp Hn].
  split; [exact Hp|]. split; [exact Hn|].
  intros b Hb. apply list_elem_of_In in Hb.
  exact (proj2 (proj2 (proj2 (proj1 (normalized_fields b)
           (proj1 (Forall_forall _ _) Hn b Hb))))).
Qed.

Lemma store_books_normalized_witness :
  let p := mkPath "data" "books.json" in
  let doc := JArr [JObj {[ "isbn" := JStr " 111 "; "status" := JStr "lost" ]}] in
  let w := mkWorld "" {[ p := Doc doc ]} [] [] in
  let cs := [Call_issue "111"; Call_add "Emma" "Austen" "222" (Some "ISSUED")] in
  Forall normalized
    (books (run_calls cs (LibraryInventory.init (Some p) w).1
                         (LibraryInventory.init (Some p) w).2).1).
Proof.
  intros p doc w cs.
  exact (proj1 (proj2 (store_books_normalized (Some p) w cs))).
Defined.

(** ** save, then load *)

(** X14. When the books of a store are normalized, [save] returns and the
    read that follows meets no fault of the operating system, [load], into
    whatever list, brings back exactly the saved books in their order; so
    does constructing a new store on the same path. *)
Theorem save_then_load_restores (s s1 : Inventory) (w w1 : World) :
  Forall normalized (books s) ->
  LibraryInventory.save s w = (Return tt, s1, w1) ->
  fault_at 0 w1 = None ->
  s1 = s /\
  (forall bs0, exists w2,
     LibraryInventory.load (mkInventory (json_path s) bs0) w1 = (Return tt, s, w2)) /\
  (exists w3, LibraryInventory.init (Some (json_path s)) w1 = (s, w3)).
Proof.
  intros Hn Hsave H2. destruct (save_returned _ _ _ _ Hsave) as [-> Hfs].
  split; [reflexivity|].
  assert (Hf : files w1 !! json_path s = Some (Doc (LibraryInventory.to_dicts (books s))))
    by (rewrite Hfs; apply lookup_insert_eq).
  assert (Hload : forall bs0,
    LibraryInventory.load (mkInventory (json_path s) bs0) w1 =
    (Return tt, s,
     world_after w1 1 (files w1) [Log_loaded_books (length (books s)) (json_path s)])).
  { intros bs0. rewrite load_eq. unfold try_except.
    rewrite (load_try_present (mkInventory (json_path s) bs0) w1 _ Hf), H2.
    unfold LibraryInventory.to_dicts.
    rewrite (from_items_to_dicts_normalized _ Hn). destruct s. reflexivity. }
  split.
  - intros bs0. eexists. apply Hload.
  - unfold LibraryInventory.init. simpl default. unfold try_except, bind.
    rewrite Hload, logging_eq. eexists. reflexivity.
Qed.

Lemma save_then_load_restores_witness :
  let p := mkPath "data" "books.json" in
  let dune := mkBook "Dune" "Herbert" "111" "available" in
  let emma := mkBook "Emma" "Austen" "222" "issued" in
  let s := mkInventory p [emma; dune] in
  let w := mkWorld "" ∅ [] [] in
  let w1 := (LibraryInventory.save s w).2 in
  LibraryInventory.save s w = (Return tt, s, w1) /\
  (exists w2,
     LibraryInventory.load (mkInventory p [mkBook "Ulysses" "Joyce" "333" "available"]) w1
     = (Return tt, s, w2)) /\
  (exists w3, LibraryInventory.init (Some p) w1 = (s, w3)).
Proof.
  intros p dune emma s w w1.
  assert (Hn : Forall normalized (books s)) by (repeat constructor).
  destruct (save_then_load_restores s s w w1 Hn eq_refl eq_refl) as (_ & Hload & Hinit).
  split; [reflexivity|]. split; [apply Hload|exact Hinit].
Defined.

(** ** What [load] raises *)

Section LoadRaises.
Import LibraryInventory.

Lemma raises_only_return {A} Q (m : M A) :
  (forall s w, exists a, (m s w).1.1 = Return a) -> raises_only Q m.
Proof. intros H s w e He. destruct (H s w) as [a Ha]. congruence. Qed.

Lemma raises_only_bind {A B} Q (m : M A) (k : A -> M B) :
  raises_only Q m -> (forall a, raises_only Q (k a)) -> raises_only Q (bind m k).
Proof.
  intros Hm Hk s w e. unfold bind. specialize (Hm s w).
  destruct (m s w) as [[[a|e'] s1] w1]; simpl in *.
  - apply Hk.
  - intros [= <-]. apply Hm. reflexivity.
Qed.

Lemma raises_only_try_except {A} Q (m : M A) (h : exn -> M A) :
  (forall e, raises_only Q (h e)) -> raises_only Q (try_except m h).
Proof.
  intros Hh s w e. unfold try_except.
  destruct (m s w) as [[[a|e'] s1] w1]; simpl.
  - discriminate.
  - apply Hh.
Qed.

Lemma raises_only_logging Q ev : raises_only Q (logging ev).
Proof. apply raises_only_return. intros s w. exists tt. reflexivity. Qed.

Lemma raises_only_set_books Q bs : raises_only Q (set_books bs).
Proof. apply raises_only_return. intros s w. exists tt. reflexivity. Qed.

Lemma raises_only_save_ignoring_errors Q : raises_only Q save_ignoring_errors.
Proof.
  apply raises_only_return. intros s w. exists tt.
  rewrite save_ignoring_errors_eq. reflexivity.
Qed.

Lemma with_suffix_raises p sfx e :
  Pathlib.with_suffix p sfx = Raise e -> exists msg, e = ValueError msg.
Proof.
  unfold Pathlib.with_suffix.
  destruct (Pathlib.contains "/" sfx); [intros [= <-]; eauto|].
  destruct (_ || _); [intros [= <-]; eauto|].
  destruct (String.eqb (name p) ""); [intros [= <-]; eauto|discriminate].
Qed.

(** An exception that is neither of the two that [load] recovers from. *)
Lemma load_except_raises p e :
  raises_only
    (fun e' => is_JSONDecodeError e' = false /\ is_FileNotFoundError e' = false)
    (load_except p e).
Proof.
  unfold load_except.
  destruct (is_JSONDecodeError e) eqn:H1; [|destruct (is_FileNotFoundError e) eqn:H2].
  - apply raises_only_bind; [apply raises_only_logging|intros _].
    apply raises_only_bind.
    + intros s w e' He. unfold lift in He. simpl in He.
      destruct (with_suffix_raises _ _ _ He) as [msg ->]. split; reflexivity.
    + intros cp. apply raises_only_bind.
      * apply raises_only_try_except. intros _. apply raises_only_logging.
      * intros _. apply raises_only_bind; [apply raises_only_set_books|intros _].
        apply raises_only_save_ignoring_errors.
  - apply raises_only_bind; [apply raises_only_logging|intros _].
    apply raises_only_bind; [apply raises_only_set_books|intros _].
    apply raises_only_save_ignoring_errors.
  - apply raises_only_bind; [apply raises_only_logging|intros _].
    intros s w e' [= <-]. split; assumption.
Qed.

End LoadRaises.

(** X15. [load] never raises a [JSONDecodeError] or a [FileNotFoundError] to
    its caller, whatever the files hold and whatever faults occur. *)
Theorem load_never_raises_decode_or_not_found (s : Inventory) (w : World) :
  (LibraryInventory.load s w).1.1 <> Raise JSONDecodeError /\
  (LibraryInventory.load s w).1.1 <> Raise (OSError ENOENT).
Proof.
  assert (H : forall e, (LibraryInventory.load s w).1.1 = Raise e ->
                        is_JSONDecodeError e = false /\ is_FileNotFoundError e = false).
  { intros e. rewrite load_eq.
    apply (raises_only_try_except _ _ _ (load_except_raises (json_path s))). }
  split; intros He; destruct (H _ He) as [H1 H2]; discriminate.
Qed.

(** ** [load] case by case *)

Section LoadCases.
Import LibraryInventory.

Lemma from_item_loadable item :
  if loadable_item item
  then exists b, from_item item = Return b
  else from_item item = Raise AttributeError.
Proof.
  destruct item as [| | | | |d]; try reflexivity.
  unfold loadable_item, from_item, Book.from_dict. rewrite !get_strip_field.
  destruct (str_or_missing d "title"); [|reflexivity].
  destruct (str_or_missing d "author"); [|reflexivity].
  destruct (str_or_missing d "isbn"); [|reflexivity].
  destruct (str_or_missing d "status"); [|reflexivity].
  simpl. eauto.
Qed.

Lemma from_items_loadable items :
  if forallb loadable_item items
  then exists bs, from_items items = Return bs /\ length bs = length items
  else from_items items = Raise AttributeError.
Proof.
  induction items as [|item rest IH]; simpl.
  - exists []. split; reflexivity.
  - pose proof (from_item_loadable item) as Hi.
    destruct (loadable_item item); simpl.
    + destruct Hi as [b ->].
      destruct (forallb loadable_item rest).
      * destruct IH as (bs & -> & Hl). exists (b :: bs). simpl. rewrite Hl. auto.
      * rewrite IH. reflexivity.
    + rewrite Hi. reflexivity.
Qed.

End LoadCases.

(** X16. [load] takes the persisted list whole or not at all.  If every
    element is an object whose four keys are missing or hold strings, the
    store holds one book for each element afterwards.  If a single element is
    not, [load] raises [AttributeError] and leaves the books and the files as
    they were, however many elements are well formed. *)
Theorem load_all_or_nothing (s : Inventory) (w : World) (items : list json) :
  files w !! json_path s = Some (Doc (JArr items)) ->
  fault_at 0 w = None ->
  (forallb loadable_item items = true ->
   exists bs,
     LibraryInventory.load s w =
       (Return tt, mkInventory (json_path s) bs,
        world_after w 1 (files w) [Log_loaded_books (length bs) (json_path s)]) /\
     length bs = length items) /\
  (forallb loadable_item items = false ->
   LibraryInventory.load s w =
     (Raise AttributeError, s, world_after w 1 (files w) [Log_unexpected_error])).
Proof.
  intros Hf H0. rewrite load_eq. unfold try_except.
  rewrite (load_try_present s w _ Hf), H0.
  pose proof (from_items_loadable items) as Hi.
  destruct (forallb loadable_item items).
  - split; [|discriminate]. intros _. destruct Hi as (bs & -> & Hl).
    exists bs. split; [reflexivity|exact Hl].
  - split; [discriminate|]. intros _. rewrite Hi.
    rewrite load_except_other by reflexivity. rewrite world_after_after. reflexivity.
Qed.

Lemma load_all_or_nothing_witness :
  let p := mkPath "data" "books.json" in
  let good := JObj {[ "title" := JStr "Dune"; "isbn" := JStr "111" ]} in
  let bad := JObj {[ "title" := JStr "Emma"; "isbn" := JNum 222 ]} in
  let s := mkInventory p [mkBook "Ulysses" "Joyce" "333" "available"] in
  let w := mkWorld "" {[ p := Doc (JArr [good; bad; good]) ]} [] [] in
  LibraryInventory.load s w =
    (Raise AttributeError, s, world_after w 1 (files w) [Log_unexpected_error]).
Proof.
  intros p good bad s w.
  refine (proj2 (load_all_or_nothing s w [good; bad; good] _ _) _).
  - apply lookup_singleton_eq.
  - reflexivity.
  - reflexivity.
Defined.

(** X17. When the file is malformed, the rename to the [.corrupt] name fails
    and the save that follows succeeds, [load] returns with an empty store
    and the malformed text is gone: the target holds the empty list and no
    other file has changed. *)
Theorem load_failed_rename_overwrites (s : Inventory) (w : World) (raw : string)
    (e : os_error) :
  names_a_file (json_path s) ->
  files w !! json_path s = Some (Malformed raw) ->
  fault_at 0 w = None ->
  fault_at 1 w = Some e ->
  fault_at 2 w = None ->
  fault_at 3 w = None ->
  LibraryInventory.load s w =
    (Return tt, mkInventory (json_path s) [],
     world_after w 4 (<[json_path s := Doc (JArr [])]> (files w))
       [Log_json_decoding_error; Log_failed_to_rename; Log_saved (json_path s)]).
Proof.
  intros Hp Hf H0 H1 H2 H3. rewrite load_eq. unfold try_except.
  rewrite (load_try_present s w _ Hf), H0.
  rewrite (load_except_decode (json_path s) (Malformed raw)) by assumption.
  rewrite fault_at_world_after. simpl plus. rewrite H1.
  rewrite world_after_after, save_eq, !fault_at_world_after. simpl plus.
  rewrite H2, H3. simpl. rewrite world_after_after. reflexivity.
Qed.

Lemma load_failed_rename_overwrites_witness :
  let p := mkPath "data" "books.json" in
  let s := mkInventory p [] in
  let w := mkWorld "" {[ p := Malformed "[{" ]} [None; Some EACCES] [] in
  files (LibraryInventory.load s w).2 = {[ p := Doc (JArr []) ]}.
Proof.
  intros p s w.
  rewrite (load_failed_rename_overwrites s w "[{" EACCES).
  - simpl. apply insert_singleton_eq.
  - split; [discriminate|reflexivity].
  - apply lookup_singleton_eq.
  - reflexivity.
  - reflexivity.
  - reflexivity.
  - reflexivity.
Defined.

(** X18. When the file exists and reading it fails with an error of the
    operating system: a [FileNotFoundError] makes [load] restart with an
    empty store and return, any other error is logged and raised again with
    the books and the files as they were. *)
Theorem load_read_failure (s : Inventory) (w : World) (c : content) (e : os_error) :
  files w !! json_path s = Some c ->
  fault_at 0 w = Some e ->
  (e = ENOENT ->
   exists w', LibraryInventory.load s w = (Return tt, mkInventory (json_path s) [], w')) /\
  (e <> ENOENT ->
   LibraryInventory.load s w =
     (Raise (OSError e), s, world_after w 1 (files w) [Log_unexpected_error])).
Proof.
  intros Hf H0. rewrite load_eq. unfold try_except.
  rewrite (load_try_present s w _ Hf), H0. split.
  - intros ->. rewrite load_except_not_found. eexists. reflexivity.
  - intros He. rewrite load_except_other;
      [|reflexivity|destruct e; [exfalso; apply He; reflexivity|reflexivity..]].
    rewrite world_after_after. reflexivity.
Qed.

Lemma load_read_failure_witness :
  let p := mkPath "data" "books.json" in
  let s := mkInventory p [mkBook "Dune" "Herbert" "111" "available"] in
  let w := mkWorld "" {[ p := Doc (JArr []) ]} [Some EACCES] [] in
  LibraryInventory.load s w =
    (Raise (OSError EACCES), s, world_after w 1 (files w) [Log_unexpected_error]).
Proof.
  intros p s w.
  refine (proj2 (load_read_failure s w (Doc (JArr [])) EACCES _ _) _).
  - apply lookup_singleton_eq.
  - reflexivity.
  - discriminate.
Defined.

(** X29. When the file exists, is opened, and reading it fails otherwise
    than with [JSONDecodeError] -- its bytes are not UTF-8, its nesting
    exceeds the recursion limit, or an integer literal has too many digits
    -- [load] logs an unexpected error and raises that exception: the books
    and the files are as they were, and nothing is renamed. *)
Theorem load_unloadable_raises (s : Inventory) (w : World) (u : unloadable) :
  files w !! json_path s = Some (Unloadable u) ->
  fault_at 0 w = None ->
  LibraryInventory.load s w =
    (Raise match u with
           | Not_utf8 => UnicodeDecodeError
           | Too_deep => RecursionError
           | Int_too_long msg => ValueError msg
           end,
     s, world_after w 1 (files w) [Log_unexpected_error]).
Proof.
  intros Hf H0. rewrite load_eq. unfold try_except.
  rewrite (load_try_present s w _ Hf), H0.
  rewrite load_except_other by (destruct u; reflexivity).
  rewrite world_after_after. destruct u; reflexivity.
Qed.

Lemma load_unloadable_raises_witness :
  let p := mkPath "data" "books.json" in
  let s := mkInventory p [mkBook "Dune" "Herbert" "111" "available"] in
  let w := mkWorld "" {[ p := Unloadable Too_deep ]} [] [] in
  LibraryInventory.load s w =
    (Raise RecursionError, s,
     mkWorld "" {[ p := Unloadable Too_deep ]} [] [Log_unexpected_error]).
Proof.
  intros p s w.
  exact (load_unloadable_raises s w Too_deep (lookup_singleton_eq _ _) eq_refl).
Defined.



Section LoadBooks.
Import LibraryInventory.

Lemma load_books_cases s w :
  json_path (load s w).1.2 = json_path s /\
  (books (load s w).1.2 = books s \/ books (load s w).1.2 = [] \/
   loaded_from w (json_path s) (books (load s w).1.2)).
Proof.
  set (P := fun s' : Inventory =>
    json_path s' = json_path s /\
    (books s' = books s \/ books s' = [] \/ loaded_from w (json_path s) (books s'))).
  assert (Hnil : forall s', P s' -> P (mkInventory (json_path s') [])).
  { intros s' [Hp _]. split; [exact Hp|]. right. left. reflexivity. }
  assert (Htry : P (load_try (json_path s) s w).1.2).
  { destruct (files w !! json_path s) as [c|] eqn:Hc.
    - rewrite (load_try_present s w c Hc).
      destruct (fault_at 0 w) eqn:H0; [split; [reflexivity|left; reflexivity]|].
      destruct c as [raw|j|u];
        [split; [reflexivity|left; reflexivity]| |
         split; [reflexivity|left; reflexivity]].
      destruct j as [| | | |items|]; try (split; [reflexivity|left; reflexivity]).
      destruct (from_items items) as [bs|e] eqn:Hbs;
        [|split; [reflexivity|left; reflexivity]].
      split; [reflexivity|]. right. right. exists items. auto.
    - rewrite (load_try_missing s w Hc), save_object.
      split; [reflexivity|right; left; reflexivity]. }
  change (P (load s w).1.2). rewrite load_eq. unfold try_except.
  destruct (load_try (json_path s) s w) as [[[[]|e] s1] w1]; simpl in Htry.
  - exact Htry.
  - exact (holds_after_load_except P (json_path s) e Hnil s1 w1 Htry).
Qed.

End LoadBooks.

(** X20. [load] leaves the path of the store alone, and the books after it
    are the books before it, or none, or the books of the list that the
    target held and that was read without a fault.  A newly constructed
    store is therefore empty unless the target held such a list. *)
Theorem load_books_origin (s : Inventory) (w : World) (path : option Path) :
  (json_path (LibraryInventory.load s w).1.2 = json_path s /\
   (books (LibraryInventory.load s w).1.2 = books s \/
    books (LibraryInventory.load s w).1.2 = [] \/
    loaded_from w (json_path s) (books (LibraryInventory.load s w).1.2))) /\
  (let p := default (LibraryInventory.default_json_path w) path in
   json_path (LibraryInventory.init path w).1 = p /\
   (books (LibraryInventory.init path w).1 = [] \/
    loaded_from w p (books (LibraryInventory.init path w).1))).
Proof.
  split; [apply load_books_cases|].
  intros p. unfold LibraryInventory.init. fold p.
  pose proof (load_books_cases (mkInventory p []) w) as Hl.
  unfold try_except, bind.
  destruct (LibraryInventory.load (mkInventory p []) w) as [[[[]|e] s1] w1];
    simpl in *; tauto.
Qed.

(** ** prompt_nonempty *)

Section Prompt.
Import Cli.

Lemma prompt_nonempty_on_spec text lines out :
  match prompt_nonempty_on text lines out with
  | (Done r, c') =>
      r <> "" /\ PyStr.strip r = r /\
      exists skipped l,
        lines = skipped ++ l :: stdin c' /\ Forall blank skipped /\
        r = PyStr.strip l /\
        stdout c' = out ++ rejected text skipped ++ [Prompt text]
  | (Fail e, c') =>
      e = KeyboardInterrupt /\ Forall blank lines /\ stdin c' = [] /\
      stdout c' = out ++ rejected text lines ++ [Prompt text; Line ""]
  end.
Proof.
  revert out. induction lines as [|l rest IH]; intros out; simpl.
  - repeat split. constructor.
  - destruct (String.eqb (PyStr.strip l) "") eqn:Hl.
    + apply String.eqb_eq in Hl. specialize (IH (out ++
        [Prompt text; Line "Input cannot be empty. Please try again."])).
      destruct (prompt_nonempty_on text rest _) as [[r|e] c'].
      * destruct IH as (Hr & Hs & skipped & l' & Hlines & Hsk & Hrl & Hout).
        split; [exact Hr|]. split; [exact Hs|].
        exists (l :: skipped), l'. rewrite Hlines. split; [reflexivity|].
        split; [constructor; assumption|]. split; [exact Hrl|].
        rewrite Hout. unfold rejected. simpl. rewrite <- !app_assoc. reflexivity.
      * destruct IH as (He & Hb & Hin & Hout).
        split; [exact He|]. split; [constructor; assumption|]. split; [exact Hin|].
        rewrite Hout. unfold rejected. simpl. rewrite <- !app_assoc. reflexivity.
    + apply String.eqb_neq in Hl. split; [exact Hl|]. split; [apply strip_idem|].
      exists [], l. simpl. repeat split. constructor.
Qed.

Lemma prompt_nonempty_nonblank text l rest out s w :
  ~ blank l ->
  prompt_nonempty text (mkConsole (l :: rest) out) s w =
  (Done (PyStr.strip l), mkConsole rest (out ++ [Prompt text]), s, w).
Proof.
  intros Hl. unfold prompt_nonempty. simpl.
  apply String.eqb_neq in Hl. rewrite Hl. reflexivity.
Qed.

End Prompt.

(** X21. [prompt_nonempty] returns the first line of the input that is not
    blank, trimmed: the result is never empty.  Each blank line before it is
    answered by the complaint and a new prompt.  If the input ends before
    such a line, a newline is printed and [KeyboardInterrupt] is raised.  The
    store and the world are not touched. *)
Theorem prompt_nonempty_first_nonblank (text : string) (c : Console)
    (s : Inventory) (w : World) :
  match Cli.prompt_nonempty text c s w with
  | (Done r, c', s', w') =>
      s' = s /\ w' = w /\ r <> "" /\ PyStr.strip r = r /\
      exists skipped l,
        stdin c = skipped ++ l :: stdin c' /\ Forall blank skipped /\
        r = PyStr.strip l /\
        stdout c' = stdout c ++ rejected text skipped ++ [Prompt text]
  | (Fail e, c', s', w') =>
      s' = s /\ w' = w /\ e = KeyboardInterrupt /\
      Forall blank (stdin c) /\ stdin c' = [] /\
      stdout c' = stdout c ++ rejected text (stdin c) ++ [Prompt text; Line ""]
  end.
Proof.
  unfold Cli.prompt_nonempty.
  pose proof (prompt_nonempty_on_spec text (stdin c) (stdout c)) as H.
  destruct (Cli.prompt_nonempty_on text (stdin c) (stdout c)) as [[r|e] c'].
  - split; [reflexivity|]. split; [reflexivity|]. exact H.
  - split; [reflexivity|]. split; [reflexivity|]. exact H.
Qed.

(** ** The menu loop *)

Section Menu.
Import Cli.

Lemma menu_try_cons choice rest out s w :
  menu_try (mkConsole (choice :: rest) out) s w =
  menu_branch (PyStr.strip choice) (after_choice rest out) s w.
Proof.
  unfold menu_try, bind, print, input, after_choice. simpl.
  rewrite <- app_assoc. reflexivity.
Qed.

Lemma menu_turn_eof out s w :
  menu_turn (mkConsole [] out) s w =
  (Continue, mkConsole [] (out ++ eof_turn_output), s, w).
Proof.
  unfold menu_turn, menu_try, bind, print, input, eof_turn_output. simpl.
  rewrite <- !app_assoc. reflexivity.
Qed.

(** A branch that ends with [Continue] never breaks. *)
Lemma continue_not_break {A} (m : Cli A) c s w c' s' w' :
  bind m (fun _ => ret Continue) c s w <> (Done Break, c', s', w').
Proof.
  unfold bind, ret. destruct (m c s w) as [[[[a|e] c1] s1] w1]; discriminate.
Qed.

Lemma prompt_continue_not_break text (k : string -> Cli unit) c s w c' s' w' :
  bind (prompt_nonempty text) (fun x => bind (k x) (fun _ => ret Continue)) c s w
  <> (Done Break, c', s', w').
Proof.
  unfold bind at 1. destruct (prompt_nonempty text c s w) as [[[[a|e] c1] s1] w1];
    [apply continue_not_break|discriminate].
Qed.

(** Only the branch of choice 7 breaks, and it touches nothing but the
    terminal. *)
Lemma menu_branch_break choice c s w :
  forall c' s' w',
    menu_branch choice c s w = (Done Break, c', s', w') ->
    choice = "7" /\ stdin c' = stdin c /\ s' = s /\ w' = w.
Proof.
  intros c' s' w'. unfold menu_branch.
  destruct (String.eqb choice "1").
  { unfold bind at 1. destruct (prompt_nonempty _ c s w) as [[[[a|e] c1] s1] w1];
      [|discriminate].
    unfold bind at 1. destruct (prompt_nonempty _ c1 s1 w1) as [[[[a2|e] c2] s2] w2];
      [|discriminate].
    intros H. exfalso. exact (prompt_continue_not_break _ _ _ _ _ _ _ _ H). }
  destruct (String.eqb choice "2");
    [intros H; exfalso; exact (prompt_continue_not_break _ _ _ _ _ _ _ _ H)|].
  destruct (String.eqb choice "3");
    [intros H; exfalso; exact (prompt_continue_not_break _ _ _ _ _ _ _ _ H)|].
  destruct (String.eqb choice "4").
  { unfold bind at 1. destruct (call display_all c s w) as [[[[a|e] c1] s1] w1];
      [|discriminate].
    intros H. exfalso. exact (continue_not_break _ _ _ _ _ _ _ H). }
  destruct (String.eqb choice "5").
  { unfold bind at 1. destruct (prompt_nonempty _ c s w) as [[[[a|e] c1] s1] w1];
      [|discriminate].
    unfold bind at 1. destruct (call _ c1 s1 w1) as [[[[a2|e] c2] s2] w2];
      [|discriminate].
    intros H. exfalso. exact (continue_not_break _ _ _ _ _ _ _ H). }
  destruct (String.eqb choice "6").
  { unfold bind at 1. destruct (prompt_nonempty _ c s w) as [[[[a|e] c1] s1] w1];
      [|discriminate].
    unfold bind at 1. destruct (call _ c1 s1 w1) as [[[[a2|e] c2] s2] w2];
      [|discriminate].
    intros H. exfalso. exact (continue_not_break _ _ _ _ _ _ _ H). }
  destruct (String.eqb choice "7") eqn:H7.
  { apply String.eqb_eq in H7. intros [= <- <- <-]. auto. }
  intros H. exfalso. exact (continue_not_break _ _ _ _ _ _ _ H).
Qed.

Lemma menu_loop_S n c s w :
  menu_loop (S n) c s w =
  match menu_turn c s w with
  | (Continue, c', s', w') => menu_loop n c' s' w'
  | (Break, c', s', w') => (Returned, c', s', w')
  | (Sys_exit code, c', s', w') => (Exited code, c', s', w')
  end.
Proof. reflexivity. Qed.

End Menu.

(** X22. The loop returns exactly on choice 7.  A turn breaks only when
    the line read at the menu, trimmed, is "7", and it then leaves the store
    and the world as they were; and when that line is "7" the turn prints
    the farewell and the loop returns. *)
Theorem menu_returns_exactly_on_7 (c : Console) (s : Inventory) (w : World)
    (turns : nat) :
  (forall c' s' w',
     Cli.menu_turn c s w = (Break, c', s', w') ->
     exists choice,
       stdin c = choice :: stdin c' /\ PyStr.strip choice = "7" /\
       s' = s /\ w' = w) /\
  (forall choice rest,
     stdin c = choice :: rest ->
     PyStr.strip choice = "7" ->
     Cli.menu_loop (S turns) c s w =
     (Returned,
      mkConsole rest
        (stdout c ++ [Line Cli.MENU; Prompt "Enter choice (1-7): ";
                      Line "Exiting. Goodbye!"]),
      s, w)).
Proof.
  split.
  - intros c' s' w'. destruct c as [[|choice rest] out].
    + rewrite menu_turn_eof. discriminate.
    + unfold Cli.menu_turn. rewrite menu_try_cons.
      pose proof (menu_branch_break (PyStr.strip choice) (after_choice rest out) s w) as H.
      destruct (Cli.menu_branch _ _ s w) as [[[[t|[e| |]] c1] s1] w1];
        try discriminate.
      intros [= -> <- <- <-]. destruct (H _ _ _ eq_refl) as (Hc & Hin & -> & ->).
      exists choice. simpl. rewrite Hin. auto.
  - intros choice rest Hin H. destruct c as [lines out]. simpl in Hin. subst lines.
    rewrite menu_loop_S. unfold Cli.menu_turn. rewrite menu_try_cons, H.
    unfold after_choice. simpl. rewrite <- app_assoc. reflexivity.
Qed.

Lemma menu_returns_exactly_on_7_witness :
  let s := mkInventory (mkPath "data" "books.json") [] in
  let w := mkWorld "" ∅ [] [] in
  Cli.menu_loop 1 (mkConsole [" 7 "; "1"] []) s w =
  (Returned,
   mkConsole ["1"]
     [Line Cli.MENU; Prompt "Enter choice (1-7): "; Line "Exiting. Goodbye!"],
   s, w).
Proof.
  intros s w.
  apply (proj2 (menu_returns_exactly_on_7 (mkConsole [" 7 "; "1"] []) s w 0)
           " 7 " ["1"]); reflexivity.
Defined.

(** X23. Once the input has ended at the menu prompt the loop never ends:
    the [EOFError] of [input] is caught as an unexpected error, so every turn
    shows the menu, the prompt, the error and the traceback and goes on,
    without touching the store or the world. *)
Theorem menu_loop_spins_at_end_of_input (turns : nat) (out : list printed)
    (s : Inventory) (w : World) :
  Cli.menu_loop turns (mkConsole [] out) s w =
  (Running,
   mkConsole [] (out ++ concat (replicate turns eof_turn_output)),
   s, w).
Proof.
  revert out. induction turns as [|n IH]; intros out.
  - simpl. rewrite app_nil_r. reflexivity.
  - rewrite menu_loop_S, menu_turn_eof, IH. simpl. rewrite <- app_assoc. reflexivity.
Qed.

(** X24. Choice 1 with a title, an author and an ISBN that are not blank,
    the ISBN being new: the turn appends the book built from the trimmed
    answers, with status "available", and saves at once.  When that save
    returns, the target holds the list of one object per book of the new
    list, with the four keys and the values of the books, and the turn
    reports success. *)
Theorem menu_add_saves (choice t a i : string) (rest : list string)
    (out : list printed) (s s1 : Inventory) (w w1 : World) :
  PyStr.strip choice = "1" ->
  ~ blank t -> ~ blank a -> ~ blank i ->
  ~ In (PyStr.strip i) (map isbn (books s)) ->
  let b := mkBook (PyStr.strip t) (PyStr.strip a) (PyStr.strip i) "available" in
  let s' := mkInventory (json_path s) (books s ++ [b]) in
  LibraryInventory.save s' (world_after w 0 (files w) [Log_added b]) =
    (Return tt, s1, w1) ->
  Cli.menu_turn (mkConsole (choice :: t :: a :: i :: rest) out) s w =
  (Continue,
   mkConsole rest
     (out ++ [Line Cli.MENU; Prompt "Enter choice (1-7): ";
              Prompt "Title: "; Prompt "Author: "; Prompt "ISBN: ";
              Line "Book added successfully."]),
   s', w1) /\
  files w1 =
    <[json_path s :=
        Doc (JArr (map (fun b' => JObj (<["title" := JStr (title b')]>
                                       (<["author" := JStr (author b')]>
                                       (<["isbn" := JStr (isbn b')]>
                                       (<["status" := JStr (status b')]> ∅)))))
                       (books s ++ [b])))]> (files w).
Proof.
  intros Hc Ht Ha Hi Hnew b s' Hsave.
  destruct (save_returned _ _ _ _ Hsave) as [-> Hfs]. split; [|exact Hfs].
  unfold Cli.menu_turn. rewrite menu_try_cons, Hc. unfold after_choice.
  unfold Cli.menu_branch. change (String.eqb "1" "1") with true. cbv iota.
  unfold Cli.bind at 1. rewrite (prompt_nonempty_nonblank _ _ _ _ _ _ Ht).
  unfold Cli.bind at 1. rewrite (prompt_nonempty_nonblank _ _ _ _ _ _ Ha).
  unfold Cli.bind at 1. rewrite (prompt_nonempty_nonblank _ _ _ _ _ _ Hi).
  assert (Hb : Book.new (PyStr.strip t) (PyStr.strip a) (PyStr.strip i) None = b).
  { unfold Book.new, Book.post_init, b. simpl. rewrite !strip_idem. reflexivity. }
  rewrite Hb.
  unfold Cli.bind, Cli.reporting_ValueError, Cli.call, Cli.print, Cli.ret.
  rewrite add_book_eq.
  apply isbn_taken_not_In in Hnew. simpl isbn. rewrite Hnew.
  fold s'. rewrite Hsave. simpl.
  rewrite <- !app_assoc. reflexivity.
Qed.

Lemma menu_add_saves_witness :
  let p := mkPath "data" "books.json" in
  let record := fun t a i st : string =>
    JObj (<["title" := JStr t]> (<["author" := JStr a]>
         (<["isbn" := JStr i]> (<["status" := JStr st]> ∅)))) in
  let emma := mkBook "Emma" "Austen" "222" "issued" in
  let dune := mkBook "Dune" "Herbert" "111" "available" in
  let s := mkInventory p [emma] in
  let w := mkWorld "" ∅ [] [] in
  let w1 :=
    mkWorld ""
      {[ p := Doc (JArr [record "Emma" "Austen" "222" "issued";
                         record "Dune" "Herbert" "111" "available"]) ]} []
      [Log_added dune; Log_saved p] in
  Cli.menu_turn (mkConsole ["1"; " Dune"; "Herbert "; "111"; "7"] []) s w =
    (Continue,
     mkConsole ["7"]
       [Line Cli.MENU; Prompt "Enter choice (1-7): ";
        Prompt "Title: "; Prompt "Author: "; Prompt "ISBN: ";
        Line "Book added successfully."],
     mkInventory p [emma; dune], w1).
Proof.
  intros p record emma dune s w w1.
  refine (proj1 (menu_add_saves "1" " Dune" "Herbert " "111" ["7"] [] s
                   (mkInventory p [emma; dune]) w w1 eq_refl _ _ _ _ eq_refl)).
  - discriminate.
  - discriminate.
  - discriminate.
  - simpl. intros [H|[]]. discriminate H.
Defined.

(** ** What a turn of the menu does to the store *)

Section MenuEffects.
Import Cli.

Lemma store_kept_ret {A} (a : A) : store_kept (ret a).
Proof. intros c s w. reflexivity. Qed.

Lemma store_kept_print p : store_kept (print p).
Proof. intros c s w. reflexivity. Qed.

Lemma store_kept_prompt text : store_kept (prompt_nonempty text).
Proof.
  intros c s w. unfold prompt_nonempty.
  destruct (prompt_nonempty_on text (stdin c) (stdout c)). reflexivity.
Qed.

Lemma store_kept_bind {A B} (m : Cli A) (k : A -> Cli B) :
  store_kept m -> (forall a, store_kept (k a)) -> store_kept (bind m k).
Proof.
  unfold store_kept, store_after. intros Hm Hk c s w. unfold bind.
  specialize (Hm c s w).
  destruct (m c s w) as [[[[a|e] c1] s1] w1]; simpl in *.
  - rewrite Hk. exact Hm.
  - exact Hm.
Qed.

Lemma store_kept_print_all ps : store_kept (print_all ps).
Proof.
  induction ps as [|p rest IH]; simpl; [apply store_kept_ret|].
  apply store_kept_bind; [apply store_kept_print|intros _; exact IH].
Qed.

Lemma store_kept_print_book_at k : store_kept (print_book_at k).
Proof. intros c s w. unfold print_book_at. destruct (books s !! k); reflexivity. Qed.

Lemma store_kept_call {A} (m : M A) :
  (forall s w, (m s w).1.2 = s) -> store_kept (call m).
Proof.
  intros H c s w. unfold call. specialize (H s w).
  destruct (m s w) as [[[a|e] s1] w1]; exact H.
Qed.

Lemma within_kept {A} (m : Cli A) : store_kept m -> within_turn_effect m.
Proof. intros H c s w. rewrite H. left. reflexivity. Qed.

(** The store changes before or after a part that keeps it, not both. *)
Lemma within_bind_kept_first {A B} (m : Cli A) (k : A -> Cli B) :
  store_kept m -> (forall a, within_turn_effect (k a)) ->
  within_turn_effect (bind m k).
Proof.
  unfold store_kept, within_turn_effect, store_after. intros Hm Hk c s w.
  unfold bind. specialize (Hm c s w).
  destruct (m c s w) as [[[[a|e] c1] s1] w1]; simpl in *; subst s1.
  - apply Hk.
  - left. reflexivity.
Qed.

Lemma within_bind_kept_second {A B} (m : Cli A) (k : A -> Cli B) :
  within_turn_effect m -> (forall a, store_kept (k a)) ->
  within_turn_effect (bind m k).
Proof.
  unfold store_kept, within_turn_effect, store_after. intros Hm Hk c s w.
  unfold bind. specialize (Hm c s w).
  destruct (m c s w) as [[[[a|e] c1] s1] w1]; simpl in *.
  - rewrite Hk. exact Hm.
  - exact Hm.
Qed.

(** A continuation of [prompt_nonempty] only sees answers that are trimmed
    and not empty. *)
Lemma within_bind_prompt {B} text (k : string -> Cli B) :
  (forall r, r <> "" -> PyStr.strip r = r -> within_turn_effect (k r)) ->
  within_turn_effect (bind (prompt_nonempty text) k).
Proof.
  intros Hk c s w. unfold bind, prompt_nonempty.
  pose proof (prompt_nonempty_on_spec text (stdin c) (stdout c)) as H.
  destruct (prompt_nonempty_on text (stdin c) (stdout c)) as [[r|e] c1].
  - destruct H as (Hr & Hs & _). apply Hk; assumption.
  - left. reflexivity.
Qed.

Lemma within_reporting_ValueError (m : Cli unit) :
  within_turn_effect m -> within_turn_effect (reporting_ValueError m).
Proof.
  intros Hm c s w. unfold reporting_ValueError. specialize (Hm c s w).
  destruct (m c s w) as [[[[a|[e| |]] c1] s1] w1]; try exact Hm.
  destruct (is_ValueError e); exact Hm.
Qed.

Lemma within_add t a i :
  t <> "" -> PyStr.strip t = t -> a <> "" -> PyStr.strip a = a ->
  i <> "" -> PyStr.strip i = i ->
  within_turn_effect
    (call (LibraryInventory.add_book (Book.new t a i None));;;
     call LibraryInventory.save;;;
     print (Line "Book added successfully."))%cli.
Proof.
  intros Ht Hts Ha Has Hi His.
  apply within_bind_kept_second.
  - intros c s w. unfold call, store_after. rewrite add_book_eq.
    destruct (LibraryInventory.isbn_taken _ _); simpl; [left; reflexivity|].
    right. left. eexists. split; [reflexivity|]. simpl.
    rewrite Hts, Has, His. auto.
  - intros _. apply store_kept_bind; [|intros _; apply store_kept_print].
    apply store_kept_call. exact save_object.
Qed.

Lemma within_transition (i : string) (m : M unit) :
  (forall s w, only_first_status_differs i s (m s w).1.2) ->
  within_turn_effect (call m).
Proof.
  intros H c s w. right. right. exists i. unfold call, store_after.
  specialize (H s w). destruct (m s w) as [[[a|e] s1] w1]; exact H.
Qed.

Lemma within_menu_branch choice : within_turn_effect (menu_branch choice).
Proof.
  unfold menu_branch.
  destruct (String.eqb choice "1").
  { apply within_bind_prompt; intros t Ht Hts.
    apply within_bind_prompt; intros a Ha Has.
    apply within_bind_prompt; intros i Hi His.
    apply within_bind_kept_second; [|intros _; apply store_kept_ret].
    apply within_reporting_ValueError. apply within_add; assumption. }
  destruct (String.eqb choice "2").
  { apply within_bind_prompt; intros i _ _.
    apply within_bind_kept_second; [|intros _; apply store_kept_ret].
    apply within_reporting_ValueError.
    apply within_bind_kept_second; [|intros _; apply store_kept_print].
    apply (within_transition i). intros s w. rewrite issue_book_by_isbn_eq.
    destruct (LibraryInventory.first_with_isbn _ _) as [k|] eqn:Hk;
      [|apply only_first_status_differs_refl].
    destruct (books s !! k) as [b|] eqn:Hb; [|apply only_first_status_differs_refl].
    destruct (Book.is_available b); [|apply only_first_status_differs_refl].
    apply only_first_status_differs_transition; assumption. }
  destruct (String.eqb choice "3").
  { apply within_bind_prompt; intros i _ _.
    apply within_bind_kept_second; [|intros _; apply store_kept_ret].
    apply within_reporting_ValueError.
    apply within_bind_kept_second; [|intros _; apply store_kept_print].
    apply (within_transition i). intros s w. rewrite return_book_by_isbn_eq.
    destruct (LibraryInventory.first_with_isbn _ _) as [k|] eqn:Hk;
      [|apply only_first_status_differs_refl].
    destruct (books s !! k) as [b|] eqn:Hb; [|apply only_first_status_differs_refl].
    destruct (Book.is_available b); [apply only_first_status_differs_refl|].
    apply only_first_status_differs_transition; assumption. }
  destruct (String.eqb choice "4").
  { apply within_kept.
    apply store_kept_bind; [apply store_kept_call; reflexivity|intros entries].
    apply store_kept_bind; [|intros _; apply store_kept_ret].
    destruct entries; [apply store_kept_print|].
    apply store_kept_bind; [apply store_kept_print|intros _; apply store_kept_print_all]. }
  destruct (String.eqb choice "5").
  { apply within_kept.
    apply store_kept_bind; [apply store_kept_prompt|intros q].
    apply store_kept_bind; [apply store_kept_call; reflexivity|intros res].
    apply store_kept_bind; [|intros _; apply store_kept_ret].
    destruct res; [apply store_kept_print|].
    apply store_kept_bind; [apply store_kept_print|intros _; apply store_kept_print_all]. }
  destruct (String.eqb choice "6").
  { apply within_kept.
    apply store_kept_bind; [apply store_kept_prompt|intros i].
    apply store_kept_bind.
    - apply store_kept_call. intros s w. rewrite search_by_isbn_eq.
      destruct (LibraryInventory.first_with_isbn _ _); reflexivity.
    - intros b. apply store_kept_bind; [|intros _; apply store_kept_ret].
      destruct b; [apply store_kept_print_book_at|apply store_kept_print]. }
  destruct (String.eqb choice "7").
  { apply within_kept.
    apply store_kept_bind; [apply store_kept_print|intros _; apply store_kept_ret]. }
  apply within_kept.
  apply store_kept_bind; [apply store_kept_print|intros _; apply store_kept_ret].
Qed.

End MenuEffects.

(** X25. Whatever is typed, one turn of the menu does one of three things
    to the store: nothing; append one book whose title, author and ISBN are
    not empty and whose status is "available"; or change the status of one
    book, leaving the number of books and every title, author and ISBN as
    they were.  The menu never removes a book and never stores a blank
    field. *)
Theorem menu_turn_effect (c : Console) (s : Inventory) (w : World) :
  turn_effect s (Cli.menu_turn c s w).1.2.
Proof.
  unfold Cli.menu_turn.
  assert (H : within_turn_effect Cli.menu_try).
  { unfold Cli.menu_try.
    apply within_bind_kept_first; [apply store_kept_print|intros _].
    apply within_bind_kept_first; [|intros choice; apply within_menu_branch].
    intros c0 s0 w0. unfold Cli.input. destruct (stdin c0); reflexivity. }
  specialize (H c s w). unfold store_after in H.
  destruct (Cli.menu_try c s w) as [[[[t|[e| |]] c1] s1] w1]; exact H.
Qed.

(** ** Interrupts and failures in the menu *)

Section MenuInterrupt.
Import Cli.

Lemma prompt_nonempty_blank text lines out s w :
  Forall blank lines ->
  prompt_nonempty text (mkConsole lines out) s w =
  (Fail KeyboardInterrupt,
   mkConsole [] (out ++ rejected text lines ++ [Prompt text; Line ""]), s, w).
Proof.
  intros Hb. unfold prompt_nonempty. simpl. revert out.
  induction Hb as [|l rest Hl _ IH]; intros out; simpl; [reflexivity|].
  unfold blank in Hl. rewrite Hl. simpl.
  rewrite IH. unfold rejected. simpl. rewrite <- !app_assoc. reflexivity.
Qed.

Lemma never_interrupted_ret {A} (a : A) : never_interrupted (ret a).
Proof. intros c s w. discriminate. Qed.

Lemma never_interrupted_print p : never_interrupted (print p).
Proof. intros c s w. discriminate. Qed.

Lemma never_interrupted_input text : never_interrupted (input text).
Proof. intros c s w. unfold input. destruct (stdin c); discriminate. Qed.

Lemma never_interrupted_call {A} (m : M A) : never_interrupted (call m).
Proof.
  intros c s w. unfold call. destruct (m s w) as [[[a|e] s1] w1]; discriminate.
Qed.

Lemma never_interrupted_bind {A B} (m : Cli A) (k : A -> Cli B) :
  never_interrupted m -> (forall a, never_interrupted (k a)) ->
  never_interrupted (bind m k).
Proof.
  intros Hm Hk c s w. unfold bind. specialize (Hm c s w).
  destruct (m c s w) as [[[[a|e] c1] s1] w1]; simpl in *.
  - apply Hk.
  - intros [= ->]. apply Hm. reflexivity.
Qed.

Lemma never_interrupted_print_all ps : never_interrupted (print_all ps).
Proof.
  induction ps as [|p rest IH]; simpl; [apply never_interrupted_ret|].
  apply never_interrupted_bind; [apply never_interrupted_print|intros _; exact IH].
Qed.

Lemma never_interrupted_print_book_at k : never_interrupted (print_book_at k).
Proof.
  intros c s w. unfold print_book_at. destruct (books s !! k); discriminate.
Qed.

Lemma never_interrupted_reporting (m : Cli unit) :
  never_interrupted m -> never_interrupted (reporting_ValueError m).
Proof.
  intros Hm c s w. unfold reporting_ValueError. specialize (Hm c s w).
  destruct (m c s w) as [[[[a|[e| |]] c1] s1] w1]; try exact Hm.
  destruct (is_ValueError e); discriminate.
Qed.

Lemma clean_of_never {A} (m : Cli A) : never_interrupted m -> interrupted_clean m.
Proof.
  intros H c s w c' s' w' He. exfalso. apply (H c s w). rewrite He. reflexivity.
Qed.

Lemma clean_bind_prompt {B} text (k : string -> Cli B) :
  (forall a, interrupted_clean (k a)) ->
  interrupted_clean (bind (prompt_nonempty text) k).
Proof.
  intros Hk c s w c' s' w'. unfold bind, prompt_nonempty.
  pose proof (prompt_nonempty_on_spec text (stdin c) (stdout c)) as H.
  destruct (prompt_nonempty_on text (stdin c) (stdout c)) as [[r|e] c1].
  - apply Hk.
  - intros [= -> <- <- <-]. destruct H as (_ & _ & Hin & _). auto.
Qed.

Lemma clean_bind_terminal {A B} (m : Cli A) (k : A -> Cli B) :
  terminal_only m -> never_interrupted m -> (forall a, interrupted_clean (k a)) ->
  interrupted_clean (bind m k).
Proof.
  intros Ht Hn Hk c s w c' s' w'. unfold bind.
  specialize (Ht c s w). specialize (Hn c s w).
  unfold store_after, world_of in Ht.
  destruct (m c s w) as [[[[a|e] c1] s1] w1]; simpl in *;
    destruct Ht as [-> ->].
  - apply Hk.
  - intros [= -> <- <- <-]. exfalso. apply Hn. reflexivity.
Qed.

Lemma clean_menu_branch choice : interrupted_clean (menu_branch choice).
Proof.
  unfold menu_branch.
  destruct (String.eqb choice "1").
  { do 3 (apply clean_bind_prompt; intros ?).
    apply clean_of_never.
    apply never_interrupted_bind; [|intros _; apply never_interrupted_ret].
    apply never_interrupted_reporting.
    apply never_interrupted_bind; [apply never_interrupted_call|intros _].
    apply never_interrupted_bind; [apply never_interrupted_call|intros _].
    apply never_interrupted_print. }
  destruct (String.eqb choice "2").
  { apply clean_bind_prompt; intros ?. apply clean_of_never.
    apply never_interrupted_bind; [|intros _; apply never_interrupted_ret].
    apply never_interrupted_reporting.
    apply never_interrupted_bind; [apply never_interrupted_call|intros _].
    apply never_interrupted_print. }
  destruct (String.eqb choice "3").
  { apply clean_bind_prompt; intros ?. apply clean_of_never.
    apply never_interrupted_bind; [|intros _; apply never_interrupted_ret].
    apply never_interrupted_reporting.
    apply never_interrupted_bind; [apply never_interrupted_call|intros _].
    apply never_interrupted_print. }
  destruct (String.eqb choice "4").
  { apply clean_of_never.
    apply never_interrupted_bind; [apply never_interrupted_call|intros entries].
    apply never_interrupted_bind; [|intros _; apply never_interrupted_ret].
    destruct entries; [apply never_interrupted_print|].
    apply never_interrupted_bind;
      [apply never_interrupted_print|intros _; apply never_interrupted_print_all]. }
  destruct (String.eqb choice "5").
  { apply clean_bind_prompt; intros ?. apply clean_of_never.
    apply never_interrupted_bind; [apply never_interrupted_call|intros res].
    apply never_interrupted_bind; [|intros _; apply never_interrupted_ret].
    destruct res; [apply never_interrupted_print|].
    apply never_interrupted_bind;
      [apply never_interrupted_print|intros _; apply never_interrupted_print_all]. }
  destruct (String.eqb choice "6").
  { apply clean_bind_prompt; intros ?. apply clean_of_never.
    apply never_interrupted_bind; [apply never_interrupted_call|intros b].
    apply never_interrupted_bind; [|intros _; apply never_interrupted_ret].
    destruct b; [apply never_interrupted_print_book_at|apply never_interrupted_print]. }
  destruct (String.eqb choice "7").
  { apply clean_of_never.
    apply never_interrupted_bind;
      [apply never_interrupted_print|intros _; apply never_interrupted_ret]. }
  apply clean_of_never.
  apply never_interrupted_bind;
    [apply never_interrupted_print|intros _; apply never_interrupted_ret].
Qed.

Lemma clean_menu_try : interrupted_clean menu_try.
Proof.
  unfold menu_try.
  apply clean_bind_terminal;
    [intros c s w; split; reflexivity|apply never_interrupted_print|intros _].
  apply clean_bind_terminal;
    [|apply never_interrupted_input|intros choice; apply clean_menu_branch].
  intros c s w. unfold input. destruct (stdin c); split; reflexivity.
Qed.

Lemma returns_only_ret {A} (Q : A -> Prop) (a : A) : Q a -> returns_only Q (ret a).
Proof. intros H c s w a' [= <-]. exact H. Qed.

Lemma returns_only_bind {A B} (Q : B -> Prop) (m : Cli A) (k : A -> Cli B) :
  (forall a, returns_only Q (k a)) -> returns_only Q (bind m k).
Proof.
  intros Hk c s w b. unfold bind.
  destruct (m c s w) as [[[[a|e] c1] s1] w1]; simpl.
  - apply Hk.
  - discriminate.
Qed.

(** No branch of the menu returns an exit: a turn exits only through
    [KeyboardInterrupt]. *)
Lemma menu_branch_returns choice :
  returns_only (fun t => t = Continue \/ t = Break) (menu_branch choice).
Proof.
  unfold menu_branch.
  repeat match goal with
  | |- context [if String.eqb ?a ?b then _ else _] => destruct (String.eqb a b)
  end;
  repeat (apply returns_only_bind; intros ?);
  apply returns_only_ret; auto.
Qed.

Lemma menu_turn_exit c s w code c' s' w' :
  menu_turn c s w = (Sys_exit code, c', s', w') ->
  code = 0 /\ s' = s /\ w' = w /\ stdin c' = [].
Proof.
  unfold menu_turn. pose proof (clean_menu_try c s w) as H.
  assert (Hr : returns_only (fun t => t = Continue \/ t = Break) menu_try).
  { unfold menu_try. do 2 (apply returns_only_bind; intros ?).
    apply menu_branch_returns. }
  specialize (Hr c s w).
  destruct (menu_try c s w) as [[[[t|[e| |]] c1] s1] w1].
  - intros [= -> <- <- <-]. destruct (Hr _ eq_refl) as [Ht|Ht]; discriminate Ht.
  - discriminate.
  - discriminate.
  - intros [= <- <- <- <-]. destruct (H _ _ _ eq_refl) as (-> & -> & Hin).
    simpl. auto.
Qed.

End MenuInterrupt.

(** X26. With no interrupt from the keyboard, a turn calls [sys.exit] only
    when the input ends inside a prompt of [prompt_nonempty]: the exit code
    is then 0 and the store and the world are exactly as they were before
    the turn.  This happens whenever choice 1, 2, 3, 5 or 6 is followed by
    nothing but blank lines. *)
Theorem menu_exit_at_end_of_input (c : Console) (s : Inventory) (w : World) :
  (forall code c' s' w',
     Cli.menu_turn c s w = (Sys_exit code, c', s', w') ->
     code = 0 /\ s' = s /\ w' = w /\ stdin c' = []) /\
  (forall choice rest,
     stdin c = choice :: rest ->
     In (PyStr.strip choice) ["1"; "2"; "3"; "5"; "6"] ->
     Forall blank rest ->
     exists out', Cli.menu_turn c s w = (Sys_exit 0, mkConsole [] out', s, w)).
Proof.
  split; [intros code c' s' w'; apply menu_turn_exit|].
  intros choice rest Hin Hc Hb. destruct c as [lines out]. simpl in Hin. subst lines.
  unfold Cli.menu_turn. rewrite menu_try_cons. unfold after_choice.
  simpl in Hc.
  destruct Hc as [<-|[<-|[<-|[<-|[<-|[]]]]]];
    unfold Cli.menu_branch;
    repeat match goal with
    | |- context [String.eqb ?a ?b] =>
        let v := eval vm_compute in (String.eqb a b) in
        change (String.eqb a b) with v
    end;
    cbv iota; unfold Cli.bind at 1;
    rewrite (prompt_nonempty_blank _ _ _ _ _ Hb); eexists; reflexivity.
Qed.

Lemma menu_exit_at_end_of_input_witness :
  let s := mkInventory (mkPath "data" "books.json")
             [mkBook "Dune" "Herbert" "111" "available"] in
  let w := mkWorld "" ∅ [] [] in
  exists out',
    Cli.menu_turn (mkConsole ["2"; "  "; ""] []) s w =
    (Sys_exit 0, mkConsole [] out', s, w).
Proof.
  intros s w.
  apply (proj2 (menu_exit_at_end_of_input (mkConsole ["2"; "  "; ""] []) s w)
           "2" ["  "; ""]).
  - reflexivity.
  - simpl. tauto.
  - repeat constructor.
Defined.

(** X27. Choice 1 with answers that are not blank.  If the ISBN is taken,
    the turn reports the [ValueError] of [add_book] and changes neither the
    store nor the files.  If the ISBN is new and the save fails at [open],
    the book stays in the store although the file is unchanged: the turn
    reports an unexpected error instead of success, and the loop goes on. *)
Theorem menu_add_failures (choice t a i : string) (rest : list string)
    (out : list printed) (s : Inventory) (w : World) :
  PyStr.strip choice = "1" ->
  ~ blank t -> ~ blank a -> ~ blank i ->
  let b := mkBook (PyStr.strip t) (PyStr.strip a) (PyStr.strip i) "available" in
  let asked := out ++ [Line Cli.MENU; Prompt "Enter choice (1-7): ";
                       Prompt "Title: "; Prompt "Author: "; Prompt "ISBN: "] in
  (In (PyStr.strip i) (map isbn (books s)) ->
   Cli.menu_turn (mkConsole (choice :: t :: a :: i :: rest) out) s w =
   (Continue,
    mkConsole rest
      (asked ++ [Error_line (ValueError "Book with same ISBN already exists.")]),
    s,
    world_after w 0 (files w) [Log_duplicate_isbn (PyStr.strip i)])) /\
  (~ In (PyStr.strip i) (map isbn (books s)) ->
   forall e, fault_at 0 w = Some e ->
   Cli.menu_turn (mkConsole (choice :: t :: a :: i :: rest) out) s w =
   (Continue,
    mkConsole rest (asked ++ [Unexpected_line (OSError e); Traceback]),
    mkInventory (json_path s) (books s ++ [b]),
    world_after w 1 (files w) [Log_added b; Log_failed_to_save])).
Proof.
  intros Hc Ht Ha Hi b asked.
  assert (Hb : Book.new (PyStr.strip t) (PyStr.strip a) (PyStr.strip i) None = b).
  { unfold Book.new, Book.post_init, b. simpl. rewrite !strip_idem. reflexivity. }
  assert (Hturn :
    Cli.menu_turn (mkConsole (choice :: t :: a :: i :: rest) out) s w =
    match
      (Cli.bind
         (Cli.reporting_ValueError
            (Cli.bind (Cli.call (LibraryInventory.add_book b))
               (fun _ => Cli.bind (Cli.call LibraryInventory.save)
                  (fun _ => Cli.print (Line "Book added successfully.")))))
         (fun _ => Cli.ret Continue))
        (mkConsole rest asked) s w
    with
    | (Done t, c', s', w') => (t, c', s', w')
    | (Fail KeyboardInterrupt, c', s', w') =>
        (Sys_exit 0,
         mkConsole (stdin c')
           (stdout c' ++ [Line (Cli.nl ++ "Keyboard interrupt detected. Exiting.")]),
         s', w')
    | (Fail EOFError, c', s', w') =>
        (Continue, mkConsole (stdin c') (stdout c' ++ [Unexpected_eof; Traceback]),
         s', w')
    | (Fail (Store_error e), c', s', w') =>
        (Continue, mkConsole (stdin c') (stdout c' ++ [Unexpected_line e; Traceback]),
         s', w')
    end).
  { unfold Cli.menu_turn. rewrite menu_try_cons, Hc. unfold after_choice.
    unfold Cli.menu_branch. change (String.eqb "1" "1") with true. cbv iota.
    unfold Cli.bind at 1. rewrite (prompt_nonempty_nonblank _ _ _ _ _ _ Ht).
    unfold Cli.bind at 1. rewrite (prompt_nonempty_nonblank _ _ _ _ _ _ Ha).
    unfold Cli.bind at 1. rewrite (prompt_nonempty_nonblank _ _ _ _ _ _ Hi).
    rewrite Hb. unfold asked. rewrite <- !app_assoc. reflexivity. }
  rewrite Hturn. clear Hturn.
  unfold Cli.bind, Cli.reporting_ValueError, Cli.call, Cli.print, Cli.ret.
  rewrite add_book_eq. simpl isbn. split.
  - intros Hin. apply isbn_taken_In in Hin. rewrite Hin. reflexivity.
  - intros Hnew e He. apply isbn_taken_not_In in Hnew. rewrite Hnew.
    rewrite save_eq, !fault_at_world_after. simpl plus. rewrite He.
    rewrite world_after_after. reflexivity.
Qed.

Lemma menu_add_failures_witness :
  let p := mkPath "data" "books.json" in
  let dune := mkBook "Dune" "Herbert" "111" "available" in
  let s := mkInventory p [dune] in
  exists c1 w1 c2 w2,
    Cli.menu_turn (mkConsole ["1"; "Dune II"; "Herbert"; " 111 "] [])
                  s (mkWorld "" ∅ [] []) = (Continue, c1, s, w1) /\
    Cli.menu_turn (mkConsole ["1"; "Emma"; "Austen"; "222"] [])
                  s (mkWorld "" ∅ [Some EACCES] []) =
      (Continue, c2, mkInventory p [dune; mkBook "Emma" "Austen" "222" "available"], w2) /\
    files w2 = ∅.
Proof.
  intros p dune s.
  destruct (menu_add_failures "1" "Dune II" "Herbert" " 111 " [] [] s
              (mkWorld "" ∅ [] [])) as [Hdup _]; try discriminate; [reflexivity|].
  destruct (menu_add_failures "1" "Emma" "Austen" "222" [] [] s
              (mkWorld "" ∅ [Some EACCES] [])) as [_ Hfail]; try discriminate;
    [reflexivity|].
  eexists _, _, _, _. split; [|split].
  - apply Hdup. simpl. left. reflexivity.
  - apply (Hfail (fun H => match H with
                           | or_introl E => ltac:(discriminate E)
                           | or_intror F => match F with end
                           end) EACCES eq_refl).
  - reflexivity.
Defined.

(** ** A session of the menu program keeps the invariants of the store *)

Section Session.
Import Cli.

Lemma terminal_only_ret {A} (a : A) : terminal_only (ret a).
Proof. intros c s w. split; reflexivity. Qed.

Lemma terminal_only_print x : terminal_only (print x).
Proof. intros c s w. split; reflexivity. Qed.

Lemma terminal_only_input text : terminal_only (input text).
Proof. intros c s w. unfold input. destruct (stdin c); split; reflexivity. Qed.

Lemma terminal_only_prompt text : terminal_only (prompt_nonempty text).
Proof.
  intros c s w. unfold prompt_nonempty.
  destruct (prompt_nonempty_on text (stdin c) (stdout c)). split; reflexivity.
Qed.

Lemma terminal_only_print_book_at k : terminal_only (print_book_at k).
Proof.
  intros c s w. unfold print_book_at. destruct (books s !! k); split; reflexivity.
Qed.

Lemma terminal_only_bind {A B} (m : Cli A) (k : A -> Cli B) :
  terminal_only m -> (forall a, terminal_only (k a)) -> terminal_only (bind m k).
Proof.
  unfold terminal_only, store_after, world_of. intros Hm Hk c s w. unfold bind.
  specialize (Hm c s w).
  destruct (m c s w) as [[[[a|e] c1] s1] w1]; simpl in *; destruct Hm as [-> ->].
  - apply Hk.
  - split; reflexivity.
Qed.

Lemma terminal_only_print_all ps : terminal_only (print_all ps).
Proof.
  induction ps as [|x rest IH]; simpl; [apply terminal_only_ret|].
  apply terminal_only_bind; [apply terminal_only_print|intros _; exact IH].
Qed.

(** A property of the store and its files that the four methods the menu
    calls to change the store keep. *)
Variable I : Inventory -> World -> Prop.
Hypothesis I_files : forall s w w', files w' = files w -> I s w -> I s w'.
Hypothesis I_add :
  forall t a i s w, I s w ->
    I (LibraryInventory.add_book (Book.new t a i None) s w).1.2
      (LibraryInventory.add_book (Book.new t a i None) s w).2.
Hypothesis I_issue :
  forall i s w, I s w ->
    I (LibraryInventory.issue_book_by_isbn i s w).1.2
      (LibraryInventory.issue_book_by_isbn i s w).2.
Hypothesis I_return :
  forall i s w, I s w ->
    I (LibraryInventory.return_book_by_isbn i s w).1.2
      (LibraryInventory.return_book_by_isbn i s w).2.
Hypothesis I_save :
  forall s w, I s w -> I (LibraryInventory.save s w).1.2 (LibraryInventory.save s w).2.

Lemma cli_preserves_terminal {A} (m : Cli A) : terminal_only m -> cli_preserves I m.
Proof. intros H c s w Hi. destruct (H c s w) as [-> ->]. exact Hi. Qed.

Lemma cli_preserves_bind {A B} (m : Cli A) (k : A -> Cli B) :
  cli_preserves I m -> (forall a, cli_preserves I (k a)) -> cli_preserves I (bind m k).
Proof.
  unfold cli_preserves, store_after, world_of. intros Hm Hk c s w Hi. unfold bind.
  specialize (Hm c s w Hi).
  destruct (m c s w) as [[[[a|e] c1] s1] w1]; simpl in *.
  - apply Hk. exact Hm.
  - exact Hm.
Qed.

Lemma cli_preserves_reporting (m : Cli unit) :
  cli_preserves I m -> cli_preserves I (reporting_ValueError m).
Proof.
  unfold cli_preserves, store_after, world_of. intros Hm c s w Hi.
  unfold reporting_ValueError. specialize (Hm c s w Hi).
  destruct (m c s w) as [[[[a|[e| |]] c1] s1] w1]; try exact Hm.
  destruct (is_ValueError e); exact Hm.
Qed.

Lemma cli_preserves_call {A} (m : M A) :
  (forall s w, I s w -> I (m s w).1.2 (m s w).2) -> cli_preserves I (call m).
Proof.
  unfold cli_preserves, store_after, world_of. intros H c s w Hi. unfold call.
  specialize (H s w Hi). destruct (m s w) as [[[a|e] s1] w1]; exact H.
Qed.

(** A method that only reads the store and at most writes to the log. *)
Lemma cli_preserves_reader {A} (m : M A) :
  (forall s w, (m s w).1.2 = s /\ files (m s w).2 = files w) ->
  cli_preserves I (call m).
Proof.
  intros H. apply cli_preserves_call. intros s w Hi.
  destruct (H s w) as [-> Hf]. exact (I_files _ _ _ Hf Hi).
Qed.

Lemma cli_preserves_menu_branch choice : cli_preserves I (menu_branch choice).
Proof.
  unfold menu_branch.
  destruct (String.eqb choice "1").
  { do 3 (apply cli_preserves_bind;
          [apply cli_preserves_terminal, terminal_only_prompt|intros ?]).
    apply cli_preserves_bind;
      [|intros _; apply cli_preserves_terminal, terminal_only_ret].
    apply cli_preserves_reporting.
    apply cli_preserves_bind; [apply cli_preserves_call, I_add|intros _].
    apply cli_preserves_bind; [apply cli_preserves_call, I_save|intros _].
    apply cli_preserves_terminal, terminal_only_print. }
  destruct (String.eqb choice "2").
  { apply cli_preserves_bind;
      [apply cli_preserves_terminal, terminal_only_prompt|intros i].
    apply cli_preserves_bind;
      [|intros _; apply cli_preserves_terminal, terminal_only_ret].
    apply cli_preserves_reporting.
    apply cli_preserves_bind;
      [|intros _; apply cli_preserves_terminal, terminal_only_print].
    apply cli_preserves_call, I_issue. }
  destruct (String.eqb choice "3").
  { apply cli_preserves_bind;
      [apply cli_preserves_terminal, terminal_only_prompt|intros i].
    apply cli_preserves_bind;
      [|intros _; apply cli_preserves_terminal, terminal_only_ret].
    apply cli_preserves_reporting.
    apply cli_preserves_bind;
      [|intros _; apply cli_preserves_terminal, terminal_only_print].
    apply cli_preserves_call, I_return. }
  destruct (String.eqb choice "4").
  { apply cli_preserves_bind.
    - apply cli_preserves_reader. intros s w. split; reflexivity.
    - intros entries. apply cli_preserves_terminal.
      apply terminal_only_bind; [|intros _; apply terminal_only_ret].
      destruct entries; [apply terminal_only_print|].
      apply terminal_only_bind;
        [apply terminal_only_print|intros _; apply terminal_only_print_all]. }
  destruct (String.eqb choice "5").
  { apply cli_preserves_bind;
      [apply cli_preserves_terminal, terminal_only_prompt|intros q].
    apply cli_preserves_bind.
    - apply cli_preserves_reader. intros s w. split; reflexivity.
    - intros res. apply cli_preserves_terminal.
      apply terminal_only_bind; [|intros _; apply terminal_only_ret].
      destruct res; [apply terminal_only_print|].
      apply terminal_only_bind;
        [apply terminal_only_print|intros _; apply terminal_only_print_all]. }
  destruct (String.eqb choice "6").
  { apply cli_preserves_bind;
      [apply cli_preserves_terminal, terminal_only_prompt|intros i].
    apply cli_preserves_bind.
    - apply cli_preserves_reader. intros s w. rewrite search_by_isbn_eq.
      destruct (LibraryInventory.first_with_isbn _ _); split; reflexivity.
    - intros b. apply cli_preserves_terminal.
      apply terminal_only_bind; [|intros _; apply terminal_only_ret].
      destruct b; [apply terminal_only_print_book_at|apply terminal_only_print]. }
  destruct (String.eqb choice "7").
  { apply cli_preserves_terminal.
    apply terminal_only_bind; [apply terminal_only_print|intros _; apply terminal_only_ret]. }
  apply cli_preserves_terminal.
  apply terminal_only_bind; [apply terminal_only_print|intros _; apply terminal_only_ret].
Qed.

Lemma menu_turn_preserves c s w :
  I s w -> I (menu_turn c s w).1.2 (menu_turn c s w).2.
Proof.
  intros Hi. unfold menu_turn.
  assert (H : cli_preserves I menu_try).
  { unfold menu_try.
    apply cli_preserves_bind;
      [apply cli_preserves_terminal, terminal_only_print|intros _].
    apply cli_preserves_bind;
      [apply cli_preserves_terminal, terminal_only_input|intros choice].
    apply cli_preserves_menu_branch. }
  specialize (H c s w Hi). unfold store_after, world_of in H.
  destruct (menu_try c s w) as [[[[t|[e| |]] c1] s1] w1]; exact H.
Qed.

Lemma menu_loop_preserves turns c s w :
  I s w -> I (menu_loop turns c s w).1.2 (menu_loop turns c s w).2.
Proof.
  revert c s w. induction turns as [|n IH]; intros c s w Hi; [exact Hi|].
  rewrite menu_loop_S. pose proof (menu_turn_preserves c s w Hi) as Ht.
  destruct (menu_turn c s w) as [[[[| |code] c1] s1] w1]; simpl in Ht.
  - apply IH. exact Ht.
  - exact Ht.
  - exact Ht.
Qed.

End Session.

(** X28. In a session of the menu program, however long it runs and
    whatever is typed, every book of the store is normalized, so that every
    status is "available" or "issued"; and the ISBNs of the store are
    pairwise distinct provided that the document found at the default path
    when the program starts, if it is a list that loads, has pairwise
    distinct trimmed ISBNs. *)
Theorem cli_main_keeps_store_invariants (turns : nat) (c : Console) (w : World) :
  Forall normalized (books (Cli.cli_main turns c w).1.2) /\
  (loads_distinct (files w !! LibraryInventory.default_json_path w) ->
   distinct_isbns (books (Cli.cli_main turns c w).1.2)).
Proof.
  unfold Cli.cli_main.
  pose proof (normalized_init None w) as Hn.
  pose proof (init_inv None w) as Hinv. simpl default in *.
  destruct (LibraryInventory.init None w) as [s0 w0]. simpl in Hn, Hinv.
  set (p := LibraryInventory.default_json_path w) in *.
  split.
  - refine (proj2 (menu_loop_preserves (fun s _ => normalized_store p s)
                     _ _ _ _ _ turns (Cli.print_header c) s0 w0 Hn)).
    + intros s w1 w2 _ H. exact H.
    + intros t a i s w1. exact (normalized_run_call p (Call_add t a i None) s w1).
    + intros i s w1. exact (normalized_run_call p (Call_issue i) s w1).
    + intros i s w1. exact (normalized_run_call p (Call_return i) s w1).
    + intros s w1. exact (normalized_run_call p Call_save s w1).
  - intros Hf.
    refine (proj1 (proj2 (menu_loop_preserves (store_inv p)
                     _ _ _ _ _ turns (Cli.print_header c) s0 w0 (Hinv Hf)))).
    + intros s w1 w2 Hw H. exact (store_inv_files p s w1 w2 Hw H).
    + intros t a i s w1. exact (keeps_run_call p (Call_add t a i None) s w1).
    + intros i s w1. exact (keeps_run_call p (Call_issue i) s w1).
    + intros i s w1. exact (keeps_run_call p (Call_return i) s w1).
    + intros s w1. exact (keeps_run_call p Call_save s w1).
Qed.

Lemma cli_main_keeps_store_invariants_witness :
  let w := mkWorld "/home/reader" ∅ [] [] in
  let c := mkConsole ["1"; "Dune"; "Herbert"; "111"; "1"; "Dune"; "H."; " 111 "; "2"; "111"] [] in
  distinct_isbns (books (Cli.cli_main 5 c w).1.2).
Proof.
  intros w c.
  apply (proj2 (cli_main_keeps_store_invariants 5 c w)).
  simpl. exact I.
Defined.
